(** * Anomaly detection in EPS: the LSTM autoencoder trainer and the data combiner

    A shallow embedding of [src/lstm_trainer.py] and [src/combine_data.py].

    Conventions of the embedding.
    - A Python [float] (and a numpy [float64]) is a primitive binary64 [float].
      Tensor elements are carried as [float] too; the rounding of torch's
      [float32] is not modelled.
    - A torch tensor and a numpy array are a shape with row-major data.
    - A Python exception is the [Raise] outcome of a computation; whatever was
      mutated before it stays mutated.
    - The mutable objects of a run (the files on disk, [Trainer.history], the
      parameters of the model object) are the fields of one explicit [state].
      A file is named by its path string as written in the program, and
      directories are taken to exist. Two spellings of one file
      ([training_logs/x] and [./training_logs/x]) are two keys of [files]; a
      theorem that needs two paths to name different files asks for paths
      with different components ([path_components]). Links are not
      modelled.
    - The numeric kernels of the libraries that the program calls but that do
      not shape its control flow are class parameters: the activation
      functions ([Activations]), back-propagation with the Adam update
      ([Optimizer]), the sklearn metrics ([Metrics]) and Python's [float] of
      a string ([Builtins]); the scaler handed to [plot_prediction] is any
      [Scaler]. Every theorem holds for all of them. As class parameters
      they are functions of their arguments: whether a device computes them
      with the same bits on every run is not something the embedding states.
    - Calls that change nothing the program reads back are left out:
      [model.train()], [model.eval()] (the layers have no dropout),
      [.to(device)], [print] and the progress bars. *)

From Stdlib Require Import ZArith List String Ascii Floats Uint63 Permutation Sorted Lia.
From stdpp Require Import base option list gmap strings.

Local Open Scope nat_scope.

(** ** Floats *)

Module F.
Definition zero : float := PrimFloat.of_uint63 0%uint63.
Definition of_nat (n : nat) : float := PrimFloat.of_uint63 (Uint63.of_Z (Z.of_nat n)).
Definition add := PrimFloat.add.
Definition sub := PrimFloat.sub.
Definition mul := PrimFloat.mul.
Definition div := PrimFloat.div.
Definition abs := PrimFloat.abs.
Definition sqrt := PrimFloat.sqrt.
(** Python's [a <= b], [a >= b] and [a == b] on floats. *)
Definition le (a b : float) : bool := PrimFloat.leb a b.
Definition ge (a b : float) : bool := PrimFloat.leb b a.
Definition eq (a b : float) : bool := PrimFloat.eqb a b.
Definition sum (xs : list float) : float := fold_left add xs zero.
End F.

(** [np.mean] of a one-dimensional array: the sum over the count (the empty
    array gives 0/0, numpy's nan). *)
Definition np_mean (xs : list float) : float :=
  F.div (F.sum xs) (F.of_nat (length xs)).

(** [np.std] with the default [ddof=0]:
    [sqrt (mean (abs (x - mean x) ** 2))]. *)
Definition np_std (xs : list float) : float :=
  let arrmean := np_mean xs in
  let x := map (fun v => F.sub v arrmean) xs in
  let x := map (fun v => F.mul v v) x in
  F.sqrt (F.div (F.sum x) (F.of_nat (length xs))).

(** ** Exceptions *)

Inductive exn : Type :=
  | RuntimeError | ValueError | TypeError | IndexError | KeyError
  | FileNotFoundError.

Inductive result (A : Type) : Type :=
  | Ok (a : A)
  | Raise (e : exn).
Arguments Ok {A} a.
Arguments Raise {A} e.

#[export] Instance result_ret : MRet result := fun _ a => Ok a.
#[export] Instance result_bind : MBind result := fun _ _ f m =>
  match m with Ok a => f a | Raise e => Raise e end.
#[export] Instance result_fmap : FMap result := fun _ _ f m =>
  match m with Ok a => Ok (f a) | Raise e => Raise e end.

(** [for x in xs: ys.append(f x)] where [f] may raise. *)
Fixpoint mapR {A B} (f : A -> result B) (xs : list A) : result (list B) :=
  match xs with
  | [] => Ok []
  | x :: xs' => y ← f x; ys ← mapR f xs'; Ok (y :: ys)
  end.

(** ** Tensors *)

Record tensor : Type := Tensor { shape : list nat; data : list float }.

Definition numel (dims : list nat) : nat := fold_right Nat.mul 1 dims.

Definition tensor_wf (t : tensor) : Prop := length (data t) = numel (shape t).

(** Rows of [n] elements each, in order (the last chunk of a ragged list is
    dropped; callers check sizes first). *)
Fixpoint chunks (fuel n : nat) (xs : list float) : list (list float) :=
  match fuel with
  | O => []
  | S fuel' => take n xs :: chunks fuel' n (drop n xs)
  end.

Definition rows (r c : nat) (xs : list float) : list (list float) := chunks r c xs.

(** [x.reshape(dims)], where one entry of [dims] may be [-1]. *)
Definition resolve_dims (total : nat) (dims : list Z) : result (list nat) :=
  let known := filter (fun d => d ≠ (-1)%Z) dims in
  let holes := length dims - length known in
  if bool_decide (Exists (fun d => (d < -1)%Z) dims) then Raise RuntimeError
  else
    let p := numel (map Z.to_nat known) in
    match holes with
    | 0 => if bool_decide (p = total) then Ok (map Z.to_nat dims) else Raise RuntimeError
    | 1 =>
        if bool_decide (p = 0) then Raise RuntimeError
        else if bool_decide (total mod p = 0)
             then Ok (map (fun d => if bool_decide (d = (-1)%Z) then total / p else Z.to_nat d) dims)
             else Raise RuntimeError
    | _ => Raise RuntimeError
    end.

Definition reshape (x : tensor) (dims : list Z) : result tensor :=
  s ← resolve_dims (length (data x)) dims;
  Ok (Tensor s (data x)).

(** ** The torch layers the program is built from *)

(** [torch.sigmoid] and [torch.tanh], element by element. *)
Class Activations : Type := {
  sigmoid : float -> float;
  tanh : float -> float
}.

Definition dot (a b : list float) : float := F.sum (zip_with F.mul a b).
Definition matvec (w : list (list float)) (x : list float) : list float :=
  map (fun r => dot r x) w.
Definition vadd (a b : list float) : list float := zip_with F.add a b.
Definition vmul (a b : list float) : list float := zip_with F.mul a b.

(** [nn.LSTM(input_size, hidden_size, num_layers, batch_first=True)]. The
    parameters of a layer are laid out as torch does: the four gates
    (input, forget, cell, output) stacked along the first axis. *)
Module LSTM.
Record layer : Type := Layer {
  weight_ih : list (list float);
  weight_hh : list (list float);
  bias_ih : list float;
  bias_hh : list float
}.

Record t : Type := Make {
  input_size : nat;
  hidden_size : nat;
  layers : list layer
}.

Definition num_layers (m : t) : nat := length (layers m).

Definition layer_wf (inp hid : nat) (l : layer) : Prop :=
  length (weight_ih l) = 4 * hid /\ Forall (fun r => length r = inp) (weight_ih l) /\
  length (weight_hh l) = 4 * hid /\ Forall (fun r => length r = hid) (weight_hh l) /\
  length (bias_ih l) = 4 * hid /\ length (bias_hh l) = 4 * hid.

(** Layer 0 reads the input, every further layer reads the layer below. *)
Fixpoint layers_wf (inp hid : nat) (ls : list layer) : Prop :=
  match ls with
  | [] => True
  | l :: ls' => layer_wf inp hid l /\ layers_wf hid hid ls'
  end.

Definition wf (m : t) : Prop :=
  0 < hidden_size m /\ 0 < num_layers m /\
  layers_wf (input_size m) (hidden_size m) (layers m).

(** A module all of whose parameters hold [w]; it stands for the module
    that [nn.LSTM(...)] returns, whose parameters are drawn at random. *)
Definition init_layer (inp hid : nat) (w : float) : layer :=
  Layer (replicate (4 * hid) (replicate inp w)) (replicate (4 * hid) (replicate hid w))
        (replicate (4 * hid) w) (replicate (4 * hid) w).

Fixpoint init_layers (inp hid n : nat) (w : float) : list layer :=
  match n with
  | O => []
  | S n' => init_layer inp hid w :: init_layers hid hid n' w
  end.

Definition init (inp hid n : nat) (w : float) : result t :=
  if bool_decide (hid = 0) then Raise ValueError
  else if bool_decide (n = 0) then Raise ValueError
  else Ok (Make inp hid (init_layers inp hid n w)).

Section Forward.
Context `{Activations}.

Definition cell (hid : nat) (l : layer) (x : list float) (hc : list float * list float)
  : list float * list float :=
  let '(h, c) := hc in
  let gates := vadd (vadd (matvec (weight_ih l) x) (bias_ih l))
                    (vadd (matvec (weight_hh l) h) (bias_hh l)) in
  let i := map sigmoid (take hid gates) in
  let f := map sigmoid (take hid (drop hid gates)) in
  let g := map tanh (take hid (drop (2 * hid) gates)) in
  let o := map sigmoid (take hid (drop (3 * hid) gates)) in
  let c' := vadd (vmul f c) (vmul i g) in
  let h' := vmul o (map tanh c') in
  (h', c').

(** One layer over the time steps: the hidden state of every step, and
    the final hidden and cell state. *)
Fixpoint run_layer (hid : nat) (l : layer) (xs : list (list float))
    (hc : list float * list float) : list (list float) * (list float * list float) :=
  match xs with
  | [] => ([], hc)
  | x :: xs' =>
      let hc' := cell hid l x hc in
      let '(ys, fin) := run_layer hid l xs' hc' in
      (fst hc' :: ys, fin)
  end.

(** The stack of layers, each started from the zero state. *)
Fixpoint run_layers (hid : nat) (ls : list layer) (xs : list (list float))
  : list (list float) * list (list float * list float) :=
  match ls with
  | [] => (xs, [])
  | l :: ls' =>
      let '(ys, fin) := run_layer hid l xs (replicate hid F.zero, replicate hid F.zero) in
      let '(out, fins) := run_layers hid ls' ys in
      (out, fin :: fins)
  end.

(** [output, (h_n, c_n) = lstm(x)] for a batch of one sequence, which is
    all the program passes: [x] has shape (1, L, input_size), [output]
    (1, L, hidden_size), [h_n] and [c_n] (num_layers, 1, hidden_size).
    Other batch sizes are outside this model and raise here. *)
Definition forward (m : t) (x : tensor) : result (tensor * (tensor * tensor)) :=
  match shape x with
  | [1; len; inp] =>
      if bool_decide (inp ≠ input_size m) then Raise RuntimeError
      else if bool_decide (len = 0) then Raise RuntimeError
      else if bool_decide (layers m = []) then Raise RuntimeError
      else
        let hid := hidden_size m in
        let '(out, fins) := run_layers hid (layers m) (rows len inp (data x)) in
        Ok (Tensor [1; len; hid] (concat out),
            (Tensor [num_layers m; 1; hid] (concat (map fst fins)),
             Tensor [num_layers m; 1; hid] (concat (map snd fins))))
  | _ => Raise RuntimeError
  end.
End Forward.
End LSTM.

(** [nn.Linear(in_features, out_features)] applied along the last axis. *)
Module Linear.
Record t : Type := Make {
  in_features : nat;
  out_features : nat;
  weight : list (list float);
  bias : list float
}.

Definition wf (m : t) : Prop :=
  length (weight m) = out_features m /\
  Forall (fun r => length r = in_features m) (weight m) /\
  length (bias m) = out_features m.

Definition init (inp out : nat) (w : float) : t :=
  Make inp out (replicate out (replicate inp w)) (replicate out w).

Definition forward (m : t) (x : tensor) : result tensor :=
  match last (shape x) with
  | Some inp =>
      if bool_decide (inp ≠ in_features m) then Raise RuntimeError
      else
        let lead := removelast (shape x) in
        let ys := map (fun r => vadd (matvec (weight m) r) (bias m))
                      (rows (numel lead) inp (data x)) in
        Ok (Tensor (lead ++ [out_features m]) (concat ys))
  | None => Raise RuntimeError
  end.
End Linear.

(** [x.repeat((a, b))] on a two-dimensional tensor: the block of rows tiled
    [a] times, every row tiled [b] times. *)
Definition tensor_repeat (x : tensor) (sizes : list nat) : result tensor :=
  match shape x, sizes with
  | [r; c], [a; b] =>
      let tiled := map (fun row => concat (replicate b row)) (rows r c (data x)) in
      Ok (Tensor [a * r; b * c] (concat (replicate a (concat tiled))))
  | _, _ => Raise RuntimeError
  end.

(** ** The autoencoder (classes [Encoder], [Decoder], [LAE]) *)

Module Encoder.
Record t : Type := Make {
  seq_len : nat;
  n_features : nat;
  embedding_dim : nat;
  hidden_dim : nat;
  lstm1 : LSTM.t;
  lstm2 : LSTM.t
}.

(** [Encoder(seq_len, n_features, embedding_dim, num_layers)]; [w] stands
    for the random initial parameters. *)
Definition init (seq_len n_features embedding_dim num_layers : nat) (w : float) : result t :=
  let hidden_dim := 2 * embedding_dim in
  lstm1 ← LSTM.init n_features hidden_dim num_layers w;
  lstm2 ← LSTM.init hidden_dim embedding_dim num_layers w;
  Ok (Make seq_len n_features embedding_dim hidden_dim lstm1 lstm2).

(** What [__init__] establishes and no method changes. *)
Definition wf (num_layers : nat) (m : t) : Prop :=
  hidden_dim m = 2 * embedding_dim m /\
  LSTM.input_size (lstm1 m) = n_features m /\
  LSTM.hidden_size (lstm1 m) = hidden_dim m /\
  LSTM.num_layers (lstm1 m) = num_layers /\
  LSTM.input_size (lstm2 m) = hidden_dim m /\
  LSTM.hidden_size (lstm2 m) = embedding_dim m /\
  LSTM.num_layers (lstm2 m) = num_layers /\
  LSTM.wf (lstm1 m) /\ LSTM.wf (lstm2 m).

Definition forward `{Activations} (m : t) (x : tensor) : result tensor :=
  x ← reshape x [1%Z; Z.of_nat (seq_len m); Z.of_nat (n_features m)];
  '(x, hidden_states) ← LSTM.forward (lstm1 m) x;
  '(x, hidden_states) ← LSTM.forward (lstm2 m) x;
  reshape (fst hidden_states) [(-1)%Z; Z.of_nat (embedding_dim m)].
End Encoder.

Module Decoder.
Record t : Type := Make {
  seq_len : nat;
  input_dim : nat;
  hidden_dim : nat;
  output_dim : nat;
  lstm1 : LSTM.t;
  lstm2 : LSTM.t;
  linear : Linear.t
}.

Definition init (seq_len input_dim output_dim num_layers : nat) (w : float) : result t :=
  let hidden_dim := 2 * input_dim in
  lstm1 ← LSTM.init input_dim input_dim num_layers w;
  lstm2 ← LSTM.init input_dim hidden_dim num_layers w;
  Ok (Make seq_len input_dim hidden_dim output_dim lstm1 lstm2
           (Linear.init hidden_dim output_dim w)).

Definition wf (num_layers : nat) (m : t) : Prop :=
  hidden_dim m = 2 * input_dim m /\
  LSTM.input_size (lstm1 m) = input_dim m /\
  LSTM.hidden_size (lstm1 m) = input_dim m /\
  LSTM.num_layers (lstm1 m) = num_layers /\
  LSTM.input_size (lstm2 m) = input_dim m /\
  LSTM.hidden_size (lstm2 m) = hidden_dim m /\
  LSTM.num_layers (lstm2 m) = num_layers /\
  Linear.in_features (linear m) = hidden_dim m /\
  Linear.out_features (linear m) = output_dim m /\
  LSTM.wf (lstm1 m) /\ LSTM.wf (lstm2 m) /\ Linear.wf (linear m).

Definition forward `{Activations} (m : t) (x : tensor) : result tensor :=
  x ← tensor_repeat x [seq_len m; 1];
  x ← reshape x [1%Z; Z.of_nat (seq_len m); Z.of_nat (input_dim m)];
  '(x, hidden_states) ← LSTM.forward (lstm1 m) x;
  '(x, hidden_states) ← LSTM.forward (lstm2 m) x;
  x ← reshape x [Z.of_nat (seq_len m); Z.of_nat (hidden_dim m)];
  Linear.forward (linear m) x.
End Decoder.

Module LAE.
Record t : Type := Make {
  seq_len : nat;
  n_features : nat;
  embedding_dim : nat;
  encoder : Encoder.t;
  decoder : Decoder.t
}.

(** [LAE(seq_len, n_features, embedding_dim, num_layers)]. *)
Definition init (seq_len n_features embedding_dim num_layers : nat) (w : float) : result t :=
  encoder ← Encoder.init seq_len n_features embedding_dim num_layers w;
  decoder ← Decoder.init seq_len embedding_dim n_features num_layers w;
  Ok (Make seq_len n_features embedding_dim encoder decoder).

Definition wf (num_layers : nat) (m : t) : Prop :=
  Encoder.seq_len (encoder m) = seq_len m /\
  Encoder.n_features (encoder m) = n_features m /\
  Encoder.embedding_dim (encoder m) = embedding_dim m /\
  Decoder.seq_len (decoder m) = seq_len m /\
  Decoder.input_dim (decoder m) = embedding_dim m /\
  Decoder.output_dim (decoder m) = n_features m /\
  Encoder.wf num_layers (encoder m) /\ Decoder.wf num_layers (decoder m).

Definition forward `{Activations} (m : t) (x : tensor) : result tensor :=
  x ← Encoder.forward (encoder m) x;
  x ← Decoder.forward (decoder m) x;
  Ok x.
End LAE.

(** [nn.L1Loss(reduction="mean")(input, target)] followed by [.item()]: the
    mean absolute difference over all elements. Sequences of the shape the
    model was built for give equal shapes; unequal shapes (which torch would
    try to broadcast) raise here. *)
Definition criterion (input target : tensor) : result float :=
  if bool_decide (shape input = shape target)
  then Ok (np_mean (zip_with (fun a b => F.abs (F.sub a b)) (data input) (data target)))
  else Raise RuntimeError.

(** [model.state_dict()] is the parameters; [load_state_dict(..., strict=True)]
    wants the same parameter names and shapes as the receiving model has. *)
Definition mat_shape (w : list (list float)) : list nat := map length w.

Definition lstm_shapes (m : LSTM.t) : list (list nat * list nat * nat * nat) :=
  map (fun l => (mat_shape (LSTM.weight_ih l), mat_shape (LSTM.weight_hh l),
                 length (LSTM.bias_ih l), length (LSTM.bias_hh l))) (LSTM.layers m).

Definition linear_shapes (m : Linear.t) : list nat * nat :=
  (mat_shape (Linear.weight m), length (Linear.bias m)).

Definition param_shapes (m : LAE.t) :=
  (lstm_shapes (Encoder.lstm1 (LAE.encoder m)), lstm_shapes (Encoder.lstm2 (LAE.encoder m)),
   lstm_shapes (Decoder.lstm1 (LAE.decoder m)), lstm_shapes (Decoder.lstm2 (LAE.decoder m)),
   linear_shapes (Decoder.linear (LAE.decoder m))).

Definition lstm_with (m sd : LSTM.t) : LSTM.t :=
  LSTM.Make (LSTM.input_size m) (LSTM.hidden_size m) (LSTM.layers sd).

Definition linear_with (m sd : Linear.t) : Linear.t :=
  Linear.Make (Linear.in_features m) (Linear.out_features m) (Linear.weight sd) (Linear.bias sd).

Definition with_params (m sd : LAE.t) : LAE.t :=
  let e := LAE.encoder m in
  let d := LAE.decoder m in
  LAE.Make (LAE.seq_len m) (LAE.n_features m) (LAE.embedding_dim m)
    (Encoder.Make (Encoder.seq_len e) (Encoder.n_features e) (Encoder.embedding_dim e)
       (Encoder.hidden_dim e)
       (lstm_with (Encoder.lstm1 e) (Encoder.lstm1 (LAE.encoder sd)))
       (lstm_with (Encoder.lstm2 e) (Encoder.lstm2 (LAE.encoder sd))))
    (Decoder.Make (Decoder.seq_len d) (Decoder.input_dim d) (Decoder.hidden_dim d)
       (Decoder.output_dim d)
       (lstm_with (Decoder.lstm1 d) (Decoder.lstm1 (LAE.decoder sd)))
       (lstm_with (Decoder.lstm2 d) (Decoder.lstm2 (LAE.decoder sd)))
       (linear_with (Decoder.linear d) (Decoder.linear (LAE.decoder sd)))).

Definition load_state_dict (model sd : LAE.t) : result LAE.t :=
  if bool_decide (param_shapes sd = param_shapes model)
  then Ok (with_params model sd)
  else Raise RuntimeError.

(** The rest of what the program calls without defining: one optimisation
    step ([loss.backward(); optimizer.step()] after [optimizer.zero_grad()])
    and the two sklearn metrics. *)
Class Optimizer : Type := {
  optimizer : Type;
  Adam : LAE.t -> float -> optimizer;
  backward_step : optimizer -> LAE.t -> tensor -> optimizer * LAE.t
}.

(** [sklearn.metrics.mean_absolute_error] and [r2_score] of two arrays;
    both validate their input and may raise. *)
Class Metrics : Type := {
  mean_absolute_error : tensor -> tensor -> result float;
  r2_score : tensor -> tensor -> result float
}.

(** The [scaler] argument of [plot_prediction] is any object with a method
    [inverse_transform], which may raise (a fitted sklearn scaler does on an
    empty array, on a width it was not fitted on, on a value that is not
    finite). *)
Record Scaler : Type := { inverse_transform : tensor -> result tensor }.

(** ** Files and the state of a run *)

Inductive cell : Type := CFloat (v : float) | CBool (b : bool).

Inductive file : Type :=
  | StateDict (sd : LAE.t)                          (* torch.save(model.state_dict(), ...) *)
  | Npz (arrays : gmap string (list float))         (* np.savez(..., name=array, ...) *)
  | Histplot (values : list float)                  (* sns.histplot(values); plt.savefig(...) *)
  | ResultTxt (threshold accuracy mae r2 : float)   (* the four lines of result.txt *)
  | Csv (columns : list string) (rows : list (list cell)) (* DataFrame.to_csv(index=False) *)
  | Text (lines : list string).                     (* a text file, as readlines() returns it *)

Record state : Type := State {
  files : gmap string file;            (* the disk *)
  dirs : gmap string (list string);    (* what os.listdir reports for a directory *)
  history : gmap string (list float);  (* Trainer.history, a defaultdict(list) *)
  model : LAE.t                        (* the parameters of the model object *)
}.

Definition M (A : Type) : Type := state -> result A * state.

#[export] Instance M_ret : MRet M := fun _ a s => (Ok a, s).
#[export] Instance M_bind : MBind M := fun _ _ f m s =>
  match m s with
  | (Ok a, s') => f a s'
  | (Raise e, s') => (Raise e, s')
  end.

Definition liftR {A} (r : result A) : M A := fun s => (r, s).
Definition gets {A} (f : state -> A) : M A := fun s => (Ok (f s), s).
Definition modify (f : state -> state) : M unit := fun s => (Ok tt, f s).

Definition set_files (fs : gmap string file) (s : state) : state :=
  State fs (dirs s) (history s) (model s).
Definition set_history (h : gmap string (list float)) (s : state) : state :=
  State (files s) (dirs s) h (model s).
Definition set_model (m : LAE.t) (s : state) : state :=
  State (files s) (dirs s) (history s) m.

Definition write_file (path : string) (f : file) : M unit :=
  modify (fun s => set_files (<[path := f]> (files s)) s).

Definition read_file (path : string) : M file := fun s =>
  match files s !! path with
  | Some f => (Ok f, s)
  | None => (Raise FileNotFoundError, s)
  end.

(** [for x in xs: acc = body x acc], stopping at the first exception. *)
Fixpoint for_each {A S} (xs : list A) (body : A -> S -> M S) (acc : S) : M S :=
  match xs with
  | [] => mret acc
  | x :: xs' => acc' ← body x acc; for_each xs' body acc'
  end.

Definition for_range {S} (n : Z) (body : nat -> S -> M S) (acc : S) : M S :=
  for_each (seq 0 (Z.to_nat n)) body acc.

(** [s.endswith(suffix)]. *)
Fixpoint endswith (s suffix : string) : bool :=
  if String.eqb s suffix then true
  else match s with
       | EmptyString => false
       | String _ s' => endswith s' suffix
       end.

(** [torch.save(obj, path)], [torch.load(path)], [np.savez(file, **arrays)]
    (which appends [.npz] to a name that lacks it) and [np.load(path)[key]]. *)
Definition torch_save (sd : LAE.t) (path : string) : M unit :=
  write_file path (StateDict sd).

Definition torch_load (path : string) : M LAE.t :=
  f ← read_file path;
  match f with
  | StateDict sd => mret sd
  | _ => liftR (Raise RuntimeError)
  end.

Definition np_savez (file : string) (arrays : list (string * list float)) : M unit :=
  let path := if endswith file ".npz" then file else file +:+ ".npz" in
  write_file path (Npz (list_to_map arrays)).

Definition np_load (path : string) : M (gmap string (list float)) :=
  f ← read_file path;
  match f with
  | Npz arrays => mret arrays
  | _ => liftR (Raise ValueError)
  end.

Definition npz_get (loss_data : gmap string (list float)) (key : string) : result (list float) :=
  match loss_data !! key with
  | Some a => Ok a
  | None => Raise KeyError
  end.

(** [np.array(xs)] for a list of floats, [np.array(xs)] for a list of
    one-dimensional arrays, and [np.asarray(xs)] for a list of arrays of one
    shape. Rows of different sizes raise. *)
Definition np_array1 (xs : list float) : tensor := Tensor [length xs] xs.

Definition np_stack (xs : list tensor) : result tensor :=
  match xs with
  | [] => Ok (Tensor [0] [])
  | x :: _ =>
      if bool_decide (Forall (fun y => shape y = shape x) xs)
      then Ok (Tensor (length xs :: shape x) (concat (map data xs)))
      else Raise ValueError
  end.

(** [a[:, 0]] of a two-dimensional array. *)
Definition column0 (a : tensor) : result (list float) :=
  match shape a with
  | [r; c] => if bool_decide (c = 0) then Raise IndexError
              else Ok (omap head (rows r c (data a)))
  | _ => Raise IndexError
  end.

Definition flatten (a : tensor) : tensor := Tensor [length (data a)] (data a).

(** ** The trainer (class [Trainer]) *)

Module Trainer.
Record t : Type := Make { log_dir : string; model_name : string }.

(** [Trainer(log_dir, model_name)]: a fresh, empty history. *)
Definition init (log_dir model_name : string) : M t :=
  modify (set_history ∅);;
  mret (Make log_dir model_name).

(** [self.history[key]]: reading a missing key of a [defaultdict(list)]
    stores and returns the empty list. *)
Definition history_get (key : string) : M (list float) :=
  h ← gets history;
  let v := default [] (h !! key) in
  modify (set_history (<[key := v]> h));;
  mret v.

(** [self.history[key].append(v)]. *)
Definition history_append (key : string) (v : float) : M unit :=
  l ← history_get key;
  h ← gets history;
  modify (set_history (<[key := l ++ [v]]> h)).

Section Methods.
Context `{Activations} `{Optimizer} `{Metrics}.

(** The body of the training loop over [train_dataset]. *)
Definition train_step (seq_input : tensor) (acc : optimizer * list float)
  : M (optimizer * list float) :=
  let '(opt, train_losses) := acc in
  m ← gets model;
  seq_pred ← liftR (LAE.forward m seq_input);
  loss ← liftR (criterion seq_pred seq_input);
  let '(opt', m') := backward_step opt m seq_input in
  modify (set_model m');;
  mret (opt', train_losses ++ [loss]).

(** The body of the loop over [val_dataset], under [torch.no_grad()]. *)
Definition val_step (seq_input : tensor) (val_losses : list float) : M (list float) :=
  m ← gets model;
  seq_pred ← liftR (LAE.forward m seq_input);
  loss ← liftR (criterion seq_pred seq_input);
  mret (val_losses ++ [loss]).

(** The body of [for epoch in range(num_epochs)]. *)
Definition epoch_body (train_dataset val_dataset : list tensor) (epoch : nat)
    (opt : optimizer) : M optimizer :=
  '(opt, train_losses) ← for_each train_dataset train_step (opt, []);
  val_losses ← for_each val_dataset val_step [];
  let train_loss := np_mean train_losses in
  let val_loss := np_mean val_losses in
  history_append "train loss" train_loss;;
  history_append "val loss" val_loss;;
  mret opt.

Definition fit (self : t) (train_dataset val_dataset : list tensor)
    (num_epochs : Z) (learning_rate : float) : M (gmap string (list float)) :=
  m ← gets model;
  let opt := Adam m learning_rate in
  for_range num_epochs (epoch_body train_dataset val_dataset) opt;;
  m ← gets model;
  torch_save m (log_dir self +:+ "/" +:+ model_name self +:+ ".pth");;
  train_loss ← history_get "train loss";
  val_loss ← history_get "val loss";
  np_savez (log_dir self +:+ "/losses")
           [("train_loss", train_loss); ("val_loss", val_loss)];;
  gets history.

(** The body of the loop of [predict]. *)
Definition predict_step (m : LAE.t) (seq_input : tensor)
    (acc : list tensor * list float) : result (list tensor * list float) :=
  let '(predictions, losses) := acc in
  seq_pred ← LAE.forward m seq_input;
  loss ← criterion seq_pred seq_input;
  Ok (predictions ++ [flatten seq_pred], losses ++ [loss]).

Fixpoint predict_loop (m : LAE.t) (dataset : list tensor)
    (acc : list tensor * list float) : result (list tensor * list float) :=
  match dataset with
  | [] => Ok acc
  | seq_input :: rest => acc' ← predict_step m seq_input acc; predict_loop m rest acc'
  end.

Definition predict (self : t) (model_path : string) (dataset : list tensor)
  : M (tensor * tensor) :=
  sd ← torch_load model_path;
  m ← gets model;
  m ← liftR (load_state_dict m sd);
  modify (set_model m);;
  '(predictions, losses) ← liftR (predict_loop m dataset ([], []));
  losses ← liftR (reshape (np_array1 losses) [(-1)%Z; 1%Z]);
  predictions ← liftR (np_stack predictions);
  predictions ← liftR (reshape predictions [(-1)%Z; 1%Z]);
  mret (predictions, losses).

(** [sum(l <= threshold for l in losses)], then [correct[0]]: the sum of
    no array at all is the integer 0, which cannot be indexed. *)
Definition count_correct (threshold : float) (losses : list float) : result nat :=
  match losses with
  | [] => Raise TypeError
  | _ => Ok (length (filter (fun l => F.le l threshold = true) losses))
  end.

(** [[l >= threshold for l in losses]] as an int32 column. *)
Definition anomaly_flags (threshold : float) (losses : list float) : list bool :=
  map (fun l => F.ge l threshold) losses.

Definition flag_value (b : bool) : float := F.of_nat (if b then 1 else 0).

(** [pd.DataFrame.from_dict(data, orient="columns")] with the columns
    "TRQ", "TRQ pred" and "MAE": columns of different lengths raise. *)
Definition data_frame (trq trq_pred mae : list float) : result (list (float * float * float)) :=
  if bool_decide (length trq = length trq_pred /\ length trq_pred = length mae)
  then Ok (zip (zip trq trq_pred) mae)
  else Raise ValueError.

(** What [plot_prediction] computes before it plots and writes. *)
Record scores : Type := Scores {
  threshold : float;
  reconstruction_error : list float;
  true_values : tensor;
  predictions : tensor;
  losses : tensor;
  mae : float;
  R2 : float;
  anomaly : list bool
}.

(** Lines 215 to 233 of [plot_prediction]: prediction, threshold,
    unscaling, metrics and the anomaly flags. *)
Definition score (self : t) (dataset : list tensor) (model_path : string)
    (scaler : Scaler) : M scores :=
  '(predictions, losses) ← predict self model_path dataset;
  (* Load training loss and fix threshold *)
  loss_data ← np_load "training_logs/losses.npz";
  reconstruction_error ← liftR (npz_get loss_data "train_loss");
  let threshold := F.add (np_mean reconstruction_error) (np_std reconstruction_error) in
  (* convert dataset to ndarray and unscale the values *)
  true_values ← liftR (np_stack dataset);
  true_values ← liftR (reshape true_values [(-1)%Z; 1%Z]);
  true_values ← liftR (inverse_transform scaler true_values);
  predictions ← liftR (inverse_transform scaler predictions);
  (* compute metrics *)
  mae ← liftR (mean_absolute_error true_values predictions);
  R2 ← liftR (r2_score true_values predictions);
  let anomaly := anomaly_flags threshold (data losses) in
  mret (Scores threshold reconstruction_error true_values predictions losses mae R2 anomaly).

(** The rest of [plot_prediction]: the three histograms, [result.txt]
    and [anomaly.csv]. Plotting is taken not to fail. *)
Definition report (dataset : list tensor) (sc : scores) : M unit :=
  (* plot reconstruction error, test error and anomaly *)
  write_file "figures/reconstruction_error.png" (Histplot (reconstruction_error sc));;
  write_file "figures/test_error.png" (Histplot (data (losses sc)));;
  write_file "figures/anomaly.png" (Histplot (map flag_value (anomaly sc)));;
  correct ← liftR (count_correct (threshold sc) (data (losses sc)));
  let accuracy := F.mul (F.div (F.of_nat correct) (F.of_nat (length dataset))) (F.of_nat 100) in
  write_file "training_logs/result.txt" (ResultTxt (threshold sc) accuracy (mae sc) (R2 sc));;
  trq ← liftR (column0 (true_values sc));
  trq_pred ← liftR (column0 (predictions sc));
  df ← liftR (data_frame trq trq_pred (data (flatten (losses sc))));
  let df := map (fun '(a, b, l) =>
                   [CFloat a; CFloat b; CFloat l; CBool (F.ge l (threshold sc))]) df in
  write_file "training_logs/anomaly.csv" (Csv ["TRQ"; "TRQ pred"; "MAE"; "Anomaly"] df).

Definition plot_prediction (self : t) (dataset : list tensor) (model_path : string)
    (scaler : Scaler) (show_plot : bool) : M unit :=
  sc ← score self dataset model_path scaler;
  report dataset sc.
End Methods.
End Trainer.

(** ** The losses of an epoch, as functions of the parameters

    What the loops of [fit] compute, written without the loop state: the
    per-sequence losses of one pass over the training data (each taken before
    the update it triggers), those of one pass over the validation data, and
    the pair of means of every epoch. *)
Section Epochs.
Context `{Activations} `{Optimizer}.

Definition sequence_loss (m : LAE.t) (seq_input : tensor) : result float :=
  seq_pred ← LAE.forward m seq_input;
  criterion seq_pred seq_input.

Fixpoint train_losses (opt : optimizer) (m : LAE.t) (dataset : list tensor)
  : result (list float * (optimizer * LAE.t)) :=
  match dataset with
  | [] => Ok ([], (opt, m))
  | seq_input :: rest =>
      loss ← sequence_loss m seq_input;
      let '(opt', m') := backward_step opt m seq_input in
      '(ls, fin) ← train_losses opt' m' rest;
      Ok (loss :: ls, fin)
  end.

Definition val_losses (m : LAE.t) (dataset : list tensor) : result (list float) :=
  mapR (sequence_loss m) dataset.

Fixpoint epoch_means (train_dataset val_dataset : list tensor) (n : nat)
    (opt : optimizer) (m : LAE.t) : result (list (float * float) * (optimizer * LAE.t)) :=
  match n with
  | O => Ok ([], (opt, m))
  | S n' =>
      '(tl, (opt1, m1)) ← train_losses opt m train_dataset;
      vl ← val_losses m1 val_dataset;
      '(rest, fin) ← epoch_means train_dataset val_dataset n' opt1 m1;
      Ok ((np_mean tl, np_mean vl) :: rest, fin)
  end.
End Epochs.

(** The two lists of [Trainer.history]. *)
Definition train_history (h : gmap string (list float)) : list float :=
  default [] (h !! "train loss").
Definition val_history (h : gmap string (list float)) : list float :=
  default [] (h !! "val loss").

(** [h] after the means of some epochs were appended to it. *)
Definition push_means (h : gmap string (list float)) (means : list (float * float))
  : gmap string (list float) :=
  fold_left (fun h '(t, v) =>
               let h := <["train loss" := train_history h ++ [t]]> h in
               <["val loss" := val_history h ++ [v]]> h) means h.

(** Reading [self.history[key]] leaves the key in the dictionary. *)
Definition touch (key : string) (h : gmap string (list float)) : gmap string (list float) :=
  <[key := default [] (h !! key)]> h.

(** The two files [fit] writes, and the arrays of the second. *)
Definition checkpoint_path (self : Trainer.t) : string :=
  Trainer.log_dir self +:+ "/" +:+ Trainer.model_name self +:+ ".pth".
Definition archive_path (self : Trainer.t) : string :=
  Trainer.log_dir self +:+ "/losses.npz".
Definition archive_of (h : gmap string (list float)) : gmap string (list float) :=
  list_to_map [("train_loss", train_history h); ("val_loss", val_history h)].

(** ** The data combiner ([combine_data.py]) *)

(** [s.split(sep)] for a one-character separator: never empty. *)
Fixpoint split (sep : ascii) (s : string) : list string :=
  match s with
  | EmptyString => [EmptyString]
  | String c s' =>
      if Ascii.eqb c sep then EmptyString :: split sep s'
      else match split sep s' with
           | w :: ws => String c w :: ws
           | [] => [String c EmptyString]
           end
  end.

(** [xs[-1]] and [xs[-2]]. *)
Definition item_m1 {A} (xs : list A) : result A :=
  match reverse xs with
  | x :: _ => Ok x
  | _ => Raise IndexError
  end.

Definition item_m2 {A} (xs : list A) : result A :=
  match reverse xs with
  | _ :: x :: _ => Ok x
  | _ => Raise IndexError
  end.

(** [sep.join(xs)]. *)
Fixpoint join (sep : string) (xs : list string) : string :=
  match xs with
  | [] => EmptyString
  | [x] => x
  | x :: xs' => x +:+ sep +:+ join sep xs'
  end.

Definition startswith (s pre : string) : bool := String.prefix pre s.

(** [os.path.join(a, b)] and [os.path.normpath(path)] of [posixpath]. *)
Definition os_path_join (a b : string) : string :=
  if startswith b "/" then b
  else if String.eqb a "" || endswith a "/" then a +:+ b
  else a +:+ "/" +:+ b.

Definition normpath_step (initial_slashes : nat) (new_comps : list string) (comp : string)
  : list string :=
  if String.eqb comp "" || String.eqb comp "." then new_comps
  else if negb (String.eqb comp "..")
          || (Nat.eqb initial_slashes 0 && bool_decide (new_comps = []))
          || bool_decide (last new_comps = Some "..")
       then new_comps ++ [comp]
       else removelast new_comps.

Definition os_path_normpath (path : string) : string :=
  if String.eqb path "" then "."
  else
    let initial_slashes :=
      if startswith path "/"
      then if startswith path "//" && negb (startswith path "///") then 2 else 1
      else 0 in
    let comps := fold_left (normpath_step initial_slashes) (split "/" path) [] in
    let path := join "/" (replicate initial_slashes "" ++ [join "/" comps]) in
    if String.eqb path "" then "." else path.

(** The file that a path names when the program runs in the directory [cwd]:
    the names that lead to it from the root, as [os.path.abspath] finds them
    ([os.path.join] with [cwd], then the steps of [os.path.normpath] for an
    absolute path). Paths with the same components name one file. Paths with
    different components name two files, provided that no component is a
    link and that the file system tells names apart by their characters. *)
Definition path_components (cwd path : string) : list string :=
  fold_left (normpath_step 1) (split "/" (os_path_join cwd path)) [].

(** Python's [str.strip()] and [int(s)] on ASCII text: optional white space
    around an optional sign and decimal digits, where single underscores may
    separate digits. *)
Definition is_space (c : ascii) : bool :=
  Ascii.is_space c || bool_decide (28 <= nat_of_ascii c <= 31).

Fixpoint lstrip (s : string) : string :=
  match s with
  | String c s' => if is_space c then lstrip s' else s
  | EmptyString => EmptyString
  end.

Definition strip (s : string) : string := String.rev (lstrip (String.rev (lstrip s))).

Definition digit_value (c : ascii) : option Z := Z.of_nat <$> Ascii.is_nat c.

(** [digits acc after_digit s]: [after_digit] tells whether the previous
    character was a digit (an underscore is legal only then, and not last). *)
Fixpoint digits (acc : Z) (after_digit : bool) (s : string) : option Z :=
  match s with
  | EmptyString => if after_digit then Some acc else None
  | String c s' =>
      match digit_value c with
      | Some d => digits (10 * acc + d) true s'
      | None => if Ascii.eqb c "_" && after_digit then digits acc false s' else None
      end
  end.

Definition int_of_str (s : string) : result Z :=
  let body sign t := match digits 0 false t with
                     | Some v => Ok (sign * v)%Z
                     | None => Raise ValueError
                     end in
  match strip s with
  | String "-" t => body (-1)%Z t
  | String "+" t => body 1%Z t
  | t => body 1%Z t
  end.

(** Python's [float(s)], which the program calls and does not define. *)
Class Builtins : Type := { float_of_str : string -> result float }.

(** [sorted(xs, key=...)] once the keys are known: a stable sort, smallest
    key first. *)
Fixpoint insert_by_key {A} (x : Z * A) (l : list (Z * A)) : list (Z * A) :=
  match l with
  | [] => [x]
  | y :: l' => if (x.1 <=? y.1)%Z then x :: y :: l' else y :: insert_by_key x l'
  end.

Definition sort_by_key {A} (l : list (Z * A)) : list (Z * A) :=
  fold_right insert_by_key [] l.

(** The sort key the program gives to a path:
    [int(x.split("_")[-1].split(".")[-2])]. *)
Definition sort_key (x : string) : result Z :=
  piece ← item_m1 (split "_" x);
  stem ← item_m2 (split "." piece);
  int_of_str stem.

Definition sorted_by_key (xs : list string) : result (list string) :=
  keyed ← mapR (fun x => k ← sort_key x; Ok (k, x)) xs;
  Ok (map snd (sort_by_key keyed)).

Definition os_listdir (path : string) : M (list string) := fun s =>
  match dirs s !! path with
  | Some names => (Ok names, s)
  | None => (Raise FileNotFoundError, s)
  end.

Definition readlines (path : string) : M (list string) :=
  f ← read_file path;
  match f with
  | Text lines => mret lines
  | _ => liftR (Raise ValueError)
  end.

Section Combine.
Context `{Builtins}.

(** The body of [for line in lines]. *)
Definition parse_line (line : string)
    (data : list float * list float * list float)
  : result (list float * list float * list float) :=
  let '(SPD, ANG, TRQ) := data in
  match split "," line with
  | [speed; angle; torque] =>
      let spd := split ":" speed in
      let ang := split ":" angle in
      let torq := split ":" torque in
      v ← item_m1 spd; v ← float_of_str v; let SPD := SPD ++ [v] in
      v ← item_m1 ang; v ← float_of_str v; let ANG := ANG ++ [v] in
      v ← item_m1 torq; v ← float_of_str v; let TRQ := TRQ ++ [v] in
      Ok (SPD, ANG, TRQ)
  | _ => Raise ValueError
  end.

Fixpoint parse_lines (lines : list string) (data : list float * list float * list float)
  : result (list float * list float * list float) :=
  match lines with
  | [] => Ok data
  | line :: rest => data' ← parse_line line data; parse_lines rest data'
  end.

(** The body of [for filepath in filepaths]. *)
Definition read_one (filepath : string) (data : list float * list float * list float)
  : M (list float * list float * list float) :=
  lines ← readlines filepath;
  liftR (parse_lines lines data).

Definition combine_data (source_dir : string) (target_dir : option string)
    (outfname : string) : M unit :=
  let target_dir := match target_dir with
                    | None => os_path_normpath source_dir
                    | Some d => d
                    end in
  names ← os_listdir source_dir;
  let filepaths := map (os_path_join source_dir) (filter (fun f => endswith f "txt" = true) names) in
  filepaths ← liftR (sorted_by_key filepaths);
  '(SPD, ANG, TRQ) ← for_each filepaths read_one ([], [], []);
  let df := zip_with (fun '(s, a) t => [CFloat s; CFloat a; CFloat t]) (zip SPD ANG) TRQ in
  write_file (target_dir +:+ "/" +:+ outfname +:+ ".csv") (Csv ["SPD"; "ANG"; "TRQ"] df).
End Combine.

(** The same rows, described as the claim words them: of the three fields
    that the commas of a line separate, the number written after the last
    colon. *)
Fixpoint occurs (c : ascii) (s : string) : bool :=
  match s with
  | EmptyString => false
  | String a s' => Ascii.eqb a c || occurs c s'
  end.

(** The text after the last [c] of [s]; all of [s] when it has none. *)
Fixpoint after_last (c : ascii) (s : string) : string :=
  match s with
  | EmptyString => EmptyString
  | String a s' =>
      if occurs c s' then after_last c s'
      else if Ascii.eqb a c then s' else String a s'
  end.

Definition line_values `{Builtins} (line : string) : result (float * float * float) :=
  match split "," line with
  | [speed; angle; torque] =>
      spd ← float_of_str (after_last ":" speed);
      ang ← float_of_str (after_last ":" angle);
      trq ← float_of_str (after_last ":" torque);
      Ok (spd, ang, trq)
  | _ => Raise ValueError
  end.

Definition csv_row (v : float * float * float) : list cell :=
  let '(spd, ang, trq) := v in [CFloat spd; CFloat ang; CFloat trq].

(** [data] after the three values of one more line were appended. *)
Definition push_row (data : list float * list float * list float)
    (v : float * float * float) : list float * list float * list float :=
  let '(SPD, ANG, TRQ) := data in
  let '(spd, ang, trq) := v in
  (SPD ++ [spd], ANG ++ [ang], TRQ ++ [trq]).

(** The number a string of decimal digits writes. *)
Fixpoint digits_value (acc : Z) (s : string) : option Z :=
  match s with
  | EmptyString => Some acc
  | String c s' =>
      match digit_value c with
      | Some d => digits_value (10 * acc + d) s'
      | None => None
      end
  end.

(** ** Concrete kernels, to run the definitions on concrete inputs

    They stand in for torch's and sklearn's numeric code in the examples
    only; no theorem below depends on them. *)
Module Example.
Definition one : float := F.of_nat 1.
Definition two : float := F.of_nat 2.

(** [(1 + x/1024) ** 1024], by ten squarings. *)
Definition exp (x : float) : float :=
  Nat.iter 10 (fun y => F.mul y y) (F.add one (F.div x (F.of_nat 1024))).

#[export] Instance activations : Activations := {|
  sigmoid x := F.div one (F.add one (exp (F.sub F.zero x)));
  tanh x := F.sub (F.mul two (F.div one (F.add one (exp (F.sub F.zero (F.mul two x)))))) one
|}.

Definition map_lstm (f : float -> float) (m : LSTM.t) : LSTM.t :=
  LSTM.Make (LSTM.input_size m) (LSTM.hidden_size m)
    (map (fun l => LSTM.Layer (map (map f) (LSTM.weight_ih l)) (map (map f) (LSTM.weight_hh l))
                              (map f (LSTM.bias_ih l)) (map f (LSTM.bias_hh l)))
         (LSTM.layers m)).

Definition map_params (f : float -> float) (m : LAE.t) : LAE.t :=
  let e := LAE.encoder m in
  let d := LAE.decoder m in
  with_params m
    (LAE.Make (LAE.seq_len m) (LAE.n_features m) (LAE.embedding_dim m)
       (Encoder.Make (Encoder.seq_len e) (Encoder.n_features e) (Encoder.embedding_dim e)
          (Encoder.hidden_dim e) (map_lstm f (Encoder.lstm1 e)) (map_lstm f (Encoder.lstm2 e)))
       (Decoder.Make (Decoder.seq_len d) (Decoder.input_dim d) (Decoder.hidden_dim d)
          (Decoder.output_dim d) (map_lstm f (Decoder.lstm1 d)) (map_lstm f (Decoder.lstm2 d))
          (Linear.Make (Linear.in_features (Decoder.linear d))
             (Linear.out_features (Decoder.linear d))
             (map (map f) (Linear.weight (Decoder.linear d)))
             (map f (Linear.bias (Decoder.linear d)))))).

(** An update that shrinks every parameter by the learning rate. *)
#[export] Instance shrink : Optimizer := {|
  optimizer := float;
  Adam _ lr := lr;
  backward_step lr m _ := (lr, map_params (fun p => F.sub p (F.mul lr p)) m)
|}.

(** The two metrics on arrays of one column and the same length. *)
Definition same_length (y_true y_pred : tensor) : result unit :=
  if bool_decide (shape y_true = shape y_pred /\ data y_true <> [])
  then Ok tt else Raise ValueError.

#[export] Instance metrics : Metrics := {|
  mean_absolute_error y_true y_pred :=
    same_length y_true y_pred;;
    Ok (np_mean (zip_with (fun a b => F.abs (F.sub a b)) (data y_true) (data y_pred)));
  r2_score y_true y_pred :=
    same_length y_true y_pred;;
    let ybar := np_mean (data y_true) in
    Ok (F.sub one
          (F.div (F.sum (zip_with (fun a b => F.mul (F.sub a b) (F.sub a b))
                           (data y_true) (data y_pred)))
                 (F.sum (map (fun a => F.mul (F.sub a ybar) (F.sub a ybar)) (data y_true)))))
|}.

Definition half : float := F.div one two.
(** A scaler fitted on one feature that maps every value to itself. *)
Definition identity_scaler : Scaler := {|
  inverse_transform x :=
    match shape x with
    | [n; c] =>
        if bool_decide (n = 0) then Raise ValueError
        else if bool_decide (c ≠ 1) then Raise ValueError
        else Ok x
    | _ => Raise ValueError
    end
|}.

(** [LAE(seq_len, n_features, embedding_dim, num_layers)] with every
    initial parameter one half; a model that failed to build is replaced
    by an empty one. *)
Definition empty_lstm : LSTM.t := LSTM.Make 0 0 [].
Definition empty_model : LAE.t :=
  LAE.Make 0 0 0 (Encoder.Make 0 0 0 0 empty_lstm empty_lstm)
    (Decoder.Make 0 0 0 0 empty_lstm empty_lstm (Linear.Make 0 0 [] [])).

Definition build (seq_len n_features embedding_dim num_layers : nat) : LAE.t :=
  match LAE.init seq_len n_features embedding_dim num_layers half with
  | Ok m => m
  | Raise _ => empty_model
  end.

(** Plain decimals: an optional sign, digits, and an optional fraction. *)
Definition decimal (s : string) : result float :=
  let '(sign, t) := match strip s with
                    | String "-" t => (F.sub F.zero one, t)
                    | t => (one, t)
                    end in
  match split "." t with
  | [i] => v ← int_of_str i; Ok (F.mul sign (F.of_nat (Z.to_nat v)))
  | [i; f] =>
      v ← int_of_str i;
      w ← int_of_str f;
      Ok (F.mul sign (F.add (F.of_nat (Z.to_nat v))
                            (F.div (F.of_nat (Z.to_nat w))
                                   (F.of_nat (10 ^ String.length f)))))
  | _ => Raise ValueError
  end.

#[export] Instance builtins : Builtins := {| float_of_str := decimal |}.

Definition seq1 (v : float) : tensor := Tensor [1; 1] [v].
Definition seq2 (a b : float) : tensor := Tensor [2; 1] [a; b].

Definition ok_or {A} (d : A) (r : result A) : A :=
  match r with Ok a => a | Raise _ => d end.

(** A run on sequences of one value: two training sequences, one
    validation sequence, two epochs, on a disk that is empty. *)
Definition trainer : Trainer.t := Trainer.Make "training_logs" "steering".
Definition quarter : float := F.div half two.
Definition train_ds : list tensor := [seq1 half; seq1 one].
Definition val_ds : list tensor := [seq1 half].
Definition fresh (m : LAE.t) : state := State ∅ ∅ ∅ m.
Definition start : state := fresh (build 1 1 1 1).
Definition fitted : result (gmap string (list float)) * state :=
  Trainer.fit trainer train_ds val_ds 2 quarter start.

(** A second call on the same trainer, with the model reset to its initial
    parameters, and the same call on another trainer and another disk. *)
Definition restart : state := set_model (model start) fitted.2.
Definition fitted_again : result (gmap string (list float)) * state :=
  Trainer.fit trainer train_ds val_ds 2 quarter restart.
Definition other_trainer : Trainer.t := Trainer.Make "runs" "eps".
Definition old_archive : file := Npz {[ "train_loss" := [one; F.of_nat 3] ]}.

(** Scoring two sequences after each of the two runs. *)
Definition test_ds : list tensor := [seq1 half; seq1 two].
Definition scored : result Trainer.scores * state :=
  Trainer.score trainer test_ds "training_logs/steering.pth" identity_scaler fitted.2.
Definition plotted : result () * state :=
  Trainer.plot_prediction trainer test_ds "training_logs/steering.pth" identity_scaler
    true fitted.2.
Definition no_scores : Trainer.scores :=
  Trainer.Scores F.zero [] (Tensor [] []) (Tensor [] []) (Tensor [] []) F.zero F.zero [].

(** A model for sequences of two values with its checkpoint on disk, asked
    to predict two sequences. *)
Definition saved2 : state :=
  State {[ "training_logs/steering.pth" := StateDict (build 2 1 1 1) ]} ∅ ∅ (build 2 1 1 1).
Definition pair_ds : list tensor := [seq2 half one; seq2 one two].
Definition predicted2 : result (tensor * tensor) * state :=
  Trainer.predict trainer "training_logs/steering.pth" pair_ds saved2.
Definition no_tensor : tensor := Tensor [] [].

(** A directory of three entries, two of them sensor logs; [readlines]
    keeps the newline that ends a line. *)
Definition nl : string := String (ascii_of_nat 10) "".
Definition logs : state :=
  State {[ "data/log_10.txt" :=
             Text ["SPD:1.5,ANG:2,TRQ:-0.25" +:+ nl; "SPD:3,ANG:4,TRQ:5" +:+ nl];
           "data/log_2.txt" := Text ["a:b:7,ANG:8,TRQ: 9 "] ]}
        {[ "data" := ["log_10.txt"; "notes.md"; "log_2.txt"] ]} ∅ empty_model.
Definition combined : result () * state := combine_data "data" None "all" logs.

(** The same run with a training sequence of the wrong size. *)
Definition bad_ds : list tensor := [seq1 half; seq2 one one].
Definition failed : result (gmap string (list float)) * state :=
  Trainer.fit trainer bad_ds val_ds 2 quarter start.
End Example.

(** ** Further notions
    What the properties beyond the claims are stated with. *)

(** The parameters of a model, as [model.state_dict()] holds them: without
    the sizes the modules were built with. *)
Definition state_dict (m : LAE.t) :=
  (LSTM.layers (Encoder.lstm1 (LAE.encoder m)), LSTM.layers (Encoder.lstm2 (LAE.encoder m)),
   LSTM.layers (Decoder.lstm1 (LAE.decoder m)), LSTM.layers (Decoder.lstm2 (LAE.decoder m)),
   Linear.weight (Decoder.linear (LAE.decoder m)), Linear.bias (Decoder.linear (LAE.decoder m))).

(** The shapes of the parameters of [nn.LSTM(inp, hid, n)]: per layer the two
    weight matrices (as the lengths of their rows) and the two biases. *)
Fixpoint lstm_sizes (inp hid n : nat) : list (list nat * list nat * nat * nat) :=
  match n with
  | O => []
  | S n' => (replicate (4 * hid) inp, replicate (4 * hid) hid, 4 * hid, 4 * hid)
            :: lstm_sizes hid hid n'
  end.


(** Whether the sort key of a path is [k]. *)
Definition has_key (k : Z) (x : string) : bool :=
  match sort_key x with
  | Ok k' => (k' =? k)%Z
  | Raise _ => false
  end.

(** The path [combine_data] writes to: [f"{target_dir}/{outfname}.csv"]. *)
Definition csv_path (source_dir : string) (target_dir : option string) (outfname : string)
  : string :=
  from_option id (os_path_normpath source_dir) target_dir +:+ "/" +:+ outfname +:+ ".csv".

(** More concrete inputs, on the kernels of [Example]. *)
Module Cases.
#[local] Existing Instance Example.activations.
#[local] Existing Instance Example.shrink.
#[local] Existing Instance Example.metrics.
#[local] Existing Instance Example.builtins.

(** A sequence of two values handed over as a flat array. *)
Definition flat2 (a b : float) : tensor := Tensor [2] [a; b].

(** The model of [Example.saved2] next to a checkpoint of a model with a
    wider embedding. *)
Definition wide_checkpoint : state :=
  State {[ "training_logs/steering.pth" := StateDict (Example.build 2 1 2 1) ]} ∅ ∅
        (Example.build 2 1 1 1).

(** [Example.saved2] with a loss archive beside the checkpoint, and the
    scores of two sequences of two values. *)
Definition saved2_with_archive : state :=
  State {[ "training_logs/steering.pth" := StateDict (Example.build 2 1 1 1);
           "training_logs/losses.npz" := Example.old_archive ]} ∅ ∅ (Example.build 2 1 1 1).
Definition scored2 : result Trainer.scores * state :=
  Trainer.score Example.trainer Example.pair_ds "training_logs/steering.pth"
    Example.identity_scaler saved2_with_archive.

(** The run of [Example.fitted] without validation data. *)
Definition fitted_without_validation : result (gmap string (list float)) * state :=
  Trainer.fit Example.trainer Example.train_ds [] 2 Example.quarter Example.start.

(** Directories for [combine_data]: one without sensor logs, one whose log
    ends in a blank line, one whose log has no number in its name, and
    [Example.logs] listed again after the table was written. *)
Definition no_logs : state :=
  State ∅ {[ "data" := ["notes.md"; "README"] ]} ∅ Example.empty_model.
Definition blank_line_logs : state :=
  State {[ "data/log_1.txt" := Text ["SPD:1,ANG:2,TRQ:3" +:+ Example.nl; Example.nl] ]}
        {[ "data" := ["log_1.txt"] ]} ∅ Example.empty_model.
Definition unnumbered_logs : state :=
  State {[ "data/notes.txt" := Text [] ]} {[ "data" := ["notes.txt"] ]} ∅ Example.empty_model.
Definition relisted : state :=
  State (files Example.combined.2)
        {[ "data" := ["all.csv"; "log_10.txt"; "notes.md"; "log_2.txt"] ]} ∅ Example.empty_model.
End Cases.

(** * Proofs *)

(** [x.reshape((-1, 2))] on six elements gives three rows. *)
Example reshape_minus_one :
  shape <$> reshape (Tensor [2; 3] (replicate 6 F.zero)) [(-1)%Z; 2%Z] = Ok [3; 2].
Proof. vm_compute. reflexivity. Qed.

(** ** Running the monads *)

Lemma bindR_ok {A B} (m : result A) (f : A -> result B) (b : B) :
  m ≫= f = Ok b -> exists a, m = Ok a /\ f a = Ok b.
Proof. destruct m as [a|e]; simpl; [eauto | discriminate]. Qed.

Lemma bindM_ok {A B} (m : M A) (f : A -> M B) (s s2 : state) (b : B) :
  (m ≫= f) s = (Ok b, s2) -> exists a s1, m s = (Ok a, s1) /\ f a s1 = (Ok b, s2).
Proof.
  unfold mbind, M_bind. destruct (m s) as [[a|e] s1]; [eauto | discriminate].
Qed.

Lemma bindM_run {A B} (m : M A) (f : A -> M B) (s s1 : state) (a : A) :
  m s = (Ok a, s1) -> (m ≫= f) s = f a s1.
Proof. unfold mbind, M_bind. intros ->. reflexivity. Qed.

Lemma bindM_raise {A B} (m : M A) (f : A -> M B) (s s1 : state) (e : exn) :
  m s = (Raise e, s1) -> (m ≫= f) s = (Raise e, s1).
Proof. unfold mbind, M_bind. intros ->. reflexivity. Qed.

Lemma state_eta (s : state) : State (files s) (dirs s) (history s) (model s) = s.
Proof. destruct s; reflexivity. Qed.

Lemma run_bind {A B} (m : M A) (f : A -> M B) (s : state) :
  (m ≫= f) s = match m s with
               | (Ok a, s') => f a s'
               | (Raise e, s') => (Raise e, s')
               end.
Proof. reflexivity. Qed.

Lemma run_ret {A} (a : A) (s : state) : (mret a : M A) s = (Ok a, s).
Proof. reflexivity. Qed.

Lemma run_gets {A} (f : state -> A) (s : state) : gets f s = (Ok (f s), s).
Proof. reflexivity. Qed.

Lemma run_modify (f : state -> state) (s : state) : modify f s = (Ok tt, f s).
Proof. reflexivity. Qed.

Lemma run_liftR {A} (r : result A) (s : state) : liftR r s = (r, s).
Proof. reflexivity. Qed.

Create Rewrite HintDb run.
#[export] Hint Rewrite @run_bind @run_ret @run_gets @run_modify @run_liftR : run.

Ltac run := autorewrite with run; cbn beta iota.

(** ** The loops of [fit] *)

Section FitLoops.
Context `{Activations} `{Optimizer}.

Lemma train_step_run x opt acc s :
  Trainer.train_step x (opt, acc) s =
  match sequence_loss (model s) x with
  | Ok loss => let '(opt', m') := backward_step opt (model s) x in
               (Ok (opt', acc ++ [loss]), set_model m' s)
  | Raise e => (Raise e, s)
  end.
Proof.
  unfold Trainer.train_step, sequence_loss. run.
  destruct (LAE.forward (model s) x) as [pred|e]; simpl; run; [|reflexivity].
  destruct (criterion pred x) as [loss|e]; run; [|reflexivity].
  destruct (backward_step opt (model s) x) as [opt1 m1]. run. reflexivity.
Qed.

Lemma val_step_run x acc s :
  Trainer.val_step x acc s =
  match sequence_loss (model s) x with
  | Ok loss => (Ok (acc ++ [loss]), s)
  | Raise e => (Raise e, s)
  end.
Proof.
  unfold Trainer.val_step, sequence_loss. run.
  destruct (LAE.forward (model s) x) as [pred|e]; simpl; run; [|reflexivity].
  destruct (criterion pred x) as [loss|e]; run; reflexivity.
Qed.

Lemma train_loop_ok (ds : list tensor) : forall opt acc s ls opt' m',
  train_losses opt (model s) ds = Ok (ls, (opt', m')) ->
  for_each ds Trainer.train_step (opt, acc) s = (Ok (opt', acc ++ ls), set_model m' s).
Proof.
  induction ds as [|x ds IH]; intros opt acc s ls opt' m' Hrun; simpl in Hrun.
  - injection Hrun as <- <- <-. simpl. rewrite app_nil_r.
    unfold set_model. rewrite state_eta. reflexivity.
  - apply bindR_ok in Hrun as (loss & Hloss & Hrun).
    destruct (backward_step opt (model s) x) as [opt1 m1] eqn:Hstep.
    apply bindR_ok in Hrun as ([ls1 fin] & Hrest & Hrun).
    injection Hrun as <- ->.
    cbn [for_each]. run. rewrite train_step_run, Hloss, Hstep.
    rewrite (IH opt1 (acc ++ [loss]) (set_model m1 s) ls1 opt' m' Hrest).
    rewrite <- app_assoc. reflexivity.
Qed.

Lemma train_loop_raise (ds : list tensor) : forall opt acc s e,
  train_losses opt (model s) ds = Raise e ->
  exists m', for_each ds Trainer.train_step (opt, acc) s = (Raise e, set_model m' s).
Proof.
  induction ds as [|x ds IH]; intros opt acc s e Hrun; simpl in Hrun; [discriminate|].
  cbn [for_each]. run. rewrite train_step_run.
  destruct (sequence_loss (model s) x) as [loss|e1]; simpl in Hrun.
  2:{ injection Hrun as ->. exists (model s). unfold set_model. by rewrite state_eta. }
  destruct (backward_step opt (model s) x) as [opt1 m1].
  destruct (train_losses opt1 m1 ds) as [[ls1 fin]|e1] eqn:Hrest; simpl in Hrun; [discriminate|].
  injection Hrun as ->.
  destruct (IH opt1 (acc ++ [loss]) (set_model m1 s) e Hrest) as [m' ->].
  exists m'. reflexivity.
Qed.

Lemma val_loop_ok (ds : list tensor) : forall acc s ls,
  val_losses (model s) ds = Ok ls ->
  for_each ds Trainer.val_step acc s = (Ok (acc ++ ls), s).
Proof.
  unfold val_losses.
  induction ds as [|x ds IH]; intros acc s ls Hrun; simpl in Hrun.
  - injection Hrun as <-. simpl. by rewrite app_nil_r.
  - apply bindR_ok in Hrun as (loss & Hloss & Hrun).
    apply bindR_ok in Hrun as (ls1 & Hrest & Hrun).
    injection Hrun as <-.
    cbn [for_each]. run. rewrite val_step_run, Hloss.
    rewrite (IH (acc ++ [loss]) s ls1 Hrest), <- app_assoc. reflexivity.
Qed.

Lemma val_loop_raise (ds : list tensor) : forall acc s e,
  val_losses (model s) ds = Raise e ->
  for_each ds Trainer.val_step acc s = (Raise e, s).
Proof.
  unfold val_losses.
  induction ds as [|x ds IH]; intros acc s e Hrun; simpl in Hrun; [discriminate|].
  cbn [for_each]. run. rewrite val_step_run.
  destruct (sequence_loss (model s) x) as [loss|e1]; simpl in Hrun; [|congruence].
  destruct (mapR (sequence_loss (model s)) ds) as [ls1|e1] eqn:Hrest; simpl in Hrun;
    [discriminate|].
  injection Hrun as ->. apply IH. exact Hrest.
Qed.

Lemma train_losses_length (ds : list tensor) : forall opt m ls fin,
  train_losses opt m ds = Ok (ls, fin) -> length ls = length ds.
Proof.
  induction ds as [|x ds IH]; intros opt m ls fin Hrun; simpl in Hrun.
  - by injection Hrun as <- <-.
  - apply bindR_ok in Hrun as (loss & _ & Hrun).
    destruct (backward_step opt m x) as [opt1 m1].
    apply bindR_ok in Hrun as ([ls1 fin1] & Hrest & Hrun).
    injection Hrun as <- <-. simpl. f_equal. eauto.
Qed.

Lemma mapR_length {A B} (f : A -> result B) (xs : list A) : forall ys,
  mapR f xs = Ok ys -> length ys = length xs.
Proof.
  induction xs as [|x xs IH]; intros ys Hrun; simpl in Hrun.
  - by injection Hrun as <-.
  - apply bindR_ok in Hrun as (y & _ & Hrun).
    apply bindR_ok in Hrun as (ys1 & Hrest & Hrun).
    injection Hrun as <-. simpl. f_equal. eauto.
Qed.

Lemma history_append_run (key : string) (v : float) (s : state) :
  Trainer.history_append key v s =
  (Ok tt, set_history (<[key := default [] (history s !! key) ++ [v]]> (history s)) s).
Proof.
  unfold Trainer.history_append, Trainer.history_get. run.
  unfold set_history. simpl. by rewrite insert_insert_eq.
Qed.

Lemma push_means_cons h t v rest :
  push_means h ((t, v) :: rest) = push_means (push_means h [(t, v)]) rest.
Proof. reflexivity. Qed.

Lemma epoch_body_ok tr va epoch opt s tl opt1 m1 vl :
  train_losses opt (model s) tr = Ok (tl, (opt1, m1)) ->
  val_losses m1 va = Ok vl ->
  Trainer.epoch_body tr va epoch opt s =
  (Ok opt1, set_model m1 (set_history (push_means (history s) [(np_mean tl, np_mean vl)]) s)).
Proof.
  intros Htrain Hval. unfold Trainer.epoch_body. run.
  rewrite (train_loop_ok tr opt [] s tl opt1 m1 Htrain). run.
  rewrite (val_loop_ok va [] (set_model m1 s) vl Hval). run.
  rewrite history_append_run. run. rewrite history_append_run. run. reflexivity.
Qed.

Lemma epoch_body_raise tr va epoch opt s e :
  (tl ← train_losses opt (model s) tr; val_losses tl.2.2 va) = Raise e ->
  exists m', Trainer.epoch_body tr va epoch opt s = (Raise e, set_model m' s).
Proof.
  intros Hrun. unfold Trainer.epoch_body. run.
  destruct (train_losses opt (model s) tr) as [[tl [opt1 m1]]|e1] eqn:Htrain; simpl in Hrun.
  - rewrite (train_loop_ok tr opt [] s tl opt1 m1 Htrain). run.
    rewrite (val_loop_raise va [] (set_model m1 s) e Hrun). eauto.
  - injection Hrun as ->.
    destruct (train_loop_raise tr opt [] s e Htrain) as [m' ->]. eauto.
Qed.

Lemma epochs_ok tr va (n : nat) : forall a opt s means opt' m',
  epoch_means tr va n opt (model s) = Ok (means, (opt', m')) ->
  for_each (seq a n) (Trainer.epoch_body tr va) opt s =
  (Ok opt', set_model m' (set_history (push_means (history s) means) s)).
Proof.
  induction n as [|n IH]; intros a opt s means opt' m' Hrun; simpl in Hrun.
  - injection Hrun as <- <- <-. simpl. unfold set_model, set_history. simpl.
    by rewrite state_eta.
  - apply bindR_ok in Hrun as ([tl [opt1 m1]] & Htrain & Hrun).
    apply bindR_ok in Hrun as (vl & Hval & Hrun).
    apply bindR_ok in Hrun as ([rest fin] & Hrest & Hrun).
    injection Hrun as <- ->.
    cbn [seq for_each]. run.
    rewrite (epoch_body_ok tr va a opt s tl opt1 m1 vl Htrain Hval).
    rewrite (IH (S a) opt1 (set_model m1 (set_history
               (push_means (history s) [(np_mean tl, np_mean vl)]) s)) rest opt' m' Hrest).
    rewrite push_means_cons. reflexivity.
Qed.

Lemma epochs_raise tr va (n : nat) : forall a opt s e,
  epoch_means tr va n opt (model s) = Raise e ->
  exists h' m', for_each (seq a n) (Trainer.epoch_body tr va) opt s =
                (Raise e, set_model m' (set_history h' s)).
Proof.
  induction n as [|n IH]; intros a opt s e Hrun; simpl in Hrun; [discriminate|].
  cbn [seq for_each]. run.
  destruct (train_losses opt (model s) tr) as [[tl [opt1 m1]]|e1] eqn:Htrain; simpl in Hrun.
  - destruct (val_losses m1 va) as [vl|e1] eqn:Hval; simpl in Hrun.
    + rewrite (epoch_body_ok tr va a opt s tl opt1 m1 vl Htrain Hval).
      destruct (epoch_means tr va n opt1 m1) as [[rest fin]|e1] eqn:Hrest; simpl in Hrun;
        [discriminate|].
      injection Hrun as ->.
      destruct (IH (S a) opt1 (set_model m1 (set_history
                  (push_means (history s) [(np_mean tl, np_mean vl)]) s)) e Hrest)
        as (h' & m' & ->).
      exists h', m'. reflexivity.
    + injection Hrun as ->.
      destruct (epoch_body_raise tr va a opt s e) as [m' ->].
      { rewrite Htrain. simpl. exact Hval. }
      exists (history s), m'. unfold set_history. by rewrite state_eta.
  - injection Hrun as ->.
    destruct (epoch_body_raise tr va a opt s e) as [m' ->].
    { rewrite Htrain. reflexivity. }
    exists (history s), m'. unfold set_history. by rewrite state_eta.
Qed.
End FitLoops.

(** ** Paths *)

Lemma append_cons (x : ascii) (a b : string) : String x a +:+ b = String x (a +:+ b).
Proof. reflexivity. Qed.

Lemma append_nil (b : string) : "" +:+ b = b.
Proof. reflexivity. Qed.

Lemma append_assoc (a b c : string) : (a +:+ b) +:+ c = a +:+ (b +:+ c).
Proof.
  induction a as [|x a IH]; [reflexivity|]. by rewrite !append_cons, IH.
Qed.

Lemma length_append (a b : string) :
  String.length (a +:+ b) = String.length a + String.length b.
Proof.
  induction a as [|x a IH]; [reflexivity|]. rewrite append_cons. simpl. by rewrite IH.
Qed.

(** Two ways of cutting one string at the same distance from its end give
    the same pieces. *)
Lemma append_same_tail (s1 : string) : forall s2 t1 t2,
  String.length t1 = String.length t2 -> s1 +:+ t1 = s2 +:+ t2 -> s1 = s2 /\ t1 = t2.
Proof.
  induction s1 as [|x s1 IH]; intros [|y s2] t1 t2 Hlen Heq;
    rewrite ?append_cons, ?append_nil in Heq.
  - done.
  - subst t1. simpl in Hlen. rewrite length_append in Hlen. lia.
  - subst t2. simpl in Hlen. rewrite length_append in Hlen. lia.
  - injection Heq as -> Heq. destruct (IH s2 t1 t2 Hlen Heq) as [-> ->]. done.
Qed.

Lemma endswith_true (s suffix : string) :
  endswith s suffix = true -> exists p, s = p +:+ suffix.
Proof.
  induction s as [|x s IH]; cbn [endswith].
  - destruct (String.eqb_spec "" suffix) as [<-|]; [by exists "" | discriminate].
  - destruct (String.eqb_spec (String x s) suffix) as [<-|].
    + by exists "".
    + intros [p ->]%IH. by exists (String x p).
Qed.

Lemma losses_not_npz (d : string) : endswith (d +:+ "/losses") ".npz" = false.
Proof.
  destruct (endswith (d +:+ "/losses") ".npz") eqn:E; [|reflexivity].
  apply endswith_true in E as [p E].
  change "/losses" with ("/lo" +:+ "sses") in E. rewrite <- append_assoc in E.
  apply append_same_tail in E as [_ E]; [discriminate | reflexivity].
Qed.

Lemma checkpoint_is_not_archive (self : Trainer.t) (d : string) :
  checkpoint_path self ≠ d +:+ "/losses.npz".
Proof.
  unfold checkpoint_path. intros E.
  change "/losses.npz" with ("/losses" +:+ ".npz") in E.
  rewrite <- !append_assoc in E.
  apply append_same_tail in E as [_ E]; [discriminate | reflexivity].
Qed.

(** ** What [fit] does as a whole *)

Section Fit.
Context `{Activations} `{Optimizer}.

Lemma np_savez_losses (self : Trainer.t) arrays s :
  np_savez (Trainer.log_dir self +:+ "/losses") arrays s =
  (Ok tt, set_files (<[archive_path self := Npz (list_to_map arrays)]> (files s)) s).
Proof.
  unfold np_savez. rewrite losses_not_npz, append_assoc. reflexivity.
Qed.

Lemma val_history_touch h : val_history (touch "train loss" h) = val_history h.
Proof. unfold val_history, touch. by rewrite lookup_insert_ne. Qed.

Lemma fit_ok self tr va n lr s means opt' m' :
  epoch_means tr va (Z.to_nat n) (Adam (model s) lr) (model s) = Ok (means, (opt', m')) ->
  let h := push_means (history s) means in
  Trainer.fit self tr va n lr s =
  (Ok (touch "val loss" (touch "train loss" h)),
   State (<[archive_path self := Npz (archive_of h)]>
            (<[checkpoint_path self := StateDict m']> (files s)))
         (dirs s) (touch "val loss" (touch "train loss" h)) m').
Proof.
  intros Hrun h. unfold Trainer.fit, for_range. run.
  rewrite (epochs_ok tr va _ 0 _ s means opt' m' Hrun). run.
  unfold torch_save, write_file, Trainer.history_get. run.
  rewrite np_savez_losses. run.
  cbn [history files dirs model set_files set_history set_model].
  unfold archive_of, touch, train_history, val_history, checkpoint_path, h.
  rewrite (lookup_insert_ne _ "train loss" "val loss") by done. reflexivity.
Qed.

Lemma fit_raise self tr va n lr s e :
  epoch_means tr va (Z.to_nat n) (Adam (model s) lr) (model s) = Raise e ->
  exists h' m', Trainer.fit self tr va n lr s = (Raise e, set_model m' (set_history h' s)).
Proof.
  intros Hrun. unfold Trainer.fit, for_range. run.
  destruct (epochs_raise tr va _ 0 _ s e Hrun) as (h' & m' & ->). eauto.
Qed.
End Fit.

Lemma push_means_histories (means : list (float * float)) : forall h,
  train_history (push_means h means) = train_history h ++ map fst means /\
  val_history (push_means h means) = val_history h ++ map snd means.
Proof.
  induction means as [|[t v] means IH]; intros h.
  - simpl. by rewrite !app_nil_r.
  - rewrite push_means_cons.
    destruct (IH (push_means h [(t, v)])) as [-> ->].
    unfold push_means, train_history, val_history. simpl.
    rewrite (lookup_insert_ne _ "val loss" "train loss") by done.
    rewrite !lookup_insert_eq. simpl.
    rewrite (lookup_insert_ne _ "train loss" "val loss") by done.
    by rewrite <- !app_assoc.
Qed.

Lemma histories_touch (h : gmap string (list float)) :
  train_history (touch "val loss" (touch "train loss" h)) = train_history h /\
  val_history (touch "val loss" (touch "train loss" h)) = val_history h.
Proof.
  unfold train_history, val_history, touch. split.
  - rewrite (lookup_insert_ne _ "val loss" "train loss") by done.
    by rewrite lookup_insert_eq.
  - rewrite lookup_insert_eq.
    by rewrite (lookup_insert_ne _ "train loss" "val loss") by done.
Qed.

Lemma archive_of_touch (h : gmap string (list float)) :
  archive_of (touch "val loss" (touch "train loss" h)) = archive_of h.
Proof. unfold archive_of. by destruct (histories_touch h) as [-> ->]. Qed.

Lemma archive_of_lookup (h : gmap string (list float)) :
  archive_of h !! "train_loss" = Some (train_history h) /\
  archive_of h !! "val_loss" = Some (val_history h).
Proof.
  unfold archive_of. simpl. split.
  - by rewrite lookup_insert_eq.
  - rewrite lookup_insert_ne by done. by rewrite lookup_insert_eq.
Qed.

Lemma epoch_means_length `{Activations} `{Optimizer} tr va (n : nat) :
  forall opt m means fin,
  epoch_means tr va n opt m = Ok (means, fin) -> length means = n.
Proof.
  induction n as [|n IH]; intros opt m means fin Hrun; simpl in Hrun.
  - by injection Hrun as <- <-.
  - apply bindR_ok in Hrun as ([tl [opt1 m1]] & _ & Hrun).
    apply bindR_ok in Hrun as (vl & _ & Hrun).
    apply bindR_ok in Hrun as ([rest fin1] & Hrest & Hrun).
    injection Hrun as <- <-. simpl. f_equal. eauto.
Qed.

(** Every outcome of [fit], read off the means of its epochs. *)
Lemma fit_cases `{Activations} `{Optimizer} self tr va n lr s :
  (exists means opt' m',
     epoch_means tr va (Z.to_nat n) (Adam (model s) lr) (model s) = Ok (means, (opt', m')) /\
     let h := touch "val loss" (touch "train loss" (push_means (history s) means)) in
     Trainer.fit self tr va n lr s =
     (Ok h, State (<[archive_path self := Npz (archive_of h)]>
                     (<[checkpoint_path self := StateDict m']> (files s))) (dirs s) h m')) \/
  (exists e h' m',
     epoch_means tr va (Z.to_nat n) (Adam (model s) lr) (model s) = Raise e /\
     Trainer.fit self tr va n lr s = (Raise e, set_model m' (set_history h' s))).
Proof.
  destruct (epoch_means tr va (Z.to_nat n) (Adam (model s) lr) (model s))
    as [[means [opt' m']]|e] eqn:Hrun.
  - left. exists means, opt', m'. split; [reflexivity|]. simpl.
    rewrite archive_of_touch. exact (fit_ok self tr va n lr s means opt' m' Hrun).
  - right. destruct (fit_raise self tr va n lr s e Hrun) as (h' & m' & Hfit). eauto 6.
Qed.

(** The pair of means at position [k] is computed from the state that [k]
    epochs leave behind. *)
Lemma epoch_means_lookup `{Activations} `{Optimizer} tr va (n : nat) :
  forall opt m means fin k t v,
  epoch_means tr va n opt m = Ok (means, fin) ->
  means !! k = Some (t, v) ->
  exists opt_k m_k tl fin_k vl,
    epoch_means tr va k opt m = Ok (take k means, (opt_k, m_k)) /\
    train_losses opt_k m_k tr = Ok (tl, fin_k) /\
    val_losses fin_k.2 va = Ok vl /\
    length tl = length tr /\ length vl = length va /\
    t = np_mean tl /\ v = np_mean vl.
Proof.
  induction n as [|n IH]; intros opt m means fin k t v Hrun Hk; simpl in Hrun.
  - injection Hrun as <- <-. discriminate.
  - apply bindR_ok in Hrun as ([tl [opt1 m1]] & Htrain & Hrun).
    apply bindR_ok in Hrun as (vl & Hval & Hrun).
    apply bindR_ok in Hrun as ([rest fin1] & Hrest & Hrun).
    injection Hrun as <- <-.
    destruct k as [|k].
    + injection Hk as <- <-. exists opt, m, tl, (opt1, m1), vl.
      repeat split; try done.
      * by eapply train_losses_length.
      * by eapply mapR_length.
    + simpl in Hk.
      destruct (IH opt1 m1 rest fin1 k t v Hrest Hk)
        as (opt_k & m_k & tl_k & fin_k & vl_k & Hpre & Hk').
      exists opt_k, m_k, tl_k, fin_k, vl_k. split; [|exact Hk'].
      simpl. rewrite Htrain. simpl. rewrite Hval. simpl. rewrite Hpre. reflexivity.
Qed.

(** ** Claims about [fit] *)

(** The concrete kernels of [Example] serve the closed examples below; the
    theorems bind their own. *)
#[local] Existing Instance Example.activations.
#[local] Existing Instance Example.shrink.
#[local] Existing Instance Example.metrics.
#[local] Existing Instance Example.builtins.

(** C4. [fit] writes its two files only after the loop over the epochs: the
    loop itself leaves the disk as it found it, and a [fit] that raises
    leaves the disk, and so the checkpoint path, as it was before. *)
Theorem fit_failure_leaves_no_checkpoint `{Activations} `{Optimizer}
    (self : Trainer.t) (tr va : list tensor) (n : Z) (lr : float) (s : state) :
  (forall opt, files (for_range n (Trainer.epoch_body tr va) opt s).2 = files s) /\
  (forall e s', Trainer.fit self tr va n lr s = (Raise e, s') ->
     files s' = files s /\
     files s' !! checkpoint_path self = files s !! checkpoint_path self) /\
  (forall h s', Trainer.fit self tr va n lr s = (Ok h, s') ->
     files s' = <[archive_path self := Npz (archive_of h)]>
                  (<[checkpoint_path self := StateDict (model s')]> (files s))).
Proof.
  split; [|split].
  - intros opt. unfold for_range.
    destruct (epoch_means tr va (Z.to_nat n) opt (model s)) as [[means [opt' m']]|e] eqn:Hrun.
    + by rewrite (epochs_ok tr va _ 0 opt s means opt' m' Hrun).
    + by destruct (epochs_raise tr va _ 0 opt s e Hrun) as (h' & m' & ->).
  - intros e s' Hfit.
    destruct (fit_cases self tr va n lr s) as [(means & opt' & m' & _ & Hok)|(e1 & h' & m' & _ & Hr)].
    + simpl in Hok. congruence.
    + rewrite Hr in Hfit. injection Hfit as _ <-. done.
  - intros h s' Hfit.
    destruct (fit_cases self tr va n lr s) as [(means & opt' & m' & _ & Hok)|(e1 & h' & m' & _ & Hr)].
    + simpl in Hok. rewrite Hok in Hfit. injection Hfit as <- <-. reflexivity.
    + congruence.
Qed.

Lemma fit_failure_leaves_no_checkpoint_witness :
  Trainer.fit Example.trainer Example.bad_ds Example.val_ds 2 Example.quarter Example.start =
  (Raise RuntimeError, Example.failed.2) /\
  files Example.failed.2 = files Example.start /\
  files Example.failed.2 !! checkpoint_path Example.trainer =
  files Example.start !! checkpoint_path Example.trainer.
Proof.
  assert (Hfit : Trainer.fit Example.trainer Example.bad_ds Example.val_ds 2
                   Example.quarter Example.start = (Raise RuntimeError, Example.failed.2))
    by (vm_compute; reflexivity).
  split; [exact Hfit|].
  exact (proj1 (proj2 (fit_failure_leaves_no_checkpoint Example.trainer Example.bad_ds
                         Example.val_ds 2 Example.quarter Example.start))
               RuntimeError Example.failed.2 Hfit).
Defined.

(** A trainer that has just been constructed holds an empty history. *)
Lemma init_history_empty (log_dir model_name : string) (s : state) :
  history (Trainer.init log_dir model_name s).2 = ∅.
Proof. reflexivity. Qed.

(** C5. A [fit] that returns has run [num_epochs] epochs. The returned history
    is the history before the call followed by one pair of means per epoch:
    for epoch [k], the mean of the per-sequence training losses of that epoch
    ([train_losses], from the state that [k] epochs leave behind, one loss per
    training sequence) and the mean of its per-sequence validation losses. On
    a fresh trainer both lists have [num_epochs] entries. *)
Theorem fit_appends_one_mean_per_epoch `{Activations} `{Optimizer}
    (self : Trainer.t) (tr va : list tensor) (n : Z) (lr : float) (s s' : state)
    (h : gmap string (list float)) :
  (0 <= n)%Z ->
  Trainer.fit self tr va n lr s = (Ok h, s') ->
  exists means,
    train_history h = train_history (history s) ++ map fst means /\
    val_history h = val_history (history s) ++ map snd means /\
    Z.of_nat (length means) = n /\
    (forall k t v, means !! k = Some (t, v) ->
       exists opt_k m_k tl fin_k vl,
         epoch_means tr va k (Adam (model s) lr) (model s) = Ok (take k means, (opt_k, m_k)) /\
         train_losses opt_k m_k tr = Ok (tl, fin_k) /\
         val_losses fin_k.2 va = Ok vl /\
         length tl = length tr /\ length vl = length va /\
         t = np_mean tl /\ v = np_mean vl) /\
    (history s = ∅ ->
     Z.of_nat (length (train_history h)) = n /\ Z.of_nat (length (val_history h)) = n).
Proof.
  intros Hn Hfit.
  destruct (fit_cases self tr va n lr s) as [(means & opt' & m' & Hrun & Hok)|(e1 & h' & m' & _ & Hr)];
    [|congruence].
  simpl in Hok. rewrite Hok in Hfit. injection Hfit as <- _.
  exists means.
  destruct (histories_touch (push_means (history s) means)) as [-> ->].
  destruct (push_means_histories means (history s)) as [-> ->].
  pose proof (epoch_means_length tr va _ _ _ _ _ Hrun) as Hlen.
  split; [reflexivity|]. split; [reflexivity|]. split; [lia|]. split.
  - intros k t v Hk. exact (epoch_means_lookup tr va _ _ _ _ _ k t v Hrun Hk).
  - intros ->. unfold train_history, val_history. rewrite !lookup_empty. simpl.
    rewrite !length_map. lia.
Qed.

Lemma fit_appends_one_mean_per_epoch_witness :
  let h := Example.ok_or ∅ Example.fitted.1 in
  (0 <= 2)%Z /\
  Trainer.fit Example.trainer Example.train_ds Example.val_ds 2 Example.quarter Example.start =
  (Ok h, Example.fitted.2) /\
  length (train_history h) = 2 /\ length (val_history h) = 2 /\
  exists means : list (float * float),
    train_history h = train_history (history Example.start) ++ map fst means /\
    Z.of_nat (length means) = 2%Z.
Proof.
  assert (Hfit : Trainer.fit Example.trainer Example.train_ds Example.val_ds 2
                   Example.quarter Example.start =
                 (Ok (Example.ok_or ∅ Example.fitted.1), Example.fitted.2))
    by (vm_compute; reflexivity).
  assert (Hn : (0 <= 2)%Z) by lia.
  split; [exact Hn|]. split; [exact Hfit|].
  split; [vm_compute; reflexivity|]. split; [vm_compute; reflexivity|].
  destruct (fit_appends_one_mean_per_epoch Example.trainer Example.train_ds Example.val_ds
              2 Example.quarter Example.start Example.fitted.2
              (Example.ok_or ∅ Example.fitted.1) Hn Hfit)
    as (means & Ht & _ & Hlen & _).
  exists means. split; [exact Ht | exact Hlen].
Defined.

(** C10. The history lives in the trainer and [fit] only appends to it: a
    second [fit] on the same trainer (whatever model it is given) returns the
    history the first call returned followed by its own means, and the
    archive it writes holds the entries of both calls. *)
Theorem second_fit_keeps_first_history `{Activations} `{Optimizer}
    (self : Trainer.t) (tr1 va1 tr2 va2 : list tensor) (n1 n2 : Z) (lr1 lr2 : float)
    (m : LAE.t) (s s1 s2 : state) (h1 h2 : gmap string (list float)) :
  Trainer.fit self tr1 va1 n1 lr1 s = (Ok h1, s1) ->
  Trainer.fit self tr2 va2 n2 lr2 (set_model m s1) = (Ok h2, s2) ->
  history s1 = h1 /\
  exists means2 fin,
    epoch_means tr2 va2 (Z.to_nat n2) (Adam m lr2) m = Ok (means2, fin) /\
    train_history h2 = train_history h1 ++ map fst means2 /\
    val_history h2 = val_history h1 ++ map snd means2 /\
    exists arrays,
      files s2 !! archive_path self = Some (Npz arrays) /\
      arrays !! "train_loss" = Some (train_history h1 ++ map fst means2) /\
      arrays !! "val_loss" = Some (val_history h1 ++ map snd means2).
Proof.
  intros Hfit1 Hfit2.
  assert (Hs1 : history s1 = h1).
  { destruct (fit_cases self tr1 va1 n1 lr1 s)
      as [(means & opt' & m' & _ & Hok)|(e1 & h' & m' & _ & Hr)]; [|congruence].
    simpl in Hok. rewrite Hok in Hfit1. by injection Hfit1 as <- <-. }
  split; [exact Hs1|].
  destruct (fit_cases self tr2 va2 n2 lr2 (set_model m s1))
    as [(means & opt' & m' & Hrun & Hok)|(e1 & h' & m' & _ & Hr)]; [|congruence].
  simpl in Hok, Hrun. rewrite Hok in Hfit2. injection Hfit2 as <- <-.
  rewrite Hs1.
  exists means, (opt', m'). split; [exact Hrun|].
  destruct (histories_touch (push_means h1 means)) as [Ht Hv].
  destruct (push_means_histories means h1) as [Ht' Hv'].
  rewrite Ht, Hv, Ht', Hv'. split; [reflexivity|]. split; [reflexivity|].
  eexists. simpl. rewrite lookup_insert_eq. split; [reflexivity|].
  destruct (archive_of_lookup (touch "val loss" (touch "train loss" (push_means h1 means))))
    as [-> ->].
  by rewrite Ht, Hv, Ht', Hv'.
Qed.

Lemma second_fit_keeps_first_history_witness :
  let h1 := Example.ok_or ∅ Example.fitted.1 in
  let h2 := Example.ok_or ∅ Example.fitted_again.1 in
  Trainer.fit Example.trainer Example.train_ds Example.val_ds 2 Example.quarter Example.start =
  (Ok h1, Example.fitted.2) /\
  Trainer.fit Example.trainer Example.train_ds Example.val_ds 2 Example.quarter
    (set_model (model Example.start) Example.fitted.2) =
  (Ok h2, Example.fitted_again.2) /\
  length (train_history h1) = 2 /\ length (train_history h2) = 4 /\
  history Example.fitted.2 = h1 /\
  exists means2 : list (float * float), train_history h2 = train_history h1 ++ map fst means2.
Proof.
  assert (Hfit1 : Trainer.fit Example.trainer Example.train_ds Example.val_ds 2
                    Example.quarter Example.start =
                  (Ok (Example.ok_or ∅ Example.fitted.1), Example.fitted.2))
    by (vm_compute; reflexivity).
  assert (Hfit2 : Trainer.fit Example.trainer Example.train_ds Example.val_ds 2
                    Example.quarter (set_model (model Example.start) Example.fitted.2) =
                  (Ok (Example.ok_or ∅ Example.fitted_again.1), Example.fitted_again.2))
    by (vm_compute; reflexivity).
  split; [exact Hfit1|]. split; [exact Hfit2|].
  split; [vm_compute; reflexivity|]. split; [vm_compute; reflexivity|].
  destruct (second_fit_keeps_first_history Example.trainer Example.train_ds Example.val_ds
              Example.train_ds Example.val_ds 2 2 Example.quarter Example.quarter
              (model Example.start) Example.start Example.fitted.2 Example.fitted_again.2
              (Example.ok_or ∅ Example.fitted.1) (Example.ok_or ∅ Example.fitted_again.1)
              Hfit1 Hfit2)
    as (Hh & means2 & fin & _ & Ht & _).
  split; [exact Hh|]. exists means2. exact Ht.
Defined.

(** ** Comparing floats *)

Lemma SFcompare_eq_sym (a b : spec_float) :
  SFcompare a b = Some Eq -> SFcompare b a = Some Eq.
Proof.
  destruct a as [s1|s1| |s1 m1 e1], b as [s2|s2| |s2 m2 e2]; simpl;
    try destruct s1; try destruct s2; try discriminate; try reflexivity;
    change (Pos.compare_cont Eq) with Pos.compare;
    (destruct (Z.compare_spec e1 e2) as [->| |]; try discriminate);
    rewrite Z.compare_refl;
    (destruct (Pos.compare_spec m1 m2) as [->| |]; try discriminate);
    by rewrite Pos.compare_refl.
Qed.

(** Python's [a == b] on floats gives [a >= b]: the boundary is inside. *)
Lemma float_eq_ge (a b : float) : F.eq a b = true -> F.ge a b = true.
Proof.
  unfold F.eq, F.ge. rewrite FloatAxioms.eqb_spec, FloatAxioms.leb_spec. unfold SFeqb, SFleb.
  destruct (SFcompare (Prim2SF a) (Prim2SF b)) as [[| |]|] eqn:E; try discriminate.
  intros _. by rewrite (SFcompare_eq_sym _ _ E).
Qed.

(** ** Reshaping *)

Lemma reshape_column (x : tensor) :
  reshape x [(-1)%Z; 1%Z] = Ok (Tensor [length (data x); 1] (data x)).
Proof.
  unfold reshape, resolve_dims.
  change (filter _ [(-1)%Z; 1%Z]) with [1%Z].
  rewrite bool_decide_eq_false_2.
  2:{ intros Hex. apply Exists_cons in Hex as [?|Hex]; [lia|].
      apply Exists_cons in Hex as [?|Hex]; [lia|]. by apply Exists_nil in Hex. }
  cbn [length Nat.sub map numel fold_right Z.to_nat Pos.to_nat Pos.iter_op Nat.mul Nat.add].
  rewrite Nat.mod_1_r, Nat.div_1_r. reflexivity.
Qed.

(** ** What [predict] and [plot_prediction] do *)

Section Scoring.
Context `{Activations} `{Optimizer} `{Metrics}.

Lemma predict_loop_inv (m : LAE.t) (ds : list tensor) : forall ps0 ls0 ps ls,
  Trainer.predict_loop m ds (ps0, ls0) = Ok (ps, ls) ->
  exists preds ls1,
    mapR (LAE.forward m) ds = Ok preds /\
    mapR (sequence_loss m) ds = Ok ls1 /\
    ps = ps0 ++ map flatten preds /\ ls = ls0 ++ ls1.
Proof.
  induction ds as [|x ds IH]; intros ps0 ls0 ps ls Hrun; simpl in Hrun.
  - injection Hrun as <- <-. exists [], []. by rewrite !app_nil_r.
  - apply bindR_ok in Hrun as ([ps1 ls1] & Hstep & Hrun).
    unfold Trainer.predict_step in Hstep.
    apply bindR_ok in Hstep as (pred & Hpred & Hstep).
    apply bindR_ok in Hstep as (loss & Hloss & Hstep).
    injection Hstep as <- <-.
    destruct (IH _ _ _ _ Hrun) as (preds & ls2 & Hp & Hl & -> & ->).
    exists (pred :: preds), (loss :: ls2).
    cbn [mapR]. rewrite Hpred, Hp, Hl. unfold sequence_loss at 1. rewrite Hpred.
    simpl. rewrite Hloss. simpl. by rewrite <- !app_assoc.
Qed.

Lemma torch_load_run (path : string) (s : state) :
  torch_load path s =
  match files s !! path with
  | Some (StateDict sd) => (Ok sd, s)
  | Some _ => (Raise RuntimeError, s)
  | None => (Raise FileNotFoundError, s)
  end.
Proof.
  unfold torch_load, read_file. run.
  destruct (files s !! path) as [[]|]; reflexivity.
Qed.

Lemma np_load_run (path : string) (s : state) :
  np_load path s =
  match files s !! path with
  | Some (Npz arrays) => (Ok arrays, s)
  | Some _ => (Raise ValueError, s)
  | None => (Raise FileNotFoundError, s)
  end.
Proof.
  unfold np_load, read_file. run.
  destruct (files s !! path) as [[]|]; reflexivity.
Qed.

(** [predict] touches nothing but the parameters of the model. *)
Lemma predict_frame self mp ds s :
  exists m, (Trainer.predict self mp ds s).2 = set_model m s.
Proof.
  assert (Hid : s = set_model (model s) s) by (unfold set_model; by rewrite state_eta).
  unfold Trainer.predict. run. rewrite torch_load_run.
  destruct (files s !! mp) as [[sd| | | | |]|]; try (exists (model s); exact Hid).
  run. destruct (load_state_dict (model s) sd) as [m|e]; [|exists (model s); exact Hid].
  run. exists m.
  destruct (Trainer.predict_loop m ds ([], [])) as [[ps ls]|e]; [|reflexivity].
  run. rewrite reshape_column. run.
  destruct (np_stack ps) as [st|e]; [|reflexivity].
  run. rewrite reshape_column. reflexivity.
Qed.

Lemma predict_inv self mp ds s p l s0 :
  Trainer.predict self mp ds s = (Ok (p, l), s0) ->
  exists sd m preds ls stacked,
    files s !! mp = Some (StateDict sd) /\
    load_state_dict (model s) sd = Ok m /\
    mapR (LAE.forward m) ds = Ok preds /\
    mapR (sequence_loss m) ds = Ok ls /\
    np_stack (map flatten preds) = Ok stacked /\
    p = Tensor [length (data stacked); 1] (data stacked) /\
    l = Tensor [length ls; 1] ls /\
    s0 = set_model m s.
Proof.
  unfold Trainer.predict. run. rewrite torch_load_run.
  destruct (files s !! mp) as [[sd| | | | |]|]; try discriminate.
  run. destruct (load_state_dict (model s) sd) as [m|e] eqn:Hload; [|discriminate].
  run. destruct (Trainer.predict_loop m ds ([], [])) as [[ps ls]|e] eqn:Hloop; [|discriminate].
  run. rewrite reshape_column. run.
  destruct (np_stack ps) as [st|e] eqn:Hst; [|discriminate].
  run. rewrite reshape_column. intros [= <- <- <-].
  destruct (predict_loop_inv m ds _ _ _ _ Hloop) as (preds & ls1 & Hp & Hl & -> & ->).
  exists sd, m, preds, ls1, st. simpl in *. done.
Qed.
End Scoring.

Section Scoring2.
Context `{Activations} `{Optimizer} `{Metrics}.

Lemma score_inv self ds mp scaler s sc s1 :
  Trainer.score self ds mp scaler s = (Ok sc, s1) ->
  exists p l loss_data tl tv tv1 tv2 p2 mae R2,
    Trainer.predict self mp ds s = (Ok (p, l), s1) /\
    files s !! "training_logs/losses.npz" = Some (Npz loss_data) /\
    loss_data !! "train_loss" = Some tl /\
    np_stack ds = Ok tv /\
    reshape tv [(-1)%Z; 1%Z] = Ok tv1 /\
    inverse_transform scaler tv1 = Ok tv2 /\
    inverse_transform scaler p = Ok p2 /\
    mean_absolute_error tv2 p2 = Ok mae /\
    r2_score tv2 p2 = Ok R2 /\
    let thr := F.add (np_mean tl) (np_std tl) in
    sc = Trainer.Scores thr tl tv2 p2 l mae R2 (Trainer.anomaly_flags thr (data l)).
Proof.
  unfold Trainer.score. run.
  destruct (predict_frame self mp ds s) as [m Hframe].
  destruct (Trainer.predict self mp ds s) as [[[p l]|e] s0] eqn:Hpred; [|discriminate].
  simpl in Hframe. subst s0. run. rewrite np_load_run.
  cbn [files set_model].
  destruct (files s !! "training_logs/losses.npz") as [[|ld| | | |]|] eqn:Hfile;
    try discriminate.
  run. unfold npz_get.
  destruct (ld !! "train_loss") as [tl|] eqn:Htl; [|discriminate].
  run. destruct (np_stack ds) as [tv|e] eqn:Htv; [|discriminate].
  run. destruct (reshape tv [(-1)%Z; 1%Z]) as [tv1|e] eqn:Htv1; [|discriminate].
  run. destruct (inverse_transform scaler tv1) as [tv2|e] eqn:Htv2; [|discriminate].
  run. destruct (inverse_transform scaler p) as [p2|e] eqn:Hp2; [|discriminate].
  run. destruct (mean_absolute_error tv2 p2) as [mae|e] eqn:Hmae; [|discriminate].
  run. destruct (r2_score tv2 p2) as [R2|e] eqn:HR2; [|discriminate].
  run. intros [= <- <-].
  exists p, l, ld, tl, tv, tv1, tv2, p2, mae, R2. done.
Qed.
End Scoring2.

Section Reporting.
Context `{Activations} `{Optimizer} `{Metrics}.

Lemma report_inv ds sc s s' :
  Trainer.report ds sc s = (Ok tt, s') ->
  exists correct trq trq_pred df,
    Trainer.count_correct (Trainer.threshold sc) (data (Trainer.losses sc)) = Ok correct /\
    Trainer.data_frame trq trq_pred (data (Trainer.losses sc)) = Ok df /\
    let accuracy := F.mul (F.div (F.of_nat correct) (F.of_nat (length ds))) (F.of_nat 100) in
    let rows := map (fun '(a, b, l) =>
                       [CFloat a; CFloat b; CFloat l;
                        CBool (F.ge l (Trainer.threshold sc))]) df in
    s' = set_files
           (<["training_logs/anomaly.csv" := Csv ["TRQ"; "TRQ pred"; "MAE"; "Anomaly"] rows]>
           (<["training_logs/result.txt" := ResultTxt (Trainer.threshold sc) accuracy
                                              (Trainer.mae sc) (Trainer.R2 sc)]>
           (<["figures/anomaly.png" := Histplot (map Trainer.flag_value (Trainer.anomaly sc))]>
           (<["figures/test_error.png" := Histplot (data (Trainer.losses sc))]>
           (<["figures/reconstruction_error.png" :=
                Histplot (Trainer.reconstruction_error sc)]> (files s)))))) s.
Proof.
  unfold Trainer.report, write_file. run.
  destruct (Trainer.count_correct _ _) as [correct|e] eqn:Hc; [|discriminate].
  run. destruct (column0 (Trainer.true_values sc)) as [trq|e]; [|discriminate].
  run. destruct (column0 (Trainer.predictions sc)) as [trq_pred|e]; [|discriminate].
  run. cbn [flatten data].
  destruct (Trainer.data_frame trq trq_pred _) as [df|e] eqn:Hdf; [|discriminate].
  run. intros [= <-]. exists correct, trq, trq_pred, df. done.
Qed.

Lemma data_frame_rows trq trq_pred mae df :
  Trainer.data_frame trq trq_pred mae = Ok df ->
  length df = length mae /\
  forall i l, mae !! i = Some l -> exists a b, df !! i = Some (a, b, l).
Proof.
  unfold Trainer.data_frame. case_bool_decide as Hlen; [|discriminate].
  intros [= <-]. destruct Hlen as [Hl1 Hl2]. split.
  - rewrite !length_zip_with. lia.
  - intros i l Hi.
    pose proof (lookup_lt_Some _ _ _ Hi) as Hlt.
    destruct (lookup_lt_is_Some_2 trq i) as [a Ha]; [lia|].
    destruct (lookup_lt_is_Some_2 trq_pred i) as [b Hb]; [lia|].
    exists a, b. apply lookup_zip_with_Some. exists (a, b), l.
    split; [reflexivity|]. split; [|exact Hi].
    apply lookup_zip_with_Some. by exists a, b.
Qed.
End Reporting.

(** ** Claims about [plot_prediction] *)

(** C1. The threshold that [plot_prediction] computes is the mean plus the
    standard deviation of the array [train_loss] of the archive
    [training_logs/losses.npz] as it is on disk when the call starts. It is
    the threshold written to [result.txt], and it does not depend on the
    data being scored: any other call that finds the same archive, whatever
    its dataset, scaler, checkpoint and model, computes the same threshold. *)
Theorem threshold_from_training_losses `{Activations} `{Optimizer} `{Metrics}
    (self : Trainer.t) (ds : list tensor) (mp : string) (scaler : Scaler)
    (s s1 : state) (sc : Trainer.scores) :
  Trainer.score self ds mp scaler s = (Ok sc, s1) ->
  exists loss_data train_loss,
    files s !! "training_logs/losses.npz" = Some (Npz loss_data) /\
    loss_data !! "train_loss" = Some train_loss /\
    Trainer.threshold sc = F.add (np_mean train_loss) (np_std train_loss) /\
    (forall show s', Trainer.plot_prediction self ds mp scaler show s = (Ok tt, s') ->
       exists accuracy mae R2,
         files s' !! "training_logs/result.txt" =
         Some (ResultTxt (F.add (np_mean train_loss) (np_std train_loss)) accuracy mae R2)) /\
    (forall self2 ds2 mp2 scaler2 s2 s2' sc2,
       files s2 !! "training_logs/losses.npz" = files s !! "training_logs/losses.npz" ->
       Trainer.score self2 ds2 mp2 scaler2 s2 = (Ok sc2, s2') ->
       Trainer.threshold sc2 = Trainer.threshold sc).
Proof.
  intros Hsc.
  destruct (score_inv _ _ _ _ _ _ _ Hsc)
    as (p & l & ld & tl & tv & tv1 & tv2 & p2 & mae & R2 &
        _ & Hfile & Htl & _ & _ & _ & _ & _ & _ & Hval).
  simpl in Hval. exists ld, tl. split; [exact Hfile|]. split; [exact Htl|].
  split; [by rewrite Hval|]. split.
  - intros show s' Hplot. unfold Trainer.plot_prediction in Hplot.
    rewrite run_bind, Hsc in Hplot.
    destruct (report_inv _ _ _ _ Hplot) as (correct & trq & trq_pred & df & _ & _ & ->).
    do 3 eexists. cbn [files set_files].
    rewrite lookup_insert_ne by done. rewrite lookup_insert_eq. rewrite Hval. reflexivity.
  - intros self2 ds2 mp2 scaler2 s2 s2' sc2 Hsame Hsc2.
    destruct (score_inv _ _ _ _ _ _ _ Hsc2)
      as (p' & l' & ld' & tl' & tv' & tv1' & tv2' & p2' & mae' & R2' &
          _ & Hfile' & Htl' & _ & _ & _ & _ & _ & _ & Hval').
    simpl in Hval'. rewrite Hfile, Hfile' in Hsame. injection Hsame as ->.
    rewrite Htl in Htl'. injection Htl' as <-. by rewrite Hval, Hval'.
Qed.

Lemma threshold_from_training_losses_witness :
  let sc := Example.ok_or Example.no_scores Example.scored.1 in
  Trainer.score Example.trainer Example.test_ds "training_logs/steering.pth"
    Example.identity_scaler Example.fitted.2 = (Ok sc, Example.scored.2) /\
  exists loss_data train_loss,
    files Example.fitted.2 !! "training_logs/losses.npz" = Some (Npz loss_data) /\
    loss_data !! "train_loss" = Some train_loss /\
    Trainer.threshold sc = F.add (np_mean train_loss) (np_std train_loss).
Proof.
  assert (Hsc : Trainer.score Example.trainer Example.test_ds "training_logs/steering.pth"
                  Example.identity_scaler Example.fitted.2 =
                (Ok (Example.ok_or Example.no_scores Example.scored.1), Example.scored.2))
    by (vm_compute; reflexivity).
  split; [exact Hsc|].
  destruct (threshold_from_training_losses Example.trainer Example.test_ds
              "training_logs/steering.pth" Example.identity_scaler Example.fitted.2
              Example.scored.2 (Example.ok_or Example.no_scores Example.scored.1) Hsc)
    as (ld & tl & Hfile & Htl & Hthr & _).
  exists ld, tl. split; [exact Hfile|]. split; [exact Htl | exact Hthr].
Defined.

(** C2. Every scored sequence gets one anomaly label; its loss is the loss
    of the loaded model on that sequence, and its label is
    [loss >= threshold]. That holds for the column [plot_prediction] plots
    and, when it returns, for the column Anomaly of [anomaly.csv], which has
    one row per sequence with that loss under MAE. A loss equal to the
    threshold is labelled anomalous. *)
Theorem anomaly_label_is_loss_ge_threshold `{Activations} `{Optimizer} `{Metrics}
    (self : Trainer.t) (ds : list tensor) (mp : string) (scaler : Scaler)
    (s s1 : state) (sc : Trainer.scores) :
  Trainer.score self ds mp scaler s = (Ok sc, s1) ->
  mapR (sequence_loss (model s1)) ds = Ok (data (Trainer.losses sc)) /\
  length (Trainer.anomaly sc) = length ds /\
  (forall i l, data (Trainer.losses sc) !! i = Some l ->
     Trainer.anomaly sc !! i = Some (F.ge l (Trainer.threshold sc)) /\
     (F.eq l (Trainer.threshold sc) = true -> F.ge l (Trainer.threshold sc) = true)) /\
  (forall show s', Trainer.plot_prediction self ds mp scaler show s = (Ok tt, s') ->
     exists rows,
       files s' !! "training_logs/anomaly.csv" =
         Some (Csv ["TRQ"; "TRQ pred"; "MAE"; "Anomaly"] rows) /\
       files s' !! "figures/anomaly.png" =
         Some (Histplot (map Trainer.flag_value (Trainer.anomaly sc))) /\
       length rows = length ds /\
       forall i l, data (Trainer.losses sc) !! i = Some l ->
         exists a b, rows !! i =
           Some [CFloat a; CFloat b; CFloat l; CBool (F.ge l (Trainer.threshold sc))]).
Proof.
  intros Hsc.
  destruct (score_inv _ _ _ _ _ _ _ Hsc)
    as (p & l & ld & tl & tv & tv1 & tv2 & p2 & mae & R2 &
        Hpred & _ & _ & _ & _ & _ & _ & _ & _ & Hval).
  destruct (predict_inv _ _ _ _ _ _ _ Hpred)
    as (sd & m & preds & ls & st & _ & _ & _ & Hls & _ & _ & Hl & Hs1).
  assert (Hlosses : data (Trainer.losses sc) = ls) by (rewrite Hval, Hl; reflexivity).
  assert (Hanom : Trainer.anomaly sc =
                  map (fun l => F.ge l (Trainer.threshold sc)) (data (Trainer.losses sc)))
    by (rewrite Hval; reflexivity).
  pose proof (mapR_length _ _ _ Hls) as Hn.
  split; [by rewrite Hs1, Hlosses|].
  split; [rewrite Hanom, length_map, Hlosses; exact Hn|]. split.
  - intros i l0 Hi. split; [|apply float_eq_ge].
    rewrite Hanom, list_lookup_fmap, Hi. reflexivity.
  - intros show s' Hplot. unfold Trainer.plot_prediction in Hplot.
    rewrite run_bind, Hsc in Hplot.
    destruct (report_inv _ _ _ _ Hplot) as (correct & trq & trq_pred & df & _ & Hdf & ->).
    destruct (data_frame_rows _ _ _ _ Hdf) as [Hlen Hrows].
    eexists. cbn [files set_files]. split; [by rewrite lookup_insert_eq|]. split.
    { do 2 (rewrite lookup_insert_ne by done). by rewrite lookup_insert_eq. }
    split; [rewrite length_map, Hlen, Hlosses; exact Hn|].
    intros i l0 Hi. destruct (Hrows i l0 Hi) as (a & b & Hrow). exists a, b.
    rewrite list_lookup_fmap, Hrow. reflexivity.
Qed.

Lemma anomaly_label_is_loss_ge_threshold_witness :
  let sc := Example.ok_or Example.no_scores Example.scored.1 in
  Trainer.score Example.trainer Example.test_ds "training_logs/steering.pth"
    Example.identity_scaler Example.fitted.2 = (Ok sc, Example.scored.2) /\
  Trainer.plot_prediction Example.trainer Example.test_ds "training_logs/steering.pth"
    Example.identity_scaler true Example.fitted.2 = (Ok (), Example.plotted.2) /\
  length (Trainer.anomaly sc) = 2 /\
  exists rows,
    files Example.plotted.2 !! "training_logs/anomaly.csv" =
      Some (Csv ["TRQ"; "TRQ pred"; "MAE"; "Anomaly"] rows) /\
    length rows = 2.
Proof.
  assert (Hsc : Trainer.score Example.trainer Example.test_ds "training_logs/steering.pth"
                  Example.identity_scaler Example.fitted.2 =
                (Ok (Example.ok_or Example.no_scores Example.scored.1), Example.scored.2))
    by (vm_compute; reflexivity).
  assert (Hplot : Trainer.plot_prediction Example.trainer Example.test_ds
                    "training_logs/steering.pth" Example.identity_scaler true
                    Example.fitted.2 = (Ok (), Example.plotted.2))
    by (vm_compute; reflexivity).
  split; [exact Hsc|]. split; [exact Hplot|].
  destruct (anomaly_label_is_loss_ge_threshold Example.trainer Example.test_ds
              "training_logs/steering.pth" Example.identity_scaler Example.fitted.2
              Example.scored.2 (Example.ok_or Example.no_scores Example.scored.1) Hsc)
    as (_ & Hanom & _ & Hcsv).
  split; [exact Hanom|].
  destruct (Hcsv true Example.plotted.2 Hplot) as (rows & Hfile & _ & Hrows & _).
  exists rows. split; [exact Hfile | exact Hrows].
Defined.

(** The labels of the example: the first loss is below the threshold, the
    second is not. *)
Example anomaly_labels_of_the_example :
  match files Example.plotted.2 !! "training_logs/anomaly.csv" with
  | Some (Csv _ rows) => map (fun r => r !! 3) rows
  | _ => []
  end = [Some (CBool false); Some (CBool true)].
Proof. vm_compute. reflexivity. Qed.

(** ** Telling files apart *)

Lemma startswith_cons (a b : ascii) (s p : string) :
  startswith (String a s) (String b p) = Ascii.eqb b a && startswith s p.
Proof.
  unfold startswith. cbn [String.prefix].
  destruct (ascii_dec b a) as [->|Hne]; [by rewrite Ascii.eqb_refl|].
  apply Ascii.eqb_neq in Hne. by rewrite Hne.
Qed.

Lemma startswith_nil (s : string) : startswith s "" = true.
Proof. by destruct s. Qed.

Lemma startswith_app (s t pre : string) :
  startswith s pre = true -> startswith (s +:+ t) pre = true.
Proof.
  revert s. induction pre as [|b pre IH]; intros s; [by rewrite !startswith_nil|].
  destruct s as [|a s]; [discriminate|].
  rewrite append_cons, !startswith_cons.
  intros [-> Hs]%andb_prop. by rewrite (IH _ Hs).
Qed.





Lemma os_path_join_absolute (cwd p : string) :
  startswith cwd "/" = true -> startswith (os_path_join cwd p) "/" = true.
Proof.
  intros Hcwd. unfold os_path_join. destruct (startswith p "/") eqn:Hp; [exact Hp|].
  destruct (_ || _); by apply startswith_app.
Qed.



(** [os.path.abspath] of a path is the root followed by its components. *)
Lemma abspath_components (cwd path : string) :
  startswith cwd "/" = true ->
  exists root, (root = "/" \/ root = "//") /\
    os_path_normpath (os_path_join cwd path) = root +:+ join "/" (path_components cwd path).
Proof.
  intros Hcwd. pose proof (os_path_join_absolute cwd path Hcwd) as Hp.
  unfold path_components. destruct (os_path_join cwd path) as [|a p]; [discriminate|].
  unfold os_path_normpath. rewrite Hp. cbn [String.eqb].
  destruct (startswith (String a p) "//" && negb (startswith (String a p) "///"));
    [exists "//" | exists "/"]; split; auto.
Qed.





(** Other spellings of [training_logs] name the same directory; [runs] does
    not. *)
Example spellings_of_training_logs :
  Forall (fun d => path_components "/home/eps" d = ["home"; "eps"; "training_logs"])
    ["training_logs"; "training_logs/"; "./training_logs"; "x/../training_logs";
     "/home/eps/training_logs"; "//home/eps/training_logs"; "../eps/training_logs"] /\
  path_components "/home/eps" "runs" = ["home"; "eps"; "runs"].
Proof. split; [|reflexivity]. repeat constructor. Qed.



(** ** Shapes *)

Lemma chunks_length (r c : nat) : forall xs, length (chunks r c xs) = r.
Proof. induction r as [|r IH]; intros xs; simpl; [reflexivity | by rewrite IH]. Qed.

Lemma chunks_rows (r c : nat) : forall xs,
  length xs = r * c -> Forall (fun row => length row = c) (chunks r c xs).
Proof.
  induction r as [|r IH]; intros xs Hlen; simpl; constructor.
  - rewrite length_take. lia.
  - apply IH. rewrite length_drop. lia.
Qed.

Lemma concat_rows_length (c : nat) (rs : list (list float)) :
  Forall (fun row => length row = c) rs -> length (concat rs) = length rs * c.
Proof.
  induction 1 as [|row rs Hrow _ IH]; simpl; [reflexivity|].
  rewrite length_app, IH, Hrow. reflexivity.
Qed.

Lemma filter_all {A} (P : A -> Prop) `{!forall x, Decision (P x)} (l : list A) :
  Forall P l -> filter P l = l.
Proof.
  induction 1 as [|x l Hx _ IH]; [reflexivity|].
  rewrite filter_cons_True by done. by rewrite IH.
Qed.

(** Reshaping to explicit sizes succeeds exactly when the element count
    fits. *)
Lemma reshape_sizes (x : tensor) (sizes : list nat) :
  reshape x (map Z.of_nat sizes) =
  if bool_decide (numel sizes = length (data x))
  then Ok (Tensor sizes (data x)) else Raise RuntimeError.
Proof.
  unfold reshape, resolve_dims.
  assert (Hmap : map Z.to_nat (map Z.of_nat sizes) = sizes).
  { rewrite map_map. rewrite <- (map_id sizes) at 2. apply map_ext. intros. lia. }
  rewrite filter_all.
  2:{ apply Forall_forall. intros d [k [-> _]]%list_elem_of_fmap. lia. }
  rewrite Nat.sub_diag, Hmap.
  rewrite bool_decide_eq_false_2.
  2:{ intros Hex. apply Exists_exists in Hex as (d & Hd & Hlt).
      apply list_elem_of_fmap in Hd as [k [-> _]]. lia. }
  case_bool_decide; reflexivity.
Qed.

(** Reshaping to rows of [e] elements. *)
Lemma reshape_rows_of (x : tensor) (e : nat) :
  0 < e ->
  reshape x [(-1)%Z; Z.of_nat e] =
  if bool_decide (length (data x) mod e = 0)
  then Ok (Tensor [length (data x) / e; e] (data x)) else Raise RuntimeError.
Proof.
  intros He. unfold reshape, resolve_dims.
  rewrite filter_cons_False by (intros Hne; by apply Hne).
  rewrite filter_cons_True by lia. rewrite filter_nil.
  rewrite bool_decide_eq_false_2.
  2:{ intros Hex. apply Exists_cons in Hex as [?|Hex]; [lia|].
      apply Exists_cons in Hex as [?|Hex]; [lia|]. by apply Exists_nil in Hex. }
  cbn [length Nat.sub map numel fold_right].
  rewrite Nat2Z.id, Nat.mul_1_r.
  rewrite bool_decide_eq_false_2 by lia.
  case_bool_decide; [|reflexivity]. simpl.
  by rewrite (bool_decide_eq_false_2 (Z.of_nat e = (-1)%Z)) by lia.
Qed.

Lemma reshape_raises (x : tensor) (dims : list Z) (e : exn) :
  reshape x dims = Raise e -> e = RuntimeError.
Proof.
  unfold reshape, resolve_dims. intros Hr.
  repeat (case_bool_decide || case_match); simpl in Hr; congruence.
Qed.

(** ** The layers keep their sizes *)

Section LayerShapes.
Context `{Activations}.

Lemma cell_lengths (hid : nat) (l : LSTM.layer) (x h c : list float) :
  length (LSTM.weight_ih l) = 4 * hid -> length (LSTM.weight_hh l) = 4 * hid ->
  length (LSTM.bias_ih l) = 4 * hid -> length (LSTM.bias_hh l) = 4 * hid ->
  length c = hid ->
  length (LSTM.cell hid l x (h, c)).1 = hid /\ length (LSTM.cell hid l x (h, c)).2 = hid.
Proof.
  intros H1 H2 H3 H4 Hc. unfold LSTM.cell, vadd, vmul, matvec. cbn [fst snd].
  repeat (rewrite ?length_zip_with, ?length_map, ?length_take, ?length_drop).
  rewrite H1, H2, H3, H4, Hc. lia.
Qed.

Lemma layer_wf_lengths inp hid l :
  LSTM.layer_wf inp hid l ->
  length (LSTM.weight_ih l) = 4 * hid /\ length (LSTM.weight_hh l) = 4 * hid /\
  length (LSTM.bias_ih l) = 4 * hid /\ length (LSTM.bias_hh l) = 4 * hid.
Proof. intros (? & _ & ? & _ & ? & ?). done. Qed.

Lemma run_layer_lengths (hid : nat) (l : LSTM.layer) (inp : nat) (xs : list (list float)) :
  LSTM.layer_wf inp hid l ->
  forall hc, length hc.1 = hid -> length hc.2 = hid ->
  length (LSTM.run_layer hid l xs hc).1 = length xs /\
  Forall (fun y => length y = hid) (LSTM.run_layer hid l xs hc).1 /\
  length (LSTM.run_layer hid l xs hc).2.1 = hid /\
  length (LSTM.run_layer hid l xs hc).2.2 = hid.
Proof.
  intros Hwf. destruct (layer_wf_lengths _ _ _ Hwf) as (H1 & H2 & H3 & H4).
  induction xs as [|x xs IH]; intros [h c] Hh Hc; [done|].
  destruct (cell_lengths hid l x h c H1 H2 H3 H4 Hc) as [Hh' Hc'].
  specialize (IH (LSTM.cell hid l x (h, c)) Hh' Hc').
  cbn [LSTM.run_layer].
  destruct (LSTM.run_layer hid l xs (LSTM.cell hid l x (h, c))) as [ys fin].
  cbn [fst snd] in *. destruct IH as (IH1 & IH2 & IH3 & IH4).
  split; [cbn [length]; by rewrite IH1|]. split; [by constructor|]. done.
Qed.

Lemma run_layers_lengths (hid : nat) (ls : list LSTM.layer) :
  forall inp xs, LSTM.layers_wf inp hid ls ->
  length (LSTM.run_layers hid ls xs).2 = length ls /\
  Forall (fun hc => length hc.1 = hid /\ length hc.2 = hid) (LSTM.run_layers hid ls xs).2 /\
  (ls <> [] ->
   length (LSTM.run_layers hid ls xs).1 = length xs /\
   Forall (fun y => length y = hid) (LSTM.run_layers hid ls xs).1).
Proof.
  induction ls as [|l ls IH]; intros inp xs Hwf; [done|].
  destruct Hwf as [Hl Hls]. cbn [LSTM.run_layers].
  destruct (run_layer_lengths hid l inp xs Hl (replicate hid F.zero, replicate hid F.zero))
    as (R1 & R2 & R3 & R4); [apply length_replicate..|].
  destruct (LSTM.run_layer hid l xs _) as [ys fin]. cbn [fst snd] in *.
  specialize (IH hid ys Hls).
  destruct ls as [|l' ls].
  - cbn [LSTM.run_layers fst snd length]. repeat split; try done. by repeat constructor.
  - destruct (LSTM.run_layers hid (l' :: ls) ys) as [out fins]. cbn [fst snd] in *.
    destruct IH as (I1 & I2 & I3). destruct I3 as [I3 I4]; [done|].
    split; [cbn [length]; by rewrite I1|]. split; [by constructor|].
    intros _. split; [congruence | done].
Qed.

Lemma LSTM_forward_raises (m : LSTM.t) (x : tensor) (e : exn) :
  LSTM.forward m x = Raise e -> e = RuntimeError.
Proof.
  unfold LSTM.forward. intros Hr.
  repeat (case_bool_decide || case_match); congruence.
Qed.

(** The sizes of what [LSTM.forward] returns, and when it returns. *)
Lemma LSTM_forward_ok (m : LSTM.t) (x : tensor) (len : nat) :
  LSTM.wf m -> shape x = [1; len; LSTM.input_size m] -> 0 < len ->
  exists out hn cn,
    LSTM.forward m x = Ok (out, (hn, cn)) /\
    shape out = [1; len; LSTM.hidden_size m] /\
    length (data out) = len * LSTM.hidden_size m /\
    shape hn = [LSTM.num_layers m; 1; LSTM.hidden_size m] /\
    length (data hn) = LSTM.num_layers m * LSTM.hidden_size m.
Proof.
  intros (Hhid & Hn & Hwf) Hshape Hlen. unfold LSTM.forward. rewrite Hshape.
  rewrite bool_decide_eq_false_2 by (intros Hne; by apply Hne).
  rewrite bool_decide_eq_false_2 by lia.
  assert (Hne : LSTM.layers m <> []).
  { unfold LSTM.num_layers in Hn. destruct (LSTM.layers m); [simpl in Hn; lia | done]. }
  rewrite bool_decide_eq_false_2 by done.
  destruct (run_layers_lengths (LSTM.hidden_size m) (LSTM.layers m) (LSTM.input_size m)
              (rows len (LSTM.input_size m) (data x)) Hwf) as (L1 & L2 & L3).
  destruct (L3 Hne) as [L4 L5].
  destruct (LSTM.run_layers _ _ _) as [out fins]. cbn [fst snd] in *.
  do 3 eexists. split; [reflexivity|]. cbn [shape data].
  split; [reflexivity|]. split.
  - rewrite (concat_rows_length _ _ L5), L4. unfold rows. by rewrite chunks_length.
  - split; [reflexivity|].
    rewrite (concat_rows_length (LSTM.hidden_size m)).
    + rewrite length_map, L1. reflexivity.
    + apply Forall_fmap. eapply Forall_impl; [exact L2|]. by intros hc [? _].
Qed.
End LayerShapes.

Lemma Linear_forward_shape (m : Linear.t) (x y : tensor) :
  Linear.wf m -> Linear.forward m x = Ok y ->
  shape y = removelast (shape x) ++ [Linear.out_features m] /\
  length (data y) = numel (removelast (shape x)) * Linear.out_features m.
Proof.
  intros (Hw & _ & Hb). unfold Linear.forward.
  destruct (last (shape x)) as [inp|]; [|discriminate].
  case_bool_decide; [discriminate|]. intros [= <-]. cbn [shape data].
  split; [reflexivity|].
  rewrite (concat_rows_length (Linear.out_features m)).
  - rewrite length_map. unfold rows. by rewrite chunks_length.
  - apply Forall_fmap, Forall_forall. intros r _. simpl. unfold vadd, matvec.
    rewrite length_zip_with, length_map. lia.
Qed.

Lemma Linear_forward_ok (m : Linear.t) (x : tensor) (len : nat) :
  shape x = [len; Linear.in_features m] -> exists y, Linear.forward m x = Ok y.
Proof.
  intros Hshape. unfold Linear.forward. rewrite Hshape. simpl.
  rewrite bool_decide_eq_false_2 by (intros Hne; by apply Hne). eauto.
Qed.

Lemma concat_replicate_length (a : nat) (xs : list float) :
  length (concat (replicate a xs)) = a * length xs.
Proof. induction a as [|a IH]; simpl; [reflexivity|]. by rewrite length_app, IH. Qed.

Lemma tensor_repeat_rows (x : tensor) (r c a : nat) :
  shape x = [r; c] -> length (data x) = r * c ->
  exists t, tensor_repeat x [a; 1] = Ok t /\
            shape t = [a * r; c] /\ length (data t) = a * (r * c).
Proof.
  intros Hshape Hlen. unfold tensor_repeat. rewrite Hshape.
  eexists. split; [reflexivity|]. cbn [shape data]. split; [by rewrite Nat.mul_1_l|].
  rewrite concat_replicate_length. f_equal.
  rewrite (concat_rows_length c).
  - rewrite length_map. unfold rows. by rewrite chunks_length.
  - apply Forall_fmap. eapply Forall_impl; [apply chunks_rows; exact Hlen|].
    intros row Hrow. simpl. by rewrite length_app, Hrow, Nat.add_0_r.
Qed.

Lemma LSTM_forward_inv `{Activations} (m : LSTM.t) (x : tensor) r :
  LSTM.forward m x = Ok r ->
  exists len, shape x = [1; len; LSTM.input_size m] /\ 0 < len.
Proof.
  unfold LSTM.forward. intros Hr.
  repeat (case_bool_decide || case_match); try discriminate; subst.
  eexists. split; [reflexivity | lia].
Qed.

(** ** The encoder, the decoder and the autoencoder *)

Section Autoencoder.
Context `{Activations}.

Lemma Encoder_forward_ok (n : nat) (e : Encoder.t) (x : tensor) :
  Encoder.wf n e ->
  length (data x) = Encoder.seq_len e * Encoder.n_features e ->
  0 < Encoder.seq_len e ->
  exists emb, Encoder.forward e x = Ok emb /\
              shape emb = [n; Encoder.embedding_dim e] /\
              length (data emb) = n * Encoder.embedding_dim e.
Proof.
  intros (_ & Hi1 & Hh1 & _ & Hi2 & Hh2 & Hn2 & Hwf1 & Hwf2) Hlen Hpos.
  unfold Encoder.forward.
  change [1%Z; Z.of_nat (Encoder.seq_len e); Z.of_nat (Encoder.n_features e)]
    with (map Z.of_nat [1; Encoder.seq_len e; Encoder.n_features e]).
  rewrite reshape_sizes, bool_decide_eq_true_2 by (simpl; lia). cbn [mbind result_bind].
  destruct (LSTM_forward_ok (Encoder.lstm1 e)
              (Tensor [1; Encoder.seq_len e; Encoder.n_features e] (data x))
              (Encoder.seq_len e) Hwf1) as (o1 & h1 & c1 & -> & Hs1 & _); [by rewrite Hi1|done|].
  cbn [mbind result_bind].
  destruct (LSTM_forward_ok (Encoder.lstm2 e) o1 (Encoder.seq_len e) Hwf2)
    as (o2 & h2 & c2 & -> & _ & _ & Hs2 & Hl2); [by rewrite Hs1, Hh1, Hi2|done|].
  cbn [mbind result_bind fst].
  destruct Hwf2 as (Hemb & _). rewrite Hh2 in Hemb.
  rewrite reshape_rows_of by done.
  rewrite Hl2, Hn2, Hh2.
  rewrite bool_decide_eq_true_2 by apply Nat.Div0.mod_mul.
  rewrite Nat.div_mul by lia. eexists. split; [reflexivity|].
  cbn [shape data]. split; [reflexivity|]. by rewrite Hl2, Hn2, Hh2.
Qed.

Lemma Encoder_forward_inv (n : nat) (e : Encoder.t) (x emb : tensor) :
  Encoder.wf n e -> Encoder.forward e x = Ok emb ->
  shape emb = [n; Encoder.embedding_dim e] /\
  length (data emb) = n * Encoder.embedding_dim e.
Proof.
  intros Hwf Hrun.
  assert (Hpre : length (data x) = Encoder.seq_len e * Encoder.n_features e /\
                 0 < Encoder.seq_len e).
  { unfold Encoder.forward in Hrun.
    change [1%Z; Z.of_nat (Encoder.seq_len e); Z.of_nat (Encoder.n_features e)]
      with (map Z.of_nat [1; Encoder.seq_len e; Encoder.n_features e]) in Hrun.
    rewrite reshape_sizes in Hrun. case_bool_decide as Hnum; [|discriminate].
    cbn [mbind result_bind] in Hrun.
    apply bindR_ok in Hrun as ([o1 hs1] & Hl1 & _).
    apply LSTM_forward_inv in Hl1 as (len & [= <-] & Hlen). simpl in Hnum. lia. }
  destruct Hpre as [Hlen Hpos].
  destruct (Encoder_forward_ok n e x Hwf Hlen Hpos) as (emb' & Hrun' & Hs).
  rewrite Hrun in Hrun'. by injection Hrun' as <-.
Qed.

Lemma Encoder_forward_raises (e : Encoder.t) (x : tensor) (ex : exn) :
  Encoder.forward e x = Raise ex -> ex = RuntimeError.
Proof.
  unfold Encoder.forward. intros Hr.
  destruct (reshape x _) as [x1|e1] eqn:H1; [|apply reshape_raises in H1; simpl in Hr; congruence].
  cbn [mbind result_bind] in Hr.
  destruct (LSTM.forward (Encoder.lstm1 e) x1) as [[o1 hs1]|e1] eqn:H2;
    [|apply LSTM_forward_raises in H2; simpl in Hr; congruence].
  cbn [mbind result_bind] in Hr.
  destruct (LSTM.forward (Encoder.lstm2 e) o1) as [[o2 hs2]|e1] eqn:H3;
    [|apply LSTM_forward_raises in H3; simpl in Hr; congruence].
  cbn [mbind result_bind] in Hr. by apply reshape_raises in Hr.
Qed.

Lemma LSTM_forward_empty (m : LSTM.t) (x : tensor) (inp : nat) :
  shape x = [1; 0; inp] -> LSTM.forward m x = Raise RuntimeError.
Proof.
  intros Hs. unfold LSTM.forward. rewrite Hs.
  case_bool_decide; [reflexivity|]. by rewrite bool_decide_eq_true_2.
Qed.

(** Whatever the decoder returns has the shape (seq_len, output_dim). *)
Lemma Decoder_forward_inv (n : nat) (d : Decoder.t) (emb y : tensor) :
  Decoder.wf n d -> Decoder.forward d emb = Ok y ->
  shape y = [Decoder.seq_len d; Decoder.output_dim d] /\
  length (data y) = Decoder.seq_len d * Decoder.output_dim d.
Proof.
  intros (_ & _ & _ & _ & _ & _ & _ & _ & Hout & _ & _ & Hlin) Hrun.
  unfold Decoder.forward in Hrun.
  apply bindR_ok in Hrun as (x1 & _ & Hrun).
  apply bindR_ok in Hrun as (x2 & _ & Hrun).
  apply bindR_ok in Hrun as ([x3 hs3] & _ & Hrun).
  apply bindR_ok in Hrun as ([x4 hs4] & _ & Hrun).
  apply bindR_ok in Hrun as (x5 & Hx5 & Hrun).
  change [Z.of_nat (Decoder.seq_len d); Z.of_nat (Decoder.hidden_dim d)]
    with (map Z.of_nat [Decoder.seq_len d; Decoder.hidden_dim d]) in Hx5.
  rewrite reshape_sizes in Hx5. case_bool_decide; [|discriminate].
  injection Hx5 as <-.
  destruct (Linear_forward_shape _ _ _ Hlin Hrun) as [-> ->].
  simpl. rewrite Hout. split; [reflexivity | lia].
Qed.

Lemma Decoder_forward_ok (d : Decoder.t) (emb : tensor) :
  Decoder.wf 1 d -> 0 < Decoder.seq_len d ->
  shape emb = [1; Decoder.input_dim d] -> length (data emb) = 1 * Decoder.input_dim d ->
  exists y, Decoder.forward d emb = Ok y.
Proof.
  intros (Hhd & Hi1 & Hh1 & _ & Hi2 & Hh2 & _ & Hli & _ & Hwf1 & Hwf2 & _) Hpos Hs Hl.
  unfold Decoder.forward.
  destruct (tensor_repeat_rows emb 1 (Decoder.input_dim d) (Decoder.seq_len d) Hs Hl)
    as (x1 & -> & Hs1 & Hl1).
  cbn [mbind result_bind].
  change [1%Z; Z.of_nat (Decoder.seq_len d); Z.of_nat (Decoder.input_dim d)]
    with (map Z.of_nat [1; Decoder.seq_len d; Decoder.input_dim d]).
  rewrite reshape_sizes, bool_decide_eq_true_2 by (simpl; lia). cbn [mbind result_bind].
  destruct (LSTM_forward_ok (Decoder.lstm1 d)
              (Tensor [1; Decoder.seq_len d; Decoder.input_dim d] (data x1))
              (Decoder.seq_len d) Hwf1) as (o1 & h1 & c1 & -> & Hso1 & _);
    [by rewrite Hi1|done|].
  cbn [mbind result_bind].
  destruct (LSTM_forward_ok (Decoder.lstm2 d) o1 (Decoder.seq_len d) Hwf2)
    as (o2 & h2 & c2 & -> & _ & Hlo2 & _); [by rewrite Hso1, Hh1, Hi2|done|].
  cbn [mbind result_bind].
  change [Z.of_nat (Decoder.seq_len d); Z.of_nat (Decoder.hidden_dim d)]
    with (map Z.of_nat [Decoder.seq_len d; Decoder.hidden_dim d]).
  rewrite reshape_sizes, bool_decide_eq_true_2 by (simpl; rewrite Hlo2, Hh2; lia).
  cbn [mbind result_bind].
  apply (Linear_forward_ok _ _ (Decoder.seq_len d)). simpl. by rewrite Hli.
Qed.

(** With two or more layers the embedding has as many rows, and the
    decoder cannot reshape its tiling to one sequence. *)
Lemma Decoder_forward_stacked (n : nat) (d : Decoder.t) (emb : tensor) :
  Decoder.wf n d -> 2 <= n ->
  shape emb = [n; Decoder.input_dim d] -> length (data emb) = n * Decoder.input_dim d ->
  Decoder.forward d emb = Raise RuntimeError.
Proof.
  intros (_ & Hi1 & Hh1 & _ & _ & _ & _ & _ & _ & Hwf1 & _ & _) Hn Hs Hl.
  unfold Decoder.forward.
  destruct (tensor_repeat_rows emb n (Decoder.input_dim d) (Decoder.seq_len d) Hs Hl)
    as (x1 & -> & Hs1 & Hl1).
  cbn [mbind result_bind].
  change [1%Z; Z.of_nat (Decoder.seq_len d); Z.of_nat (Decoder.input_dim d)]
    with (map Z.of_nat [1; Decoder.seq_len d; Decoder.input_dim d]).
  rewrite reshape_sizes. case_bool_decide as Hnum; [|reflexivity].
  cbn [mbind result_bind].
  assert (Hzero : Decoder.seq_len d = 0).
  { destruct Hwf1 as (Hpos & _). rewrite Hh1 in Hpos. simpl in Hnum. nia. }
  rewrite (LSTM_forward_empty (Decoder.lstm1 d) _ (Decoder.input_dim d));
    [reflexivity | by rewrite Hzero].
Qed.
End Autoencoder.

Section AutoencoderShapes.
Context `{Activations}.

(** Whatever [LAE.forward] returns has the shape (seq_len, n_features). *)
Lemma LAE_forward_inv (n : nat) (m : LAE.t) (x y : tensor) :
  LAE.wf n m -> LAE.forward m x = Ok y ->
  shape y = [LAE.seq_len m; LAE.n_features m] /\
  length (data y) = LAE.seq_len m * LAE.n_features m.
Proof.
  intros (_ & _ & _ & Hs & _ & Ho & _ & Hd) Hrun. unfold LAE.forward in Hrun.
  apply bindR_ok in Hrun as (emb & _ & Hrun).
  apply bindR_ok in Hrun as (y' & Hdec & [= <-]).
  destruct (Decoder_forward_inv n _ _ _ Hd Hdec) as [-> ->]. by rewrite Hs, Ho.
Qed.

(** With one layer per LSTM, a sequence of the shape the model was built
    for is reconstructed, in the same shape. *)
Theorem LAE_forward_keeps_shape (m : LAE.t) (x : tensor) :
  LAE.wf 1 m -> 0 < LAE.seq_len m ->
  shape x = [LAE.seq_len m; LAE.n_features m] -> tensor_wf x ->
  exists y, LAE.forward m x = Ok y /\ shape y = shape x /\ tensor_wf y.
Proof.
  intros Hwf Hpos Hshape Hx.
  pose proof Hwf as (Hes & Hef & Hee & Hds & Hdi & Hdo & He & Hd).
  assert (Hlen : length (data x) = Encoder.seq_len (LAE.encoder m) *
                                   Encoder.n_features (LAE.encoder m)).
  { unfold tensor_wf in Hx. rewrite Hx, Hshape, Hes, Hef. simpl. lia. }
  destruct (Encoder_forward_ok 1 _ x He Hlen) as (emb & Henc & Hse & Hle); [by rewrite Hes|].
  destruct (Decoder_forward_ok (LAE.decoder m) emb Hd) as (y & Hdec);
    [by rewrite Hds | by rewrite Hse, Hee, Hdi | by rewrite Hle, Hee, Hdi |].
  assert (Hrun : LAE.forward m x = Ok y).
  { unfold LAE.forward. rewrite Henc. simpl. rewrite Hdec. reflexivity. }
  exists y. split; [exact Hrun|].
  destruct (LAE_forward_inv 1 m x y Hwf Hrun) as [Hsy Hly].
  split; [by rewrite Hsy, Hshape|]. unfold tensor_wf. rewrite Hly, Hsy. simpl. lia.
Qed.

(** With two or more layers per LSTM, no input is reconstructed. *)
Theorem LAE_forward_stacked_raises (n : nat) (m : LAE.t) (x : tensor) :
  LAE.wf n m -> 2 <= n -> LAE.forward m x = Raise RuntimeError.
Proof.
  intros (_ & _ & Hee & _ & Hdi & _ & He & Hd) Hn. unfold LAE.forward.
  destruct (Encoder.forward (LAE.encoder m) x) as [emb|ex] eqn:Henc.
  - destruct (Encoder_forward_inv n _ _ _ He Henc) as [Hse Hle]. simpl.
    rewrite (Decoder_forward_stacked n (LAE.decoder m) emb Hd Hn);
      [reflexivity | by rewrite Hse, Hee, Hdi | by rewrite Hle, Hee, Hdi].
  - apply Encoder_forward_raises in Henc as ->. reflexivity.
Qed.
End AutoencoderShapes.

(** ** The constructor and [load_state_dict] give well-formed models *)

Lemma init_layers_wf (n : nat) (w : float) : forall inp hid,
  LSTM.layers_wf inp hid (LSTM.init_layers inp hid n w) /\
  length (LSTM.init_layers inp hid n w) = n.
Proof.
  induction n as [|n IH]; intros inp hid; simpl; [done|].
  destruct (IH hid hid) as [IH1 IH2]. split; [|by rewrite IH2].
  split; [|exact IH1]. unfold LSTM.layer_wf, LSTM.init_layer. simpl.
  rewrite !length_replicate.
  repeat split; try reflexivity;
    (apply Forall_forall; intros r Hr%elem_of_replicate; destruct Hr as [-> _];
     by rewrite length_replicate).
Qed.

Lemma LSTM_init_wf (inp hid n : nat) (w : float) (m : LSTM.t) :
  LSTM.init inp hid n w = Ok m ->
  LSTM.wf m /\ LSTM.input_size m = inp /\ LSTM.hidden_size m = hid /\ LSTM.num_layers m = n.
Proof.
  unfold LSTM.init. repeat case_bool_decide; try discriminate. intros [= <-].
  destruct (init_layers_wf n w inp hid) as [Hwf Hlen].
  unfold LSTM.wf, LSTM.num_layers. simpl. rewrite Hlen. repeat split; try done; lia.
Qed.

Lemma LAE_init_wf (seq_len n_features embedding_dim num_layers : nat) (w : float) (m : LAE.t) :
  LAE.init seq_len n_features embedding_dim num_layers w = Ok m ->
  LAE.wf num_layers m /\ LAE.seq_len m = seq_len /\ LAE.n_features m = n_features.
Proof.
  unfold LAE.init, Encoder.init, Decoder.init. intros Hrun.
  apply bindR_ok in Hrun as (e & He & Hrun).
  apply bindR_ok in Hrun as (d & Hd & [= <-]).
  apply bindR_ok in He as (e1 & He1 & He).
  apply bindR_ok in He as (e2 & He2 & [= <-]).
  apply bindR_ok in Hd as (d1 & Hd1 & Hd).
  apply bindR_ok in Hd as (d2 & Hd2 & [= <-]).
  apply LSTM_init_wf in He1 as (? & ? & ? & ?), He2 as (? & ? & ? & ?).
  apply LSTM_init_wf in Hd1 as (? & ? & ? & ?), Hd2 as (? & ? & ? & ?).
  split; [|done].
  unfold LAE.wf, Encoder.wf, Decoder.wf, Linear.wf, Linear.init. simpl.
  rewrite !length_replicate.
  split_and!; try done.
  apply Forall_forall. intros r Hr%elem_of_replicate. destruct Hr as [-> _].
  by rewrite length_replicate.
Qed.

Lemma rows_of_length (k : nat) (w : list (list float)) : forall w',
  mat_shape w' = mat_shape w ->
  (length w' = length w) /\
  (Forall (fun r => length r = k) w -> Forall (fun r => length r = k) w').
Proof.
  unfold mat_shape.
  induction w as [|r w IH]; intros [|r' w'] Heq; simpl in Heq; try done.
  injection Heq as Hr Heq. destruct (IH w' Heq) as [IH1 IH2]. split.
  - simpl. by rewrite IH1.
  - intros [Hk Hw]%Forall_cons. constructor; [congruence | auto].
Qed.

Lemma layers_wf_shapes (ls : list LSTM.layer) : forall ls' inp hid,
  lstm_shapes (LSTM.Make inp hid ls') = lstm_shapes (LSTM.Make inp hid ls) ->
  LSTM.layers_wf inp hid ls -> LSTM.layers_wf inp hid ls'.
Proof.
  unfold lstm_shapes. simpl.
  induction ls as [|l ls IH]; intros [|l' ls'] inp hid Heq Hwf; simpl in *; try done.
  injection Heq as H1 H2 H3 H4 Heq. destruct Hwf as [Hl Hls].
  split; [|by apply IH].
  destruct Hl as (L1 & L2 & L3 & L4 & L5 & L6).
  destruct (rows_of_length inp _ _ H1) as [R1 R2], (rows_of_length hid _ _ H2) as [R3 R4].
  unfold LSTM.layer_wf. split_and!; auto; congruence.
Qed.

Lemma lstm_with_wf (m sd : LSTM.t) :
  lstm_shapes sd = lstm_shapes m -> LSTM.wf m ->
  LSTM.wf (lstm_with m sd) /\ LSTM.num_layers (lstm_with m sd) = LSTM.num_layers m.
Proof.
  intros Heq (Hh & Hn & Hwf).
  assert (Hlen : length (LSTM.layers sd) = length (LSTM.layers m)).
  { apply (f_equal length) in Heq. unfold lstm_shapes in Heq. by rewrite !length_map in Heq. }
  unfold LSTM.wf, LSTM.num_layers, lstm_with in *. simpl. rewrite Hlen.
  split_and!; try done.
  by apply (layers_wf_shapes (LSTM.layers m)).
Qed.

Lemma load_state_dict_wf (n : nat) (m sd m' : LAE.t) :
  LAE.wf n m -> load_state_dict m sd = Ok m' ->
  LAE.wf n m' /\ LAE.seq_len m' = LAE.seq_len m /\ LAE.n_features m' = LAE.n_features m.
Proof.
  unfold load_state_dict. case_bool_decide as Heq; [|discriminate]. intros Hwf [= <-].
  unfold param_shapes in Heq. inversion Heq as [[S1 S2 S3 S4 S5 S6]]. clear Heq.
  destruct Hwf as (Hes & Hef & Hee & Hds & Hdi & Hdo & He & Hd).
  destruct He as (E1 & E2 & E3 & E4 & E5 & E6 & E7 & E8 & E9).
  destruct Hd as (D1 & D2 & D3 & D4 & D5 & D6 & D7 & D8 & D9 & D10 & D11 & D12).
  destruct (lstm_with_wf _ _ S1 E8) as [? ?], (lstm_with_wf _ _ S2 E9) as [? ?].
  destruct (lstm_with_wf _ _ S3 D10) as [? ?], (lstm_with_wf _ _ S4 D11) as [? ?].
  split; [|done].
  unfold LAE.wf, Encoder.wf, Decoder.wf, with_params. simpl.
  split_and!; try done; try congruence.
  destruct D12 as (W1 & W2 & W3).
  destruct (rows_of_length (Linear.in_features (Decoder.linear (LAE.decoder m))) _ _ S5)
    as [R1 R2].
  unfold Linear.wf, linear_with. simpl. split_and!; auto; congruence.
Qed.

Lemma mapR_Forall2 {A B} (f : A -> result B) (xs : list A) : forall ys,
  mapR f xs = Ok ys -> Forall2 (fun x y => f x = Ok y) xs ys.
Proof.
  induction xs as [|x xs IH]; intros ys Hrun; simpl in Hrun.
  - injection Hrun as <-. constructor.
  - apply bindR_ok in Hrun as (y & Hy & Hrun).
    apply bindR_ok in Hrun as (ys1 & Hrest & [= <-]).
    constructor; [exact Hy | by apply IH].
Qed.

Lemma np_stack_flat (k : nat) (ts : list tensor) (stacked : tensor) :
  Forall (fun t => length (data t) = k) ts ->
  np_stack (map flatten ts) = Ok stacked ->
  length (data stacked) = length ts * k.
Proof.
  intros Hall. unfold np_stack. destruct ts as [|t ts]; simpl.
  - by intros [= <-].
  - case_bool_decide; [|discriminate]. intros [= <-]. simpl.
    apply Forall_cons in Hall as [Ht Hts]. rewrite length_app, Ht. f_equal.
    rewrite (concat_rows_length k); [by rewrite !length_map|].
    apply Forall_fmap, Forall_fmap. exact Hts.
Qed.

(** ** Claims about shapes *)

(** C6. For an autoencoder built by [LAE(seq_len, n_features, embedding_dim,
    num_layers)] the claim holds with one layer per LSTM: every sequence of
    shape (seq_len, n_features) is reconstructed in that shape. The code
    departs from it with two or more layers: the encoder then returns one row
    per layer, the decoder cannot reshape them, and [forward] raises on every
    input. *)
Theorem LAE_forward_shape_unless_stacked `{Activations}
    (seq_len n_features embedding_dim num_layers : nat) (w : float) (m : LAE.t) (x : tensor) :
  LAE.init seq_len n_features embedding_dim num_layers w = Ok m ->
  (num_layers = 1 -> 0 < seq_len -> shape x = [seq_len; n_features] -> tensor_wf x ->
   exists y, LAE.forward m x = Ok y /\ shape y = [seq_len; n_features] /\ tensor_wf y) /\
  (2 <= num_layers -> LAE.forward m x = Raise RuntimeError).
Proof.
  intros Hinit. apply LAE_init_wf in Hinit as (Hwf & Hs & Hf). split.
  - intros -> Hpos Hshape Hx. rewrite <- Hs, <- Hf in Hshape.
    destruct (LAE_forward_keeps_shape m x Hwf) as (y & Hy & Hsy & Hwy); [lia|done..|].
    exists y. by rewrite <- Hs, <- Hf, <- Hshape, <- Hsy.
  - intros Hn. by apply (LAE_forward_stacked_raises num_layers).
Qed.

Lemma LAE_forward_shape_unless_stacked_witness :
  LAE.init 2 1 1 2 Example.half = Ok (Example.build 2 1 1 2) /\
  shape (Example.seq2 Example.half Example.one) = [2; 1] /\
  LAE.forward (Example.build 2 1 1 2) (Example.seq2 Example.half Example.one) =
  Raise RuntimeError.
Proof.
  assert (Hinit : LAE.init 2 1 1 2 Example.half = Ok (Example.build 2 1 1 2))
    by (vm_compute; reflexivity).
  split; [exact Hinit|]. split; [reflexivity|].
  exact (proj2 (LAE_forward_shape_unless_stacked 2 1 1 2 Example.half (Example.build 2 1 1 2)
                  (Example.seq2 Example.half Example.one) Hinit) (le_n 2)).
Defined.

(** The same sequence through the model with one layer. *)
Example reconstruction_of_the_example :
  shape <$> LAE.forward (Example.build 2 1 1 1) (Example.seq2 Example.half Example.one) =
  Ok [2; 1].
Proof. vm_compute. reflexivity. Qed.

(** C3, as stated, fails: on two sequences of two values, [predict] returns
    four predictions and two losses, so the losses do not have the shape
    (N, 1) with N = 2 x 2 x 1. *)
Lemma predict_losses_are_per_sequence :
  let p := (Example.ok_or (Example.no_tensor, Example.no_tensor) Example.predicted2.1).1 in
  let l := (Example.ok_or (Example.no_tensor, Example.no_tensor) Example.predicted2.1).2 in
  Example.predicted2.1 = Ok (p, l) /\
  ~ (shape p = [length Example.pair_ds * (2 * 1); 1] /\
     shape l = [length Example.pair_ds * (2 * 1); 1]).
Proof.
  split; [vm_compute; reflexivity|].
  intros [_ Hl]. vm_compute in Hl. discriminate.
Qed.

(** C3, amended. For a model built by [LAE(...)], [predict] returns the
    predictions as an array of shape (N, 1) with N the number of sequences
    times seq_len times n_features, and the losses as an array of shape
    (M, 1) with M the number of sequences: one loss per sequence. *)
Theorem predict_shapes `{Activations} `{Optimizer} `{Metrics}
    (n : nat) (self : Trainer.t) (mp : string) (ds : list tensor) (s s0 : state)
    (p l : tensor) :
  LAE.wf n (model s) ->
  Trainer.predict self mp ds s = (Ok (p, l), s0) ->
  shape p = [length ds * (LAE.seq_len (model s) * LAE.n_features (model s)); 1] /\
  shape l = [length ds; 1] /\
  tensor_wf p /\ tensor_wf l.
Proof.
  intros Hwf Hpred.
  destruct (predict_inv _ _ _ _ _ _ _ Hpred)
    as (sd & m & preds & ls & st & _ & Hload & Hp & Hl & Hst & -> & -> & _).
  destruct (load_state_dict_wf n _ _ _ Hwf Hload) as (Hwf' & <- & <-).
  pose proof (mapR_length _ _ _ Hp) as Hnp.
  pose proof (mapR_length _ _ _ Hl) as Hnl.
  assert (Hall : Forall (fun t => length (data t) = LAE.seq_len m * LAE.n_features m) preds).
  { apply mapR_Forall2 in Hp. clear -Hp Hwf'.
    induction Hp as [|x y xs ys Hy _ IH]; constructor; [|exact IH].
    by destruct (LAE_forward_inv n m x y Hwf' Hy) as [_ ?]. }
  rewrite (np_stack_flat _ _ _ Hall Hst), Hnp, Hnl.
  unfold tensor_wf. cbn [shape data numel fold_right].
  rewrite (np_stack_flat _ _ _ Hall Hst), Hnp, Hnl. split_and!; try reflexivity; lia.
Qed.

Lemma predict_shapes_witness :
  let p := (Example.ok_or (Example.no_tensor, Example.no_tensor) Example.predicted2.1).1 in
  let l := (Example.ok_or (Example.no_tensor, Example.no_tensor) Example.predicted2.1).2 in
  LAE.wf 1 (model Example.saved2) /\
  Trainer.predict Example.trainer "training_logs/steering.pth" Example.pair_ds
    Example.saved2 = (Ok (p, l), Example.predicted2.2) /\
  shape p = [4; 1] /\ shape l = [2; 1].
Proof.
  assert (Hwf : LAE.wf 1 (model Example.saved2)).
  { assert (Hm : LAE.init 2 1 1 1 Example.half = Ok (model Example.saved2))
      by (vm_compute; reflexivity).
    by apply LAE_init_wf in Hm as [Hwf _]. }
  assert (Hpred : Trainer.predict Example.trainer "training_logs/steering.pth"
                    Example.pair_ds Example.saved2 =
                  (Ok ((Example.ok_or (Example.no_tensor, Example.no_tensor)
                          Example.predicted2.1).1,
                       (Example.ok_or (Example.no_tensor, Example.no_tensor)
                          Example.predicted2.1).2), Example.predicted2.2))
    by (vm_compute; reflexivity).
  split; [exact Hwf|]. split; [exact Hpred|].
  destruct (predict_shapes 1 Example.trainer "training_logs/steering.pth" Example.pair_ds
              Example.saved2 Example.predicted2.2 _ _ Hwf Hpred) as (Hp & Hl & _).
  split; [rewrite Hp | rewrite Hl]; vm_compute; reflexivity.
Defined.

(** ** Splitting strings *)

Lemma split_no_occurs (c : ascii) (s : string) :
  occurs c s = false -> split c s = [s].
Proof.
  induction s as [|a s IH]; simpl; [done|].
  destruct (Ascii.eqb a c); simpl; [discriminate|].
  intros Hs. by rewrite (IH Hs).
Qed.

Lemma split_occurs (c : ascii) (s : string) :
  occurs c s = true -> exists w v ws, split c s = w :: v :: ws.
Proof.
  induction s as [|a s IH]; simpl; [discriminate|].
  destruct (Ascii.eqb a c); simpl.
  - intros _. destruct (split c s) as [|v ws] eqn:E.
    + destruct s; simpl in E; [discriminate|].
      destruct (Ascii.eqb _ c), (split c s); discriminate.
    + eauto.
  - intros (w & v & ws & ->)%IH. eauto.
Qed.

Lemma after_last_no_occurs (c : ascii) (s : string) :
  occurs c s = false -> after_last c s = s.
Proof.
  destruct s as [|a s]; simpl; [done|].
  destruct (Ascii.eqb a c); simpl; [discriminate|]. by intros ->.
Qed.

Lemma last_split (c : ascii) (s : string) : last (split c s) = Some (after_last c s).
Proof.
  induction s as [|a s IH]; [reflexivity|]. cbn [split after_last].
  destruct (occurs c s) eqn:Hocc.
  - destruct (split_occurs c s Hocc) as (w & v & ws & E). rewrite E in IH |- *.
    destruct (Ascii.eqb a c); exact IH.
  - rewrite (split_no_occurs c s Hocc). destruct (Ascii.eqb a c); reflexivity.
Qed.

Lemma item_m1_last {A} (xs : list A) :
  item_m1 xs = match last xs with Some x => Ok x | None => Raise IndexError end.
Proof.
  unfold item_m1. destruct xs as [|x xs _] using rev_ind; [reflexivity|].
  by rewrite reverse_snoc, last_snoc.
Qed.

(** [field.split(":")[-1]] is the text after the last colon. *)
Lemma item_m1_split (c : ascii) (s : string) :
  item_m1 (split c s) = Ok (after_last c s).
Proof. by rewrite item_m1_last, last_split. Qed.

(** ** Sorting by key *)

Lemma insert_by_key_perm {A} (x : Z * A) (l : list (Z * A)) :
  Permutation (insert_by_key x l) (x :: l).
Proof.
  induction l as [|y l IH]; simpl; [done|].
  destruct (x.1 <=? y.1)%Z; [done|]. rewrite IH. apply perm_swap.
Qed.

Lemma sort_by_key_perm {A} (l : list (Z * A)) : Permutation (sort_by_key l) l.
Proof.
  induction l as [|x l IH]; simpl; [done|].
  rewrite insert_by_key_perm. by constructor.
Qed.

Lemma insert_by_key_sorted {A} (x : Z * A) (l : list (Z * A)) :
  Sorted Z.le (map fst l) -> Sorted Z.le (map fst (insert_by_key x l)).
Proof.
  induction l as [|y l IH]; simpl; intros Hs.
  - repeat constructor.
  - destruct (Z.leb_spec x.1 y.1) as [Hle|Hgt]; simpl.
    + constructor; [exact Hs | by constructor].
    + apply Sorted_inv in Hs as [Hs Hhd]. constructor; [by apply IH|].
      destruct l as [|z l]; simpl.
      * constructor. lia.
      * destruct (x.1 <=? z.1)%Z; simpl; constructor; [lia|].
        by apply HdRel_inv in Hhd.
Qed.

Lemma sort_by_key_sorted {A} (l : list (Z * A)) : Sorted Z.le (map fst (sort_by_key l)).
Proof.
  induction l as [|x l IH]; simpl; [constructor|]. by apply insert_by_key_sorted.
Qed.

(** [sorted(filepaths, key=...)]: the same paths, keys in increasing order. *)
Lemma sorted_by_key_spec (xs paths : list string) :
  sorted_by_key xs = Ok paths ->
  Permutation paths xs /\
  exists keys, Forall2 (fun p k => sort_key p = Ok k) paths keys /\ Sorted Z.le keys.
Proof.
  unfold sorted_by_key. intros Hrun.
  apply bindR_ok in Hrun as (keyed & Hk & [= <-]).
  assert (Hkeyed : map snd keyed = xs /\ Forall (fun kx => sort_key kx.2 = Ok kx.1) keyed).
  { clear -Hk. revert keyed Hk.
    induction xs as [|x xs IH]; intros keyed Hk; simpl in Hk.
    - by injection Hk as <-.
    - apply bindR_ok in Hk as (kx & Hkx & Hk).
      apply bindR_ok in Hkx as (k & Hkey & [= <-]).
      apply bindR_ok in Hk as (rest & Hrest & [= <-]).
      destruct (IH rest Hrest) as [<- Hall]. split; [reflexivity|]. by constructor. }
  destruct Hkeyed as [<- Hall]. split.
  - by rewrite (sort_by_key_perm keyed).
  - exists (map fst (sort_by_key keyed)). split; [|apply sort_by_key_sorted].
    assert (Hall' : Forall (fun kx => sort_key kx.2 = Ok kx.1) (sort_by_key keyed)).
    { by rewrite sort_by_key_perm. }
    clear -Hall'. induction Hall'; simpl; by constructor.
Qed.

(** ** The sort key of a numbered file *)

Lemma digit_is_plain (c : ascii) (d : Z) :
  digit_value c = Some d ->
  Ascii.eqb c "_" = false /\ Ascii.eqb c "." = false /\ is_space c = false /\
  c <> "-"%char /\ c <> "+"%char.
Proof.
  destruct c as [[] [] [] [] [] [] [] []]; try discriminate; intros _; by vm_compute.
Qed.

Lemma digits_value_occurs (c : ascii) (ds : string) : forall acc v,
  digits_value acc ds = Some v -> digit_value c = None -> occurs c ds = false.
Proof.
  induction ds as [|a ds IH]; intros acc v Hv Hc; simpl in *; [done|].
  destruct (digit_value a) as [d|] eqn:Ha; [|discriminate].
  rewrite (IH _ _ Hv Hc), orb_false_r.
  destruct (Ascii.eqb_spec a c) as [->|]; [congruence | done].
Qed.

Lemma occurs_app (c : ascii) (a b : string) :
  occurs c (a +:+ b) = occurs c a || occurs c b.
Proof.
  induction a as [|x a IH]; [reflexivity|].
  rewrite append_cons. simpl. by rewrite IH, orb_assoc.
Qed.

Lemma after_last_app (c : ascii) (a b : string) :
  occurs c b = false -> after_last c (a +:+ String c b) = b.
Proof.
  intros Hb. induction a as [|x a IH].
  - rewrite append_nil. simpl. by rewrite Hb, Ascii.eqb_refl.
  - rewrite append_cons. cbn [after_last].
    rewrite occurs_app. cbn [occurs]. rewrite Ascii.eqb_refl.
    by rewrite orb_true_l, orb_true_r.
Qed.

Lemma split_app (c : ascii) (a b : string) :
  occurs c a = false -> split c (a +:+ String c b) = a :: split c b.
Proof.
  induction a as [|x a IH]; intros Ha.
  - rewrite append_nil. simpl. by rewrite Ascii.eqb_refl.
  - rewrite append_cons. simpl in Ha |- *.
    apply orb_false_elim in Ha as [-> Ha]. by rewrite (IH Ha).
Qed.

Lemma rev_app_rev_app (s : string) : forall t u,
  String.rev_app (String.rev_app s t) u = String.rev_app t (s +:+ u).
Proof.
  induction s as [|a s IH]; intros t u; [reflexivity|].
  simpl. rewrite IH. reflexivity.
Qed.

Lemma append_nil_r (s : string) : s +:+ "" = s.
Proof. induction s as [|a s IH]; [reflexivity|]. by rewrite append_cons, IH. Qed.

Lemma rev_rev (s : string) : String.rev (String.rev s) = s.
Proof. unfold String.rev. by rewrite rev_app_rev_app, append_nil_r. Qed.

Lemma digits_value_rev_app (s : string) : forall t acc v acc',
  digits_value acc s = Some v ->
  (forall a, exists w, digits_value a t = Some w) ->
  exists w, digits_value acc' (String.rev_app s t) = Some w.
Proof.
  induction s as [|c s IH]; intros t acc v acc' Hs Ht; simpl in *; [apply Ht|].
  destruct (digit_value c) as [d|] eqn:Hc; [|discriminate].
  apply (IH _ _ _ _ Hs). intros a. simpl. rewrite Hc. apply Ht.
Qed.

Lemma lstrip_digits (s : string) (acc v : Z) :
  digits_value acc s = Some v -> lstrip s = s.
Proof.
  destruct s as [|c s]; simpl; [done|].
  destruct (digit_value c) as [d|] eqn:Hc; [|discriminate].
  destruct (digit_is_plain c d Hc) as (_ & _ & -> & _). done.
Qed.

Lemma strip_digits (s : string) (v : Z) : digits_value 0 s = Some v -> strip s = s.
Proof.
  intros Hs. unfold strip. rewrite (lstrip_digits s 0 v Hs).
  destruct (digits_value_rev_app s "" 0 v 0 Hs) as [w Hw]; [by eexists|].
  fold (String.rev s) in Hw. rewrite (lstrip_digits _ 0 w Hw). apply rev_rev.
Qed.

Lemma digits_of_value (s : string) : forall acc b v,
  digits_value acc s = Some v -> s <> "" \/ b = true -> digits acc b s = Some v.
Proof.
  induction s as [|c s IH]; intros acc b v Hv Hb; simpl in *.
  - destruct Hb as [Hb|Hb]; [done | by rewrite Hb].
  - destruct (digit_value c) as [d|]; [|discriminate]. apply IH; auto.
Qed.

Lemma int_of_str_digits (s : string) (v : Z) :
  digits_value 0 s = Some v -> s <> "" -> int_of_str s = Ok v.
Proof.
  intros Hs Hne. unfold int_of_str. rewrite (strip_digits s v Hs).
  pose proof (digits_of_value s 0 false v Hs (or_introl Hne)) as Hd.
  destruct s as [|c s]; [done|].
  assert (Hc : exists d, digit_value c = Some d).
  { simpl in Hs. destruct (digit_value c); [eauto | discriminate]. }
  destruct Hc as [d Hc]. revert Hd Hc. generalize (digits 0 false).
  intros f Hd Hc.
  destruct c as [[] [] [] [] [] [] [] []]; try discriminate;
    cbv beta iota zeta; rewrite Hd; by rewrite Z.mul_1_l.
Qed.

(** A path that ends in [_<digits>.txt] has the number the digits write as
    its sort key, whatever comes before. *)
Lemma sort_key_numbered (pre ds : string) (v : Z) :
  digits_value 0 ds = Some v -> ds <> "" ->
  sort_key (pre +:+ "_" +:+ ds +:+ ".txt") = Ok v.
Proof.
  intros Hs Hne. unfold sort_key. rewrite item_m1_split.
  change ("_" +:+ ds +:+ ".txt") with (String "_" (ds +:+ ".txt")).
  rewrite after_last_app.
  2:{ rewrite occurs_app, (digits_value_occurs "_" ds 0 v Hs) by reflexivity. reflexivity. }
  cbn [mbind result_bind].
  change (ds +:+ ".txt") with (ds +:+ String "." "txt").
  rewrite split_app by (by apply (digits_value_occurs "." ds 0 v Hs)).
  cbn. by apply int_of_str_digits.
Qed.

(** So the key of a data file [<stem>_<digits>.txt] of the source directory
    is the numeric suffix of its name. *)
Lemma sort_key_of_data_file (source_dir stem ds : string) (v : Z) :
  digits_value 0 ds = Some v -> ds <> "" ->
  sort_key (os_path_join source_dir (stem +:+ "_" +:+ ds +:+ ".txt")) = Ok v.
Proof.
  intros Hs Hne. unfold os_path_join.
  repeat case_match.
  - by apply sort_key_numbered.
  - rewrite <- (append_assoc source_dir stem). by apply sort_key_numbered.
  - rewrite <- (append_assoc "/" stem), <- (append_assoc source_dir).
    by apply sort_key_numbered.
Qed.

(** ** Reading the files *)

Section Combining.
Context `{Builtins}.

Lemma parse_line_values (line : string) (data : list float * list float * list float) :
  parse_line line data = (v ← line_values line; Ok (push_row data v)).
Proof.
  destruct data as [[SPD ANG] TRQ]. unfold parse_line, line_values.
  destruct (split "," line) as [|f1 [|f2 [|f3 [|f4 fs]]]]; try reflexivity.
  rewrite !item_m1_split. cbn [mbind result_bind].
  destruct (float_of_str (after_last ":" f1)) as [a|e]; [|reflexivity].
  destruct (float_of_str (after_last ":" f2)) as [b|e]; [|reflexivity].
  destruct (float_of_str (after_last ":" f3)) as [c|e]; reflexivity.
Qed.

Lemma parse_lines_values (lines : list string) : forall data data',
  parse_lines lines data = Ok data' ->
  exists rows, mapR line_values lines = Ok rows /\ data' = fold_left push_row rows data.
Proof.
  induction lines as [|line lines IH]; intros data data' Hrun; simpl in Hrun.
  - injection Hrun as <-. by exists [].
  - apply bindR_ok in Hrun as (data1 & Hline & Hrun).
    rewrite parse_line_values in Hline.
    apply bindR_ok in Hline as (v & Hv & [= <-]).
    destruct (IH _ _ Hrun) as (rows & Hrows & ->).
    exists (v :: rows). simpl. by rewrite Hv, Hrows.
Qed.

Lemma mapR_app {A B} (f : A -> result B) (xs ys : list A) (us vs : list B) :
  mapR f xs = Ok us -> mapR f ys = Ok vs -> mapR f (xs ++ ys) = Ok (us ++ vs).
Proof.
  revert us. induction xs as [|x xs IH]; intros us Hx Hy; simpl in *.
  - by injection Hx as <-.
  - apply bindR_ok in Hx as (u & Hu & Hx).
    apply bindR_ok in Hx as (us1 & Hus & [= <-]).
    rewrite Hu. simpl. by rewrite (IH us1 Hus Hy).
Qed.

Lemma readlines_run (path : string) (s : state) :
  readlines path s =
  match files s !! path with
  | Some (Text lines) => (Ok lines, s)
  | Some _ => (Raise ValueError, s)
  | None => (Raise FileNotFoundError, s)
  end.
Proof.
  unfold readlines, read_file. run. destruct (files s !! path) as [[]|]; reflexivity.
Qed.

(** The loop over the files reads them in order and leaves the state as
    it is. *)
Lemma read_all (paths : list string) : forall data data' s s',
  for_each paths read_one data s = (Ok data', s') ->
  s' = s /\
  exists contents rows,
    Forall2 (fun p lines => files s !! p = Some (Text lines)) paths contents /\
    mapR line_values (concat contents) = Ok rows /\
    data' = fold_left push_row rows data.
Proof.
  induction paths as [|p paths IH]; intros data data' s s' Hrun; cbn [for_each] in Hrun.
  - injection Hrun as <- <-. split; [done|]. exists [], []. by repeat constructor.
  - rewrite run_bind in Hrun. unfold read_one at 1 in Hrun.
    rewrite run_bind, readlines_run in Hrun.
    destruct (files s !! p) as [[| | | | |lines]|] eqn:Hfile; try discriminate.
    rewrite run_liftR in Hrun.
    destruct (parse_lines lines data) as [data1|e] eqn:Hparse; [|discriminate].
    destruct (IH _ _ _ _ Hrun) as (-> & contents & rows & Hall & Hrows & ->).
    destruct (parse_lines_values _ _ _ Hparse) as (rows1 & Hrows1 & ->).
    split; [done|]. exists (lines :: contents), (rows1 ++ rows).
    split; [by constructor|]. split.
    + simpl. by apply mapR_app.
    + by rewrite fold_left_app.
Qed.

Lemma data_frame_of_rows (rows : list (float * float * float)) : forall SPD ANG TRQ,
  length SPD = length ANG -> length ANG = length TRQ ->
  let '(xs, ys, zs) := fold_left push_row rows (SPD, ANG, TRQ) in
  zip_with (fun '(s, a) t => [CFloat s; CFloat a; CFloat t]) (zip xs ys) zs =
  zip_with (fun '(s, a) t => [CFloat s; CFloat a; CFloat t]) (zip SPD ANG) TRQ ++
  map csv_row rows.
Proof.
  induction rows as [|[[a b] c] rows IH]; intros SPD ANG TRQ H1 H2; simpl.
  - by rewrite app_nil_r.
  - specialize (IH (SPD ++ [a]) (ANG ++ [b]) (TRQ ++ [c])).
    destruct (fold_left push_row rows _) as [[xs ys] zs].
    rewrite IH by (rewrite !length_app; simpl; lia).
    rewrite !zip_with_app by (rewrite ?length_zip_with; lia).
    simpl. by rewrite <- app_assoc.
Qed.
End Combining.

(** ** The claim about [combine_data] *)

(** C8. When [combine_data] returns, it has written one table with the
    columns SPD, ANG, TRQ at [target_dir/outfname.csv]. The files it read are
    the entries of the source directory whose names end in [txt], taken in
    increasing order of their sort key, which for a file named
    [<stem>_<digits>.txt] is the number the digits write; the rows of the
    table are, file after file in that order and line after line, the three
    numbers written after the last colon of each of the three comma-separated
    fields. *)
Theorem combine_data_rows `{Builtins}
    (source_dir : string) (target_dir : option string) (outfname : string) (s s' : state) :
  combine_data source_dir target_dir outfname s = (Ok tt, s') ->
  exists names paths keys contents rows,
    dirs s !! source_dir = Some names /\
    Permutation paths
      (map (os_path_join source_dir) (filter (fun f => endswith f "txt" = true) names)) /\
    Forall2 (fun p k => sort_key p = Ok k) paths keys /\ Sorted Z.le keys /\
    Forall2 (fun p lines => files s !! p = Some (Text lines)) paths contents /\
    mapR line_values (concat contents) = Ok rows /\
    files s' =
      <[from_option id (os_path_normpath source_dir) target_dir +:+ "/" +:+ outfname +:+ ".csv"
        := Csv ["SPD"; "ANG"; "TRQ"] (map csv_row rows)]> (files s) /\
    forall stem ds v, digits_value 0 ds = Some v -> ds <> "" ->
      sort_key (os_path_join source_dir (stem +:+ "_" +:+ ds +:+ ".txt")) = Ok v.
Proof.
  unfold combine_data. intros Hrun.
  rewrite run_bind in Hrun. unfold os_listdir at 1 in Hrun.
  destruct (dirs s !! source_dir) as [names|] eqn:Hdir; [|discriminate].
  rewrite run_bind, run_liftR in Hrun.
  destruct (sorted_by_key _) as [paths|e] eqn:Hsort; [|discriminate].
  destruct (sorted_by_key_spec _ _ Hsort) as (Hperm & keys & Hkeys & Hsorted).
  rewrite run_bind in Hrun.
  destruct (for_each paths read_one ([], [], []) s) as [[[[SPD ANG] TRQ]|e] s1] eqn:Hread;
    [|discriminate].
  destruct (read_all _ _ _ _ _ Hread) as (-> & contents & rows & Hfiles & Hrows & Hdata).
  unfold write_file in Hrun. rewrite run_modify in Hrun. injection Hrun as <-.
  exists names, paths, keys, contents, rows.
  split_and!; try done; [|intros stem ds v; apply sort_key_of_data_file].
  cbn [files set_files].
  pose proof (data_frame_of_rows rows [] [] [] eq_refl eq_refl) as Hdf.
  rewrite <- Hdata in Hdf. simpl in Hdf. rewrite Hdf.
  by destruct target_dir.
Qed.

Lemma combine_data_rows_witness :
  combine_data "data" None "all" Example.logs = (Ok (), Example.combined.2) /\
  exists rows : list (float * float * float),
    files Example.combined.2 !! "data/all.csv" =
    Some (Csv ["SPD"; "ANG"; "TRQ"] (map csv_row rows)).
Proof.
  assert (Hrun : combine_data "data" None "all" Example.logs = (Ok (), Example.combined.2))
    by (vm_compute; reflexivity).
  split; [exact Hrun|].
  destruct (combine_data_rows "data" None "all" Example.logs Example.combined.2 Hrun)
    as (names & paths & keys & contents & rows & _ & _ & _ & _ & _ & _ & Hfiles & _).
  exists rows. rewrite Hfiles.
  assert (Hpath : from_option id (os_path_normpath "data") None +:+ "/" +:+ "all" +:+ ".csv" =
                  "data/all.csv") by (vm_compute; reflexivity).
  rewrite Hpath. apply lookup_insert_eq.
Defined.

(** The table of the example: the file with suffix 2 comes before the file
    with suffix 10, and [notes.md] is not read. *)
Example combined_table :
  files Example.combined.2 !! "data/all.csv" =
  Some (Csv ["SPD"; "ANG"; "TRQ"]
          (map csv_row [(F.of_nat 7, F.of_nat 8, F.of_nat 9);
                        (F.div (F.of_nat 3) (F.of_nat 2), F.of_nat 2,
                         F.sub F.zero (F.div (F.of_nat 1) (F.of_nat 4)));
                        (F.of_nat 3, F.of_nat 4, F.of_nat 5)])).
Proof. vm_compute. reflexivity. Qed.

(** * Beyond the claims

    Properties of the same code that the claims leave out: the edges and the
    failures of each function, what it leaves untouched, and how the
    functions work together.

    Two limits of the embedding are made explicit here. [optim.Adam] rejects
    a learning rate below zero, which the [Adam] of [Optimizer] does not
    model: a theorem that says that [fit] returns, or names the exception it
    raises, assumes [0 <= learning_rate]. And [combine_data] may create
    [target_dir] before it lists the source directory: what it leaves behind
    is stated for the files only. *)

(** The models of the examples are well formed. *)
Lemma build_wf (seq_len n_features embedding_dim num_layers : nat) :
  LAE.init seq_len n_features embedding_dim num_layers Example.half =
  Ok (Example.build seq_len n_features embedding_dim num_layers) ->
  LAE.wf num_layers (Example.build seq_len n_features embedding_dim num_layers).
Proof. intros Hm. by apply LAE_init_wf in Hm as [Hwf _]. Defined.

(** ** The encoder, the decoder and their composition *)

Section MoreShapes.
Context `{Activations}.

(** The first line of [Encoder.forward]: the reshape looks at the number of
    elements only. *)
Lemma Encoder_reshape_input (e : Encoder.t) (x : tensor) :
  reshape x [1%Z; Z.of_nat (Encoder.seq_len e); Z.of_nat (Encoder.n_features e)] =
  if bool_decide (length (data x) = Encoder.seq_len e * Encoder.n_features e)
  then Ok (Tensor [1; Encoder.seq_len e; Encoder.n_features e] (data x))
  else Raise RuntimeError.
Proof.
  change [1%Z; Z.of_nat (Encoder.seq_len e); Z.of_nat (Encoder.n_features e)]
    with (map Z.of_nat [1; Encoder.seq_len e; Encoder.n_features e]).
  rewrite reshape_sizes. cbn [numel fold_right].
  repeat case_bool_decide; try reflexivity; lia.
Qed.

Lemma Encoder_forward_data (e : Encoder.t) (x : tensor) (dims : list nat) :
  Encoder.forward e (Tensor dims (data x)) = Encoder.forward e x.
Proof. unfold Encoder.forward. by rewrite !Encoder_reshape_input. Qed.

Lemma Encoder_forward_wrong_size (e : Encoder.t) (x : tensor) :
  length (data x) <> Encoder.seq_len e * Encoder.n_features e ->
  Encoder.forward e x = Raise RuntimeError.
Proof.
  intros Hlen. unfold Encoder.forward. rewrite Encoder_reshape_input.
  by rewrite bool_decide_eq_false_2.
Qed.

Lemma sequence_loss_wrong_size (n : nat) (m : LAE.t) (x : tensor) :
  LAE.wf n m ->
  length (data x) <> LAE.seq_len m * LAE.n_features m ->
  sequence_loss m x = Raise RuntimeError.
Proof.
  intros (Hs & Hf & _) Hlen. unfold sequence_loss, LAE.forward.
  rewrite Encoder_forward_wrong_size; [reflexivity|]. by rewrite Hs, Hf.
Qed.

(** X1. A well-formed encoder with [n] layers per LSTM turns any input that
    holds seq_len x n_features values (seq_len > 0) into an embedding of shape
    (n, embedding_dim): one row per layer, not one row. *)
Theorem Encoder_forward_rows (n : nat) (e : Encoder.t) (x : tensor) :
  Encoder.wf n e ->
  0 < Encoder.seq_len e ->
  length (data x) = Encoder.seq_len e * Encoder.n_features e ->
  exists emb, Encoder.forward e x = Ok emb /\
              shape emb = [n; Encoder.embedding_dim e] /\ tensor_wf emb.
Proof.
  intros Hwf Hpos Hlen.
  destruct (Encoder_forward_ok n e x Hwf Hlen Hpos) as (emb & Hrun & Hs & Hl).
  exists emb. split; [exact Hrun|]. split; [exact Hs|].
  unfold tensor_wf. rewrite Hs, Hl. simpl. lia.
Qed.

(** A decoder of any depth accepts an embedding of one row. *)
Lemma Decoder_forward_one_row (n : nat) (d : Decoder.t) (emb : tensor) :
  Decoder.wf n d -> 0 < Decoder.seq_len d ->
  shape emb = [1; Decoder.input_dim d] -> length (data emb) = 1 * Decoder.input_dim d ->
  exists y, Decoder.forward d emb = Ok y.
Proof.
  intros (Hhd & Hi1 & Hh1 & _ & Hi2 & Hh2 & _ & Hli & _ & Hwf1 & Hwf2 & _) Hpos Hs Hl.
  unfold Decoder.forward.
  destruct (tensor_repeat_rows emb 1 (Decoder.input_dim d) (Decoder.seq_len d) Hs Hl)
    as (x1 & -> & Hs1 & Hl1).
  cbn [mbind result_bind].
  change [1%Z; Z.of_nat (Decoder.seq_len d); Z.of_nat (Decoder.input_dim d)]
    with (map Z.of_nat [1; Decoder.seq_len d; Decoder.input_dim d]).
  rewrite reshape_sizes, bool_decide_eq_true_2 by (simpl; lia). cbn [mbind result_bind].
  destruct (LSTM_forward_ok (Decoder.lstm1 d)
              (Tensor [1; Decoder.seq_len d; Decoder.input_dim d] (data x1))
              (Decoder.seq_len d) Hwf1) as (o1 & h1 & c1 & -> & Hso1 & _);
    [by rewrite Hi1|done|].
  cbn [mbind result_bind].
  destruct (LSTM_forward_ok (Decoder.lstm2 d) o1 (Decoder.seq_len d) Hwf2)
    as (o2 & h2 & c2 & -> & _ & Hlo2 & _); [by rewrite Hso1, Hh1, Hi2|done|].
  cbn [mbind result_bind].
  change [Z.of_nat (Decoder.seq_len d); Z.of_nat (Decoder.hidden_dim d)]
    with (map Z.of_nat [Decoder.seq_len d; Decoder.hidden_dim d]).
  rewrite reshape_sizes, bool_decide_eq_true_2 by (simpl; rewrite Hlo2, Hh2; lia).
  cbn [mbind result_bind].
  apply (Linear_forward_ok _ _ (Decoder.seq_len d)). simpl. by rewrite Hli.
Qed.

(** With any other number of rows the tiled embedding does not fit one
    sequence. *)
Lemma Decoder_forward_rows_raise (n r : nat) (d : Decoder.t) (emb : tensor) :
  Decoder.wf n d -> r <> 1 ->
  shape emb = [r; Decoder.input_dim d] -> length (data emb) = r * Decoder.input_dim d ->
  Decoder.forward d emb = Raise RuntimeError.
Proof.
  intros (_ & Hi1 & Hh1 & _ & _ & _ & _ & _ & _ & Hwf1 & _ & _) Hr Hs Hl.
  unfold Decoder.forward.
  destruct (tensor_repeat_rows emb r (Decoder.input_dim d) (Decoder.seq_len d) Hs Hl)
    as (x1 & -> & Hs1 & Hl1).
  cbn [mbind result_bind].
  change [1%Z; Z.of_nat (Decoder.seq_len d); Z.of_nat (Decoder.input_dim d)]
    with (map Z.of_nat [1; Decoder.seq_len d; Decoder.input_dim d]).
  rewrite reshape_sizes. case_bool_decide as Hnum; [|reflexivity].
  cbn [mbind result_bind].
  assert (Hzero : Decoder.seq_len d = 0).
  { destruct Hwf1 as (Hpos & _). rewrite Hh1 in Hpos. simpl in Hnum. nia. }
  rewrite (LSTM_forward_empty (Decoder.lstm1 d) _ (Decoder.input_dim d));
    [reflexivity | by rewrite Hzero].
Qed.

(** X2. A well-formed decoder, of any depth, reconstructs an embedding of
    exactly one row, in the shape (seq_len, output_dim); an embedding of any
    other number of rows makes it raise [RuntimeError]. *)
Theorem Decoder_forward_needs_one_row (n r : nat) (d : Decoder.t) (emb : tensor) :
  Decoder.wf n d ->
  shape emb = [r; Decoder.input_dim d] -> tensor_wf emb ->
  (r = 1 -> 0 < Decoder.seq_len d ->
   exists y, Decoder.forward d emb = Ok y /\
             shape y = [Decoder.seq_len d; Decoder.output_dim d] /\ tensor_wf y) /\
  (r <> 1 -> Decoder.forward d emb = Raise RuntimeError).
Proof.
  intros Hwf Hs Hw.
  assert (Hl : length (data emb) = r * Decoder.input_dim d).
  { unfold tensor_wf in Hw. rewrite Hw, Hs. simpl. lia. }
  split.
  - intros -> Hpos.
    destruct (Decoder_forward_one_row n d emb Hwf Hpos Hs Hl) as [y Hy].
    exists y. split; [exact Hy|].
    destruct (Decoder_forward_inv n d emb y Hwf Hy) as [Hsy Hly].
    split; [exact Hsy|]. unfold tensor_wf. rewrite Hsy, Hly. simpl. lia.
  - intros Hr. by apply (Decoder_forward_rows_raise n r).
Qed.

(** X3. An input whose number of values is not seq_len x n_features makes the
    autoencoder raise [RuntimeError], at the first reshape of the encoder. *)
Theorem LAE_forward_wrong_size (n : nat) (m : LAE.t) (x : tensor) :
  LAE.wf n m ->
  length (data x) <> LAE.seq_len m * LAE.n_features m ->
  LAE.forward m x = Raise RuntimeError /\
  Encoder.forward (LAE.encoder m) x = Raise RuntimeError.
Proof.
  intros (Hs & Hf & _) Hlen. unfold LAE.forward.
  rewrite Encoder_forward_wrong_size; [done|]. by rewrite Hs, Hf.
Qed.

(** X4. The autoencoder reads its input row by row, whatever shape it comes
    in: with one layer per LSTM, any array of seq_len x n_features values (a
    flat one, a transposed one) is reconstructed as the sequence of shape
    (seq_len, n_features) with those values would be. *)
Theorem LAE_forward_ignores_input_shape (m : LAE.t) (x : tensor) :
  LAE.wf 1 m ->
  0 < LAE.seq_len m ->
  length (data x) = LAE.seq_len m * LAE.n_features m ->
  exists y, LAE.forward m x = Ok y /\
            shape y = [LAE.seq_len m; LAE.n_features m] /\ tensor_wf y /\
            forall dims, LAE.forward m (Tensor dims (data x)) = Ok y.
Proof.
  intros Hwf Hpos Hlen.
  assert (Hdata : forall dims, LAE.forward m (Tensor dims (data x)) = LAE.forward m x).
  { intros dims. unfold LAE.forward. by rewrite Encoder_forward_data. }
  destruct (LAE_forward_keeps_shape m (Tensor [LAE.seq_len m; LAE.n_features m] (data x)))
    as (y & Hy & Hsy & Hwy); try done.
  { unfold tensor_wf. simpl. lia. }
  rewrite Hdata in Hy. exists y. split; [exact Hy|]. split; [exact Hsy|].
  split; [exact Hwy|]. intros dims. by rewrite Hdata.
Qed.

(** A sequence that the model reconstructs has the size the model was built
    for. *)
Lemma forward_ok_size (n : nat) (m : LAE.t) (x y : tensor) :
  LAE.wf n m -> LAE.forward m x = Ok y ->
  length (data x) = LAE.seq_len m * LAE.n_features m.
Proof.
  intros Hwf Hy.
  destruct (decide (length (data x) = LAE.seq_len m * LAE.n_features m)) as [|Hne]; [done|].
  destruct Hwf as (Hs & Hf & _). unfold LAE.forward in Hy.
  rewrite Encoder_forward_wrong_size in Hy; [discriminate|]. by rewrite Hs, Hf.
Qed.

End MoreShapes.

Lemma Encoder_forward_rows_witness :
  Encoder.wf 2 (LAE.encoder (Example.build 2 1 1 2)) /\
  exists emb,
    Encoder.forward (LAE.encoder (Example.build 2 1 1 2))
      (Example.seq2 Example.half Example.one) = Ok emb /\
    shape emb = [2; 1].
Proof.
  assert (Hwf : Encoder.wf 2 (LAE.encoder (Example.build 2 1 1 2))).
  { apply (build_wf 2 1 1 2). vm_compute. reflexivity. }
  split; [exact Hwf|].
  destruct (Encoder_forward_rows 2 _ (Example.seq2 Example.half Example.one) Hwf)
    as (emb & Hrun & Hs & _); [vm_compute; lia | reflexivity |].
  exists emb. split; [exact Hrun|]. rewrite Hs. reflexivity.
Defined.

Lemma Decoder_forward_needs_one_row_witness :
  Decoder.wf 2 (LAE.decoder (Example.build 2 1 1 2)) /\
  tensor_wf (Example.seq1 Example.half) /\
  (exists y, Decoder.forward (LAE.decoder (Example.build 2 1 1 2))
               (Example.seq1 Example.half) = Ok y /\ shape y = [2; 1]) /\
  Decoder.forward (LAE.decoder (Example.build 2 1 1 2))
    (Example.seq2 Example.half Example.one) = Raise RuntimeError.
Proof.
  assert (Hwf : Decoder.wf 2 (LAE.decoder (Example.build 2 1 1 2))).
  { apply (build_wf 2 1 1 2). vm_compute. reflexivity. }
  assert (Hw1 : tensor_wf (Example.seq1 Example.half)) by reflexivity.
  assert (Hw2 : tensor_wf (Example.seq2 Example.half Example.one)) by reflexivity.
  split; [exact Hwf|]. split; [exact Hw1|]. split.
  - destruct (proj1 (Decoder_forward_needs_one_row 2 1 _ (Example.seq1 Example.half)
                       Hwf eq_refl Hw1) eq_refl) as (y & Hy & Hs & _); [vm_compute; lia|].
    exists y. split; [exact Hy|]. rewrite Hs. reflexivity.
  - apply (proj2 (Decoder_forward_needs_one_row 2 2 _ (Example.seq2 Example.half Example.one)
                    Hwf eq_refl Hw2)). lia.
Defined.

Lemma LAE_forward_wrong_size_witness :
  LAE.wf 1 (Example.build 2 1 1 1) /\
  length (data (Example.seq1 Example.half)) <> 2 * 1 /\
  LAE.forward (Example.build 2 1 1 1) (Example.seq1 Example.half) = Raise RuntimeError.
Proof.
  assert (Hwf : LAE.wf 1 (Example.build 2 1 1 1)).
  { apply (build_wf 2 1 1 1). vm_compute. reflexivity. }
  assert (Hlen : length (data (Example.seq1 Example.half)) <> 2 * 1) by (simpl; lia).
  split; [exact Hwf|]. split; [exact Hlen|].
  exact (proj1 (LAE_forward_wrong_size 1 _ _ Hwf Hlen)).
Defined.

Lemma LAE_forward_ignores_input_shape_witness :
  LAE.wf 1 (Example.build 2 1 1 1) /\
  exists y,
    LAE.forward (Example.build 2 1 1 1) (Cases.flat2 Example.half Example.one) = Ok y /\
    shape y = [2; 1] /\
    LAE.forward (Example.build 2 1 1 1) (Example.seq2 Example.half Example.one) = Ok y.
Proof.
  assert (Hwf : LAE.wf 1 (Example.build 2 1 1 1)).
  { apply (build_wf 2 1 1 1). vm_compute. reflexivity. }
  split; [exact Hwf|].
  destruct (LAE_forward_ignores_input_shape _ (Cases.flat2 Example.half Example.one) Hwf)
    as (y & Hy & Hs & _ & Hany); [vm_compute; lia | reflexivity |].
  exists y. split; [exact Hy|]. split; [exact Hs|]. exact (Hany [2; 1]).
Defined.

(** ** Loading a checkpoint *)

Lemma mat_shape_replicate (r c : nat) (w : list (list float)) :
  length w = r -> Forall (fun row => length row = c) w -> mat_shape w = replicate r c.
Proof.
  intros <- Hall. unfold mat_shape. induction Hall as [|x l Hx _ IH]; [reflexivity|].
  simpl. by rewrite Hx, IH.
Qed.

(** The parameter shapes of a well-formed LSTM are those its sizes dictate. *)
Lemma layers_wf_sizes (ls : list LSTM.layer) : forall inp hid,
  LSTM.layers_wf inp hid ls ->
  map (fun l => (mat_shape (LSTM.weight_ih l), mat_shape (LSTM.weight_hh l),
                 length (LSTM.bias_ih l), length (LSTM.bias_hh l))) ls =
  lstm_sizes inp hid (length ls).
Proof.
  induction ls as [|l ls IH]; intros inp hid Hwf; [reflexivity|].
  destruct Hwf as [(H1 & H2 & H3 & H4 & H5 & H6) Hrest]. simpl.
  rewrite (mat_shape_replicate _ _ _ H1 H2), (mat_shape_replicate _ _ _ H3 H4), H5, H6.
  f_equal. by apply IH.
Qed.

Lemma lstm_shapes_wf (m : LSTM.t) :
  LSTM.wf m ->
  lstm_shapes m = lstm_sizes (LSTM.input_size m) (LSTM.hidden_size m) (LSTM.num_layers m).
Proof. intros (_ & _ & Hl). unfold lstm_shapes. by apply layers_wf_sizes. Qed.

Lemma lstm_sizes_length inp hid n : length (lstm_sizes inp hid n) = n.
Proof. revert inp. induction n as [|n IH]; intros inp; simpl; [done|]. by rewrite IH. Qed.

(** The shapes tell the sizes. *)
Lemma lstm_sizes_inj inp hid n inp' hid' n' :
  0 < hid -> 0 < n ->
  lstm_sizes inp hid n = lstm_sizes inp' hid' n' ->
  inp = inp' /\ hid = hid' /\ n = n'.
Proof.
  intros Hh Hn Heq.
  assert (n = n') as <-.
  { apply (f_equal length) in Heq. by rewrite !lstm_sizes_length in Heq. }
  destruct n as [|n]; [lia|]. cbn [lstm_sizes] in Heq.
  injection Heq as Hih _ Hb _ _.
  assert (hid = hid') as <- by lia.
  split; [|done].
  destruct hid as [|k]; [lia|]. simpl in Hih. by injection Hih.
Qed.

Lemma linear_shapes_wf (l : Linear.t) :
  Linear.wf l ->
  linear_shapes l = (replicate (Linear.out_features l) (Linear.in_features l),
                     Linear.out_features l).
Proof.
  intros (H1 & H2 & H3). unfold linear_shapes.
  by rewrite (mat_shape_replicate _ _ _ H1 H2), H3.
Qed.

Lemma param_shapes_wf (n : nat) (m : LAE.t) :
  LAE.wf n m ->
  param_shapes m =
  (lstm_sizes (LAE.n_features m) (2 * LAE.embedding_dim m) n,
   lstm_sizes (2 * LAE.embedding_dim m) (LAE.embedding_dim m) n,
   lstm_sizes (LAE.embedding_dim m) (LAE.embedding_dim m) n,
   lstm_sizes (LAE.embedding_dim m) (2 * LAE.embedding_dim m) n,
   (replicate (LAE.n_features m) (2 * LAE.embedding_dim m), LAE.n_features m)).
Proof.
  intros (Hes & Hef & Hee & Hds & Hdi & Hdo & He & Hd).
  destruct He as (E1 & E2 & E3 & E4 & E5 & E6 & E7 & E8 & E9).
  destruct Hd as (D1 & D2 & D3 & D4 & D5 & D6 & D7 & D8 & D9 & D10 & D11 & D12).
  unfold param_shapes.
  rewrite !lstm_shapes_wf, linear_shapes_wf by done.
  rewrite E2, E3, E4, E5, E6, E7, D2, D3, D4, D5, D6, D7, D8, D9.
  by rewrite E1, D1, Hef, Hee, Hdi, Hdo.
Qed.

Lemma LAE_wf_positive (n : nat) (m : LAE.t) :
  LAE.wf n m -> 0 < LAE.embedding_dim m /\ 0 < n.
Proof.
  intros (Hes & Hef & Hee & Hds & Hdi & Hdo & He & Hd).
  destruct He as (E1 & E2 & E3 & E4 & E5 & E6 & E7 & E8 & E9).
  destruct E9 as (P1 & P2 & _). rewrite E6, Hee in P1. rewrite E7 in P2. done.
Qed.

Lemma with_params_state_dict (m sd : LAE.t) : state_dict (with_params m sd) = state_dict sd.
Proof. reflexivity. Qed.

Lemma with_params_self (m : LAE.t) : with_params m m = m.
Proof.
  destruct m as [a b c [a1 a2 a3 a4 [] []] [b1 b2 b3 b4 [] [] []]]. reflexivity.
Qed.

(** A model loads its own parameters, and is unchanged by it. *)
Lemma load_state_dict_self (m : LAE.t) : load_state_dict m m = Ok m.
Proof.
  unfold load_state_dict. rewrite bool_decide_eq_true_2 by done. by rewrite with_params_self.
Qed.

(** X5. [load_state_dict(..., strict=True)] accepts a checkpoint exactly when
    it was taken from a model with the same n_features, embedding_dim and
    number of layers; seq_len is not checked. The loaded model has the
    parameters of the checkpoint and keeps its own seq_len. *)
Theorem load_state_dict_checks_sizes (n1 n2 : nat) (m sd : LAE.t) :
  LAE.wf n1 m -> LAE.wf n2 sd ->
  (LAE.n_features sd = LAE.n_features m /\ LAE.embedding_dim sd = LAE.embedding_dim m /\
   n2 = n1 ->
   exists m', load_state_dict m sd = Ok m' /\ state_dict m' = state_dict sd /\
              LAE.seq_len m' = LAE.seq_len m) /\
  (~ (LAE.n_features sd = LAE.n_features m /\ LAE.embedding_dim sd = LAE.embedding_dim m /\
      n2 = n1) ->
   load_state_dict m sd = Raise RuntimeError).
Proof.
  intros Hm Hsd. unfold load_state_dict.
  rewrite (param_shapes_wf n1 m Hm), (param_shapes_wf n2 sd Hsd). split.
  - intros (-> & -> & ->). rewrite bool_decide_eq_true_2 by done.
    eexists. split; [reflexivity|]. done.
  - intros Hne. rewrite bool_decide_eq_false_2; [reflexivity|].
    intros Heq. apply Hne. injection Heq as H1 _.
    destruct (LAE_wf_positive n2 sd Hsd) as [He Hn].
    apply lstm_sizes_inj in H1 as (? & ? & ?); [|lia|done]. split_and!; lia.
Qed.

Lemma load_state_dict_checks_sizes_witness :
  LAE.wf 1 (Example.build 2 1 1 1) /\ LAE.wf 1 (Example.build 3 1 1 1) /\
  LAE.wf 1 (Example.build 2 1 2 1) /\
  (exists m', load_state_dict (Example.build 2 1 1 1) (Example.build 3 1 1 1) = Ok m' /\
              LAE.seq_len m' = 2) /\
  load_state_dict (Example.build 2 1 1 1) (Example.build 2 1 2 1) = Raise RuntimeError.
Proof.
  assert (Hm : LAE.wf 1 (Example.build 2 1 1 1)).
  { apply (build_wf 2 1 1 1). vm_compute. reflexivity. }
  assert (Hsd : LAE.wf 1 (Example.build 3 1 1 1)).
  { apply (build_wf 3 1 1 1). vm_compute. reflexivity. }
  assert (Hwide : LAE.wf 1 (Example.build 2 1 2 1)).
  { apply (build_wf 2 1 2 1). vm_compute. reflexivity. }
  split; [exact Hm|]. split; [exact Hsd|]. split; [exact Hwide|]. split.
  - destruct (proj1 (load_state_dict_checks_sizes 1 1 _ _ Hm Hsd)) as (m' & Hload & _ & Hs).
    { split_and!; reflexivity. }
    exists m'. split; [exact Hload|]. rewrite Hs. reflexivity.
  - apply (proj2 (load_state_dict_checks_sizes 1 1 _ _ Hm Hwide)).
    intros (_ & He & _). vm_compute in He. discriminate.
Defined.

(** ** [predict], and [predict] after [fit] *)

Section MorePredict.
Context `{Activations} `{Optimizer} `{Metrics}.

Lemma set_model_self (s : state) : set_model (model s) s = s.
Proof. unfold set_model. apply state_eta. Qed.

(** [predict] once the checkpoint is loaded. *)
Lemma predict_loaded self mp ds s sd m :
  files s !! mp = Some (StateDict sd) ->
  load_state_dict (model s) sd = Ok m ->
  Trainer.predict self mp ds s =
  (match Trainer.predict_loop m ds ([], []) with
   | Ok (ps, ls) =>
       match np_stack ps with
       | Ok st => Ok (Tensor [length (data st); 1] (data st), Tensor [length ls; 1] ls)
       | Raise e => Raise e
       end
   | Raise e => Raise e
   end, set_model m s).
Proof.
  intros Hfile Hload. unfold Trainer.predict. run. rewrite torch_load_run, Hfile.
  run. rewrite Hload. run.
  destruct (Trainer.predict_loop m ds ([], [])) as [[ps ls]|e]; [|reflexivity].
  run. rewrite reshape_column. run.
  destruct (np_stack ps) as [st|e]; [|reflexivity].
  run. rewrite reshape_column. reflexivity.
Qed.

(** [predict] when the checkpoint is not loaded. *)
Lemma predict_not_loaded self mp ds s :
  match files s !! mp with
  | Some (StateDict sd) =>
      match load_state_dict (model s) sd with
      | Ok _ => True
      | Raise e => Trainer.predict self mp ds s = (Raise e, s)
      end
  | Some _ => Trainer.predict self mp ds s = (Raise RuntimeError, s)
  | None => Trainer.predict self mp ds s = (Raise FileNotFoundError, s)
  end.
Proof.
  unfold Trainer.predict. run. rewrite torch_load_run.
  destruct (files s !! mp) as [[sd| | | | |]|]; try reflexivity.
  destruct (load_state_dict (model s) sd) as [m|e] eqn:Hload; [done|].
  run. rewrite Hload. reflexivity.
Qed.

(** X6. Whatever its outcome, [predict] writes no file and leaves the loss
    history alone, and it makes no use of the trainer's [log_dir] and
    [model_name]. *)
Theorem predict_writes_nothing (self : Trainer.t) (mp : string) (ds : list tensor)
    (s : state) :
  files (Trainer.predict self mp ds s).2 = files s /\
  dirs (Trainer.predict self mp ds s).2 = dirs s /\
  history (Trainer.predict self mp ds s).2 = history s /\
  forall self2, Trainer.predict self2 mp ds s = Trainer.predict self mp ds s.
Proof.
  destruct (predict_frame self mp ds s) as [m Hm]. rewrite Hm. done.
Qed.

(** X7. Without a file at [model_path], [predict] and [plot_prediction] raise
    [FileNotFoundError] and change nothing, whether or not a loss archive
    exists. *)
Theorem predict_missing_checkpoint (self : Trainer.t) (mp : string) (ds : list tensor)
    (scaler : Scaler) (show : bool) (s : state) :
  files s !! mp = None ->
  Trainer.predict self mp ds s = (Raise FileNotFoundError, s) /\
  Trainer.plot_prediction self ds mp scaler show s = (Raise FileNotFoundError, s).
Proof.
  intros Hfile. pose proof (predict_not_loaded self mp ds s) as Hn. rewrite Hfile in Hn.
  split; [exact Hn|].
  unfold Trainer.plot_prediction, Trainer.score. run. by rewrite Hn.
Qed.

(** X8. [predict] raises [RuntimeError] on a checkpoint of a model with
    another n_features, embedding_dim or number of layers. *)
Theorem predict_other_architecture (n1 n2 : nat) (self : Trainer.t) (mp : string)
    (ds : list tensor) (s : state) (sd : LAE.t) :
  LAE.wf n1 (model s) -> LAE.wf n2 sd ->
  files s !! mp = Some (StateDict sd) ->
  ~ (LAE.n_features sd = LAE.n_features (model s) /\
     LAE.embedding_dim sd = LAE.embedding_dim (model s) /\ n2 = n1) ->
  (Trainer.predict self mp ds s).1 = Raise RuntimeError.
Proof.
  intros Hm Hsd Hfile Hne.
  pose proof (predict_not_loaded self mp ds s) as Hn. rewrite Hfile in Hn.
  unfold load_state_dict in Hn.
  rewrite (param_shapes_wf n1 _ Hm), (param_shapes_wf n2 sd Hsd) in Hn.
  rewrite bool_decide_eq_false_2 in Hn; [by rewrite Hn|].
  intros Heq. apply Hne. injection Heq as Hs1 _.
  destruct (LAE_wf_positive n2 sd Hsd) as [He Hpos].
  apply lstm_sizes_inj in Hs1 as (? & ? & ?); [|lia|done]. split_and!; lia.
Qed.

(** X9. On an empty dataset [predict] loads the checkpoint and returns two
    arrays of shape (0, 1). *)
Theorem predict_empty_dataset (self : Trainer.t) (mp : string) (s : state) (sd m : LAE.t) :
  files s !! mp = Some (StateDict sd) ->
  load_state_dict (model s) sd = Ok m ->
  Trainer.predict self mp [] s = (Ok (Tensor [0; 1] [], Tensor [0; 1] []), set_model m s).
Proof. intros Hfile Hload. by rewrite (predict_loaded self mp [] s sd m Hfile Hload). Qed.

Lemma np_stack_data (ts : list tensor) (st : tensor) :
  np_stack ts = Ok st -> data st = concat (map data ts).
Proof.
  unfold np_stack. destruct ts as [|t ts]; [by intros [= <-]|].
  case_bool_decide; [|discriminate]. by intros [= <-].
Qed.

Lemma map_data_flatten (ts : list tensor) : map data (map flatten ts) = map data ts.
Proof. rewrite map_map. reflexivity. Qed.

(** X10. The predictions that [predict] returns are the reconstructions of
    the sequences by the model with the parameters of the checkpoint, value
    after value in the order of the dataset, and the losses are the L1
    losses of those reconstructions. *)
Theorem predict_values (self : Trainer.t) (mp : string) (ds : list tensor) (s s0 : state)
    (p l : tensor) :
  Trainer.predict self mp ds s = (Ok (p, l), s0) ->
  exists sd preds,
    files s !! mp = Some (StateDict sd) /\
    state_dict (model s0) = state_dict sd /\
    mapR (LAE.forward (model s0)) ds = Ok preds /\
    data p = concat (map data preds) /\
    mapR (sequence_loss (model s0)) ds = Ok (data l).
Proof.
  intros Hpred.
  destruct (predict_inv _ _ _ _ _ _ _ Hpred)
    as (sd & m & preds & ls & st & Hfile & Hload & Hp & Hl & Hst & -> & -> & ->).
  exists sd, preds. split; [exact Hfile|]. cbn [model set_model data].
  split.
  { unfold load_state_dict in Hload. case_bool_decide; [|discriminate].
    injection Hload as <-. apply with_params_state_dict. }
  split; [exact Hp|]. split; [|exact Hl].
  by rewrite (np_stack_data _ _ Hst), map_data_flatten.
Qed.

(** The two files and the history a [fit] that returns leaves behind. *)
Lemma fit_checkpoint self tr va n lr s h s1 :
  Trainer.fit self tr va n lr s = (Ok h, s1) ->
  files s1 !! checkpoint_path self = Some (StateDict (model s1)) /\
  files s1 !! archive_path self = Some (Npz (archive_of h)) /\
  history s1 = h.
Proof.
  intros Hfit.
  destruct (fit_cases self tr va n lr s)
    as [(means & opt' & m' & _ & Hok)|(e1 & h' & m' & _ & Hr)]; [|congruence].
  simpl in Hok. rewrite Hok in Hfit. injection Hfit as <- <-. cbn [files model history].
  split; [|split; [by rewrite lookup_insert_eq | reflexivity]].
  rewrite lookup_insert_ne; [by rewrite lookup_insert_eq|].
  intros E. by apply (checkpoint_is_not_archive self (Trainer.log_dir self)).
Qed.

(** X11. The checkpoint that [fit] writes holds the model as [fit] leaves it:
    a [predict] from that path (by any trainer) changes nothing at all, and
    its losses are those of the fitted model. *)
Theorem predict_after_fit_reloads_the_model (self self2 : Trainer.t) (tr va ds : list tensor)
    (n : Z) (lr : float) (s s1 : state) (h : gmap string (list float)) :
  Trainer.fit self tr va n lr s = (Ok h, s1) ->
  (Trainer.predict self2 (checkpoint_path self) ds s1).2 = s1 /\
  forall p l, (Trainer.predict self2 (checkpoint_path self) ds s1).1 = Ok (p, l) ->
    mapR (sequence_loss (model s1)) ds = Ok (data l).
Proof.
  intros Hfit. destruct (fit_checkpoint _ _ _ _ _ _ _ _ Hfit) as (Hck & _ & _).
  rewrite (predict_loaded self2 _ ds s1 _ _ Hck (load_state_dict_self _)).
  cbn [fst snd]. split; [apply set_model_self|].
  intros p l Hrun.
  destruct (Trainer.predict_loop (model s1) ds ([], [])) as [[ps ls]|e] eqn:Hloop;
    [|discriminate].
  destruct (np_stack ps) as [st|e]; [|discriminate]. injection Hrun as _ <-.
  destruct (predict_loop_inv _ _ _ _ _ _ Hloop) as (preds & ls1 & _ & Hl & _ & ->).
  exact Hl.
Qed.

(** X12. After a [fit] by a trainer whose [log_dir] is [training_logs], the
    threshold of [plot_prediction] is the mean plus the standard deviation of
    the training losses in the history that [fit] returned. *)
Theorem threshold_after_fit_in_training_logs (self self2 : Trainer.t) (tr va ds : list tensor)
    (n : Z) (lr : float) (mp : string) (scaler : Scaler) (s s1 s2 : state)
    (h : gmap string (list float)) (sc : Trainer.scores) :
  Trainer.log_dir self = "training_logs" ->
  Trainer.fit self tr va n lr s = (Ok h, s1) ->
  Trainer.score self2 ds mp scaler s1 = (Ok sc, s2) ->
  Trainer.threshold sc = F.add (np_mean (train_history h)) (np_std (train_history h)).
Proof.
  intros Hdir Hfit Hsc.
  destruct (fit_checkpoint _ _ _ _ _ _ _ _ Hfit) as (_ & Har & _).
  unfold archive_path in Har. rewrite Hdir in Har.
  destruct (score_inv _ _ _ _ _ _ _ Hsc)
    as (p & l & ld & tl & tv & tv1 & tv2 & p2 & mae & R2 &
        _ & Hfile & Htl & _ & _ & _ & _ & _ & _ & Hval).
  change ("training_logs" +:+ "/losses.npz") with "training_logs/losses.npz" in Har.
  rewrite Har in Hfile. injection Hfile as <-.
  destruct (archive_of_lookup h) as [Ht _]. rewrite Ht in Htl. injection Htl as <-.
  by rewrite Hval.
Qed.

End MorePredict.

Lemma predict_missing_checkpoint_witness :
  files Example.start !! "training_logs/steering.pth" = None /\
  Trainer.plot_prediction Example.trainer Example.test_ds "training_logs/steering.pth"
    Example.identity_scaler true Example.start = (Raise FileNotFoundError, Example.start).
Proof.
  assert (Hfile : files Example.start !! "training_logs/steering.pth" = None)
    by (vm_compute; reflexivity).
  split; [exact Hfile|].
  exact (proj2 (predict_missing_checkpoint Example.trainer _ Example.test_ds
                  Example.identity_scaler true _ Hfile)).
Defined.

Lemma predict_other_architecture_witness :
  LAE.wf 1 (model Cases.wide_checkpoint) /\ LAE.wf 1 (Example.build 2 1 2 1) /\
  files Cases.wide_checkpoint !! "training_logs/steering.pth" =
    Some (StateDict (Example.build 2 1 2 1)) /\
  (Trainer.predict Example.trainer "training_logs/steering.pth" Example.pair_ds
     Cases.wide_checkpoint).1 = Raise RuntimeError.
Proof.
  assert (Hm : LAE.wf 1 (model Cases.wide_checkpoint)).
  { apply (build_wf 2 1 1 1). vm_compute. reflexivity. }
  assert (Hwide : LAE.wf 1 (Example.build 2 1 2 1)).
  { apply (build_wf 2 1 2 1). vm_compute. reflexivity. }
  assert (Hfile : files Cases.wide_checkpoint !! "training_logs/steering.pth" =
                  Some (StateDict (Example.build 2 1 2 1))) by (vm_compute; reflexivity).
  split; [exact Hm|]. split; [exact Hwide|]. split; [exact Hfile|].
  apply (predict_other_architecture 1 1 Example.trainer _ Example.pair_ds _ _ Hm Hwide Hfile).
  intros (_ & He & _). vm_compute in He. discriminate.
Defined.

Lemma predict_empty_dataset_witness :
  files Example.saved2 !! "training_logs/steering.pth" =
    Some (StateDict (Example.build 2 1 1 1)) /\
  load_state_dict (model Example.saved2) (Example.build 2 1 1 1) = Ok (Example.build 2 1 1 1) /\
  Trainer.predict Example.trainer "training_logs/steering.pth" [] Example.saved2 =
  (Ok (Tensor [0; 1] [], Tensor [0; 1] []), set_model (Example.build 2 1 1 1) Example.saved2).
Proof.
  assert (Hfile : files Example.saved2 !! "training_logs/steering.pth" =
                  Some (StateDict (Example.build 2 1 1 1))) by (vm_compute; reflexivity).
  assert (Hload : load_state_dict (model Example.saved2) (Example.build 2 1 1 1) =
                  Ok (Example.build 2 1 1 1)) by (vm_compute; reflexivity).
  split; [exact Hfile|]. split; [exact Hload|].
  exact (predict_empty_dataset Example.trainer _ _ _ _ Hfile Hload).
Defined.

Lemma predict_values_witness :
  let p := (Example.ok_or (Example.no_tensor, Example.no_tensor) Example.predicted2.1).1 in
  let l := (Example.ok_or (Example.no_tensor, Example.no_tensor) Example.predicted2.1).2 in
  Trainer.predict Example.trainer "training_logs/steering.pth" Example.pair_ds
    Example.saved2 = (Ok (p, l), Example.predicted2.2) /\
  exists preds,
    mapR (LAE.forward (model Example.predicted2.2)) Example.pair_ds = Ok preds /\
    data p = concat (map data preds).
Proof.
  assert (Hpred : Trainer.predict Example.trainer "training_logs/steering.pth"
                    Example.pair_ds Example.saved2 =
                  (Ok ((Example.ok_or (Example.no_tensor, Example.no_tensor)
                          Example.predicted2.1).1,
                       (Example.ok_or (Example.no_tensor, Example.no_tensor)
                          Example.predicted2.1).2), Example.predicted2.2))
    by (vm_compute; reflexivity).
  split; [exact Hpred|].
  destruct (predict_values _ _ _ _ _ _ _ Hpred) as (sd & preds & _ & _ & Hp & Hd & _).
  exists preds. split; [exact Hp | exact Hd].
Defined.

Lemma predict_after_fit_reloads_the_model_witness :
  Trainer.fit Example.trainer Example.train_ds Example.val_ds 2 Example.quarter Example.start =
  (Ok (Example.ok_or ∅ Example.fitted.1), Example.fitted.2) /\
  (Trainer.predict Example.other_trainer (checkpoint_path Example.trainer) Example.test_ds
     Example.fitted.2).2 = Example.fitted.2.
Proof.
  assert (Hfit : Trainer.fit Example.trainer Example.train_ds Example.val_ds 2
                   Example.quarter Example.start =
                 (Ok (Example.ok_or ∅ Example.fitted.1), Example.fitted.2))
    by (vm_compute; reflexivity).
  split; [exact Hfit|].
  exact (proj1 (predict_after_fit_reloads_the_model Example.trainer Example.other_trainer
                  _ _ Example.test_ds _ _ _ _ _ Hfit)).
Defined.

Lemma threshold_after_fit_in_training_logs_witness :
  let h := Example.ok_or ∅ Example.fitted.1 in
  let sc := Example.ok_or Example.no_scores Example.scored.1 in
  Trainer.log_dir Example.trainer = "training_logs" /\
  Trainer.fit Example.trainer Example.train_ds Example.val_ds 2 Example.quarter Example.start =
  (Ok h, Example.fitted.2) /\
  Trainer.score Example.trainer Example.test_ds "training_logs/steering.pth"
    Example.identity_scaler Example.fitted.2 = (Ok sc, Example.scored.2) /\
  Trainer.threshold sc = F.add (np_mean (train_history h)) (np_std (train_history h)).
Proof.
  assert (Hdir : Trainer.log_dir Example.trainer = "training_logs") by reflexivity.
  assert (Hfit : Trainer.fit Example.trainer Example.train_ds Example.val_ds 2
                   Example.quarter Example.start =
                 (Ok (Example.ok_or ∅ Example.fitted.1), Example.fitted.2))
    by (vm_compute; reflexivity).
  assert (Hsc : Trainer.score Example.trainer Example.test_ds "training_logs/steering.pth"
                  Example.identity_scaler Example.fitted.2 =
                (Ok (Example.ok_or Example.no_scores Example.scored.1), Example.scored.2))
    by (vm_compute; reflexivity).
  split; [exact Hdir|]. split; [exact Hfit|]. split; [exact Hsc|].
  exact (threshold_after_fit_in_training_logs _ _ _ _ _ _ _ _ _ _ _ _ _ _ Hdir Hfit Hsc).
Defined.

(** ** More about [fit] *)

Section MoreFit.
Context `{Activations} `{Optimizer}.

(** The epoch that fails, and what the epochs before it leave behind. *)
Lemma epochs_raise_at tr va (n : nat) : forall a opt s e,
  epoch_means tr va n opt (model s) = Raise e ->
  exists k means opt_k m_k m',
    k < n /\
    epoch_means tr va k opt (model s) = Ok (means, (opt_k, m_k)) /\
    (tl ← train_losses opt_k m_k tr; val_losses tl.2.2 va) = Raise e /\
    for_each (seq a n) (Trainer.epoch_body tr va) opt s =
    (Raise e, set_model m' (set_history (push_means (history s) means) s)).
Proof.
  induction n as [|n IH]; intros a opt s e Hrun; simpl in Hrun; [discriminate|].
  cbn [seq for_each]. run.
  assert (Hnone : forall m', set_model m' s =
                             set_model m' (set_history (push_means (history s) []) s)).
  { intros m'. unfold set_model, set_history. simpl. reflexivity. }
  destruct (train_losses opt (model s) tr) as [[tl [opt1 m1]]|e1] eqn:Htrain; simpl in Hrun.
  - destruct (val_losses m1 va) as [vl|e1] eqn:Hval; simpl in Hrun.
    + rewrite (epoch_body_ok tr va a opt s tl opt1 m1 vl Htrain Hval).
      destruct (epoch_means tr va n opt1 m1) as [[rest fin]|e1] eqn:Hrest; simpl in Hrun;
        [discriminate|].
      injection Hrun as ->.
      destruct (IH (S a) opt1 (set_model m1 (set_history
                  (push_means (history s) [(np_mean tl, np_mean vl)]) s)) e Hrest)
        as (k & means & opt_k & m_k & m' & Hk & Hpre & Hnext & ->).
      exists (S k), ((np_mean tl, np_mean vl) :: means), opt_k, m_k, m'.
      split; [lia|]. split.
      { simpl. rewrite Htrain. simpl. rewrite Hval. simpl.
        cbn [model set_model] in Hpre. rewrite Hpre. reflexivity. }
      split; [exact Hnext|]. rewrite push_means_cons. reflexivity.
    + injection Hrun as ->.
      destruct (epoch_body_raise tr va a opt s e) as [m' ->].
      { rewrite Htrain. simpl. exact Hval. }
      exists 0, [], opt, (model s), m'. split; [lia|]. split; [reflexivity|].
      split; [|by rewrite <- Hnone]. rewrite Htrain. simpl. exact Hval.
  - injection Hrun as ->.
    destruct (epoch_body_raise tr va a opt s e) as [m' ->].
    { rewrite Htrain. reflexivity. }
    exists 0, [], opt, (model s), m'. split; [lia|]. split; [reflexivity|].
    split; [|by rewrite <- Hnone]. rewrite Htrain. reflexivity.
Qed.

Lemma fit_raise_at self tr va n lr s e s' :
  Trainer.fit self tr va n lr s = (Raise e, s') ->
  exists k means opt_k m_k m',
    k < Z.to_nat n /\
    epoch_means tr va k (Adam (model s) lr) (model s) = Ok (means, (opt_k, m_k)) /\
    (tl ← train_losses opt_k m_k tr; val_losses tl.2.2 va) = Raise e /\
    s' = set_model m' (set_history (push_means (history s) means) s).
Proof.
  intros Hfit.
  destruct (epoch_means tr va (Z.to_nat n) (Adam (model s) lr) (model s))
    as [[means [opt' m']]|e1] eqn:Hrun.
  - pose proof (fit_ok self tr va n lr s means opt' m' Hrun) as Hok. simpl in Hok. congruence.
  - destruct (epochs_raise_at tr va _ 0 _ s e1 Hrun)
      as (k & means & opt_k & m_k & m' & Hk & Hpre & Hnext & Hloop).
    unfold Trainer.fit, for_range in Hfit. revert Hfit. run. rewrite Hloop.
    intros [= <- <-]. exists k, means, opt_k, m_k, m'. done.
Qed.

(** X13. With [num_epochs <= 0] (and a learning rate that Adam accepts, one
    that is not below zero), [fit] trains nothing and still writes its two
    files: the checkpoint holds the parameters the model came with, the
    archive the history the trainer already had. *)
Theorem fit_without_epochs (self : Trainer.t) (tr va : list tensor) (n : Z) (lr : float)
    (s : state) :
  F.le F.zero lr = true ->
  (n <= 0)%Z ->
  exists h s',
    Trainer.fit self tr va n lr s = (Ok h, s') /\
    model s' = model s /\
    train_history h = train_history (history s) /\
    val_history h = val_history (history s) /\
    files s' !! checkpoint_path self = Some (StateDict (model s)) /\
    files s' !! archive_path self = Some (Npz (archive_of (history s))).
Proof.
  intros _ Hn.
  assert (Hrun : epoch_means tr va (Z.to_nat n) (Adam (model s) lr) (model s) =
                 Ok ([], (Adam (model s) lr, model s))).
  { replace (Z.to_nat n) with 0 by lia. reflexivity. }
  pose proof (fit_ok self tr va n lr s _ _ _ Hrun) as Hfit. simpl in Hfit.
  eexists _, _. split; [exact Hfit|]. cbn [model files].
  destruct (histories_touch (history s)) as [Ht Hv].
  split; [reflexivity|]. split; [exact Ht|]. split; [exact Hv|]. split.
  - rewrite lookup_insert_ne; [by rewrite lookup_insert_eq|].
    intros E. by apply (checkpoint_is_not_archive self (Trainer.log_dir self)).
  - by rewrite lookup_insert_eq.
Qed.

(** X14. A [fit] (with a learning rate that Adam accepts) that raises does so
    in some epoch; it has written no file, but the history of the trainer
    holds the means of the epochs that finished before that one. *)
Theorem fit_failure_keeps_finished_epochs (self : Trainer.t) (tr va : list tensor) (n : Z)
    (lr : float) (s s' : state) (e : exn) :
  F.le F.zero lr = true ->
  Trainer.fit self tr va n lr s = (Raise e, s') ->
  exists k means opt_k m_k,
    (Z.of_nat k < n)%Z /\ length means = k /\
    epoch_means tr va k (Adam (model s) lr) (model s) = Ok (means, (opt_k, m_k)) /\
    (tl ← train_losses opt_k m_k tr; val_losses tl.2.2 va) = Raise e /\
    train_history (history s') = train_history (history s) ++ map fst means /\
    val_history (history s') = val_history (history s) ++ map snd means /\
    files s' = files s.
Proof.
  intros _ Hfit.
  destruct (fit_raise_at _ _ _ _ _ _ _ _ Hfit)
    as (k & means & opt_k & m_k & m' & Hk & Hpre & Hnext & ->).
  exists k, means, opt_k, m_k. cbn [history files set_model set_history].
  destruct (push_means_histories means (history s)) as [Ht Hv].
  split; [lia|]. split; [by apply epoch_means_length in Hpre|]. done.
Qed.

(** X15. The two lists of the history never get out of step: if they have
    the same length before [fit], they have after it, however [fit] ends, and
    so have the two arrays of the archive it writes. *)
Theorem fit_keeps_histories_in_step (self : Trainer.t) (tr va : list tensor) (n : Z)
    (lr : float) (s : state) :
  length (train_history (history s)) = length (val_history (history s)) ->
  length (train_history (history (Trainer.fit self tr va n lr s).2)) =
  length (val_history (history (Trainer.fit self tr va n lr s).2)) /\
  forall h, (Trainer.fit self tr va n lr s).1 = Ok h ->
    exists arrays train_loss val_loss,
      files (Trainer.fit self tr va n lr s).2 !! archive_path self = Some (Npz arrays) /\
      arrays !! "train_loss" = Some train_loss /\
      arrays !! "val_loss" = Some val_loss /\
      length train_loss = length val_loss.
Proof.
  intros Hlen.
  assert (Hpush : forall means : list (float * float),
            length (train_history (push_means (history s) means)) =
            length (val_history (push_means (history s) means))).
  { intros means. destruct (push_means_histories means (history s)) as [-> ->].
    rewrite !length_app, !length_map. lia. }
  destruct (Trainer.fit self tr va n lr s) as [[h|e] s'] eqn:Hfit.
  - destruct (fit_cases self tr va n lr s)
      as [(means & opt' & m' & _ & Hok)|(e1 & h' & m' & _ & Hr)]; [|congruence].
    simpl in Hok. rewrite Hok in Hfit. injection Hfit as <- <-. cbn [snd fst history files].
    destruct (histories_touch (push_means (history s) means)) as [Ht Hv].
    rewrite Ht, Hv. split; [apply Hpush|].
    intros h _. rewrite lookup_insert_eq.
    destruct (archive_of_lookup (touch "val loss" (touch "train loss"
                (push_means (history s) means)))) as [Hat Hav].
    eexists _, _, _. split; [reflexivity|]. split; [exact Hat|]. split; [exact Hav|].
    rewrite Ht, Hv. apply Hpush.
  - destruct (fit_raise_at _ _ _ _ _ _ _ _ Hfit)
      as (k & means & opt_k & m_k & m' & _ & _ & _ & ->).
    cbn [snd fst history set_model set_history]. split; [apply Hpush|]. discriminate.
Qed.

(** The validation data has no part in the parameters or in the training
    means. *)
Lemma epoch_means_val_irrelevant tr va1 va2 (n : nat) : forall opt m means1 fin1 means2 fin2,
  epoch_means tr va1 n opt m = Ok (means1, fin1) ->
  epoch_means tr va2 n opt m = Ok (means2, fin2) ->
  fin1 = fin2 /\ map fst means1 = map fst means2.
Proof.
  induction n as [|n IH]; intros opt m means1 fin1 means2 fin2 Hr1 Hr2; simpl in Hr1, Hr2.
  - injection Hr1 as <- <-. injection Hr2 as <- <-. done.
  - apply bindR_ok in Hr1 as ([tl [opt1 m1]] & Htrain & Hr1).
    rewrite Htrain in Hr2. simpl in Hr2.
    apply bindR_ok in Hr1 as (vl1 & _ & Hr1).
    apply bindR_ok in Hr2 as (vl2 & _ & Hr2).
    apply bindR_ok in Hr1 as ([rest1 f1] & Hrest1 & Hr1).
    apply bindR_ok in Hr2 as ([rest2 f2] & Hrest2 & Hr2).
    injection Hr1 as <- <-. injection Hr2 as <- <-.
    destruct (IH _ _ _ _ _ _ Hrest1 Hrest2) as [-> Hm]. simpl. by rewrite Hm.
Qed.

(** X16. The validation data has no influence on the training: two runs
    that differ in it only end with the same parameters, the same checkpoint
    and the same training losses. *)
Theorem validation_data_does_not_train (self : Trainer.t) (tr va1 va2 : list tensor) (n : Z)
    (lr : float) (s s1 s2 : state) (h1 h2 : gmap string (list float)) :
  Trainer.fit self tr va1 n lr s = (Ok h1, s1) ->
  Trainer.fit self tr va2 n lr s = (Ok h2, s2) ->
  model s1 = model s2 /\
  train_history h1 = train_history h2 /\
  files s1 !! checkpoint_path self = files s2 !! checkpoint_path self.
Proof.
  intros Hf1 Hf2.
  destruct (fit_cases self tr va1 n lr s)
    as [(means1 & o1 & m1 & Hr1 & Hok1)|(e1 & h' & m' & _ & Hr)]; [|congruence].
  destruct (fit_cases self tr va2 n lr s)
    as [(means2 & o2 & m2 & Hr2 & Hok2)|(e1 & h' & m' & _ & Hr)]; [|congruence].
  simpl in Hok1, Hok2. rewrite Hok1 in Hf1. rewrite Hok2 in Hf2.
  injection Hf1 as <- <-. injection Hf2 as <- <-. cbn [model files].
  destruct (epoch_means_val_irrelevant _ _ _ _ _ _ _ _ _ _ Hr1 Hr2) as [[= <- <-] Hm].
  split; [reflexivity|]. split.
  - destruct (histories_touch (push_means (history s) means1)) as [-> _].
    destruct (histories_touch (push_means (history s) means2)) as [-> _].
    destruct (push_means_histories means1 (history s)) as [-> _].
    destruct (push_means_histories means2 (history s)) as [-> _]. by rewrite Hm.
  - assert (Hne : archive_path self <> checkpoint_path self).
    { intros E. by apply (checkpoint_is_not_archive self (Trainer.log_dir self)). }
    rewrite !(lookup_insert_ne _ _ _ _ Hne). by rewrite !lookup_insert_eq.
Qed.

Lemma map_replicate {A B} (f : A -> B) (n : nat) (x : A) :
  map f (replicate n x) = replicate n (f x).
Proof. induction n as [|n IH]; simpl; [done|]. by rewrite IH. Qed.

(** Without training data the parameters stay and every epoch is the same. *)
Lemma epoch_means_no_training va vl (n : nat) : forall opt m,
  val_losses m va = Ok vl ->
  epoch_means [] va n opt m = Ok (replicate n (np_mean [], np_mean vl), (opt, m)).
Proof.
  induction n as [|n IH]; intros opt m Hval; simpl; [reflexivity|].
  rewrite Hval. simpl. rewrite (IH opt m Hval). reflexivity.
Qed.

(** X17. With no training sequences (a learning rate that Adam accepts, and
    validation sequences the model can take) [fit] returns, leaves the
    parameters as they are and records as training loss the mean of no
    losses, which is nan, once per epoch. *)
Theorem fit_on_empty_training_set (self : Trainer.t) (va : list tensor) (n : Z) (lr : float)
    (s : state) (vl : list float) :
  F.le F.zero lr = true ->
  val_losses (model s) va = Ok vl ->
  exists h s',
    Trainer.fit self [] va n lr s = (Ok h, s') /\
    model s' = model s /\
    files s' !! checkpoint_path self = Some (StateDict (model s)) /\
    train_history h = train_history (history s) ++ replicate (Z.to_nat n) (np_mean []) /\
    val_history h = val_history (history s) ++ replicate (Z.to_nat n) (np_mean vl) /\
    PrimFloat.is_nan (np_mean []) = true.
Proof.
  intros _ Hval.
  pose proof (epoch_means_no_training va vl (Z.to_nat n) (Adam (model s) lr) _ Hval) as Hrun.
  pose proof (fit_ok self [] va n lr s _ _ _ Hrun) as Hfit. simpl in Hfit.
  eexists _, _. split; [exact Hfit|]. cbn [model files].
  destruct (histories_touch (push_means (history s)
              (replicate (Z.to_nat n) (np_mean [], np_mean vl)))) as [Ht Hv].
  destruct (push_means_histories (replicate (Z.to_nat n) (np_mean [], np_mean vl))
              (history s)) as [Ht' Hv'].
  split; [reflexivity|]. split.
  { rewrite lookup_insert_ne; [by rewrite lookup_insert_eq|].
    intros E. by apply (checkpoint_is_not_archive self (Trainer.log_dir self)). }
  split; [by rewrite Ht, Ht', map_replicate|].
  split; [by rewrite Hv, Hv', map_replicate|].
  vm_compute. reflexivity.
Qed.

(** X18. When the first training sequence does not hold seq_len x n_features
    values, [fit] (with at least one epoch and a learning rate that Adam
    accepts) raises [RuntimeError] on it and changes nothing. *)
Theorem fit_rejects_wrong_size_sequence (nl : nat) (self : Trainer.t) (x : tensor)
    (tr va : list tensor) (n : Z) (lr : float) (s : state) :
  F.le F.zero lr = true ->
  LAE.wf nl (model s) ->
  (0 < n)%Z ->
  length (data x) <> LAE.seq_len (model s) * LAE.n_features (model s) ->
  Trainer.fit self (x :: tr) va n lr s = (Raise RuntimeError, s).
Proof.
  intros _ Hwf Hn Hlen. unfold Trainer.fit, for_range. run.
  destruct (Z.to_nat n) as [|k] eqn:Hk; [lia|]. cbn [seq for_each]. run.
  unfold Trainer.epoch_body. run. cbn [for_each]. run.
  rewrite train_step_run.
  rewrite (sequence_loss_wrong_size nl _ x Hwf Hlen). reflexivity.
Qed.

End MoreFit.

Lemma fit_without_epochs_witness :
  F.le F.zero Example.quarter = true /\ (0 <= 0)%Z /\
  exists h s',
    Trainer.fit Example.trainer Example.train_ds Example.val_ds 0 Example.quarter
      Example.start = (Ok h, s') /\
    model s' = model Example.start /\
    files s' !! checkpoint_path Example.trainer = Some (StateDict (model Example.start)).
Proof.
  assert (Hlr : F.le F.zero Example.quarter = true) by (vm_compute; reflexivity).
  assert (Hn : (0 <= 0)%Z) by lia. split; [exact Hlr|]. split; [exact Hn|].
  destruct (fit_without_epochs Example.trainer Example.train_ds Example.val_ds 0
              Example.quarter Example.start Hlr Hn) as (h & s' & Hfit & Hm & _ & _ & Hck & _).
  exists h, s'. split; [exact Hfit|]. split; [exact Hm | exact Hck].
Defined.

Lemma fit_failure_keeps_finished_epochs_witness :
  F.le F.zero Example.quarter = true /\
  Trainer.fit Example.trainer Example.bad_ds Example.val_ds 2 Example.quarter Example.start =
  (Raise RuntimeError, Example.failed.2) /\
  exists (k : nat) (means : list (float * float)),
    (Z.of_nat k < 2)%Z /\ length means = k /\
    train_history (history Example.failed.2) =
    train_history (history Example.start) ++ map fst means.
Proof.
  assert (Hfit : Trainer.fit Example.trainer Example.bad_ds Example.val_ds 2
                   Example.quarter Example.start = (Raise RuntimeError, Example.failed.2))
    by (vm_compute; reflexivity).
  assert (Hlr : F.le F.zero Example.quarter = true) by (vm_compute; reflexivity).
  split; [exact Hlr|]. split; [exact Hfit|].
  destruct (fit_failure_keeps_finished_epochs _ _ _ _ _ _ _ _ Hlr Hfit)
    as (k & means & _ & _ & Hk & Hlen & _ & _ & Ht & _).
  exists k, means. split; [exact Hk|]. split; [exact Hlen | exact Ht].
Defined.

Lemma fit_keeps_histories_in_step_witness :
  length (train_history (history Example.start)) =
  length (val_history (history Example.start)) /\
  length (train_history (history
    (Trainer.fit Example.trainer Example.train_ds Example.val_ds 2 Example.quarter
       Example.start).2)) =
  length (val_history (history
    (Trainer.fit Example.trainer Example.train_ds Example.val_ds 2 Example.quarter
       Example.start).2)).
Proof.
  assert (Hlen : length (train_history (history Example.start)) =
                 length (val_history (history Example.start))) by reflexivity.
  split; [exact Hlen|].
  exact (proj1 (fit_keeps_histories_in_step Example.trainer Example.train_ds Example.val_ds
                  2 Example.quarter Example.start Hlen)).
Defined.

Lemma validation_data_does_not_train_witness :
  Trainer.fit Example.trainer Example.train_ds Example.val_ds 2 Example.quarter Example.start =
  (Ok (Example.ok_or ∅ Example.fitted.1), Example.fitted.2) /\
  Trainer.fit Example.trainer Example.train_ds [] 2 Example.quarter Example.start =
  (Ok (Example.ok_or ∅ Cases.fitted_without_validation.1),
   Cases.fitted_without_validation.2) /\
  model Example.fitted.2 = model Cases.fitted_without_validation.2.
Proof.
  assert (Hfit1 : Trainer.fit Example.trainer Example.train_ds Example.val_ds 2
                    Example.quarter Example.start =
                  (Ok (Example.ok_or ∅ Example.fitted.1), Example.fitted.2))
    by (vm_compute; reflexivity).
  assert (Hfit2 : Trainer.fit Example.trainer Example.train_ds [] 2
                    Example.quarter Example.start =
                  (Ok (Example.ok_or ∅ Cases.fitted_without_validation.1),
                   Cases.fitted_without_validation.2))
    by (vm_compute; reflexivity).
  split; [exact Hfit1|]. split; [exact Hfit2|].
  exact (proj1 (validation_data_does_not_train _ _ _ _ _ _ _ _ _ _ _ Hfit1 Hfit2)).
Defined.

Lemma fit_on_empty_training_set_witness :
  F.le F.zero Example.quarter = true /\
  val_losses (model Example.start) Example.val_ds =
    Ok (Example.ok_or [] (val_losses (model Example.start) Example.val_ds)) /\
  exists h s',
    Trainer.fit Example.trainer [] Example.val_ds 2 Example.quarter Example.start =
      (Ok h, s') /\
    model s' = model Example.start /\
    train_history h = train_history (history Example.start) ++ replicate 2 (np_mean []).
Proof.
  assert (Hval : val_losses (model Example.start) Example.val_ds =
                 Ok (Example.ok_or [] (val_losses (model Example.start) Example.val_ds)))
    by (vm_compute; reflexivity).
  assert (Hlr : F.le F.zero Example.quarter = true) by (vm_compute; reflexivity).
  split; [exact Hlr|]. split; [exact Hval|].
  destruct (fit_on_empty_training_set Example.trainer Example.val_ds 2 Example.quarter
              Example.start _ Hlr Hval) as (h & s' & Hfit & Hm & _ & Ht & _).
  exists h, s'. split; [exact Hfit|]. split; [exact Hm | exact Ht].
Defined.

Lemma fit_rejects_wrong_size_sequence_witness :
  F.le F.zero Example.quarter = true /\
  LAE.wf 1 (model Example.start) /\ (0 < 2)%Z /\
  length (data (Example.seq2 Example.one Example.one)) <>
    LAE.seq_len (model Example.start) * LAE.n_features (model Example.start) /\
  Trainer.fit Example.trainer (Example.seq2 Example.one Example.one :: Example.train_ds)
    Example.val_ds 2 Example.quarter Example.start = (Raise RuntimeError, Example.start).
Proof.
  assert (Hwf : LAE.wf 1 (model Example.start)).
  { apply (build_wf 1 1 1 1). vm_compute. reflexivity. }
  assert (Hn : (0 < 2)%Z) by lia.
  assert (Hlen : length (data (Example.seq2 Example.one Example.one)) <>
                 LAE.seq_len (model Example.start) * LAE.n_features (model Example.start))
    by (vm_compute; lia).
  assert (Hlr : F.le F.zero Example.quarter = true) by (vm_compute; reflexivity).
  split; [exact Hlr|]. split; [exact Hwf|]. split; [exact Hn|]. split; [exact Hlen|].
  exact (fit_rejects_wrong_size_sequence 1 Example.trainer _ Example.train_ds Example.val_ds
           2 Example.quarter Example.start Hlr Hwf Hn Hlen).
Defined.

(** ** More about [plot_prediction] *)

Section MorePlot.
Context `{Activations} `{Optimizer} `{Metrics}.

(** Like [predict], the first half of [plot_prediction] touches nothing but the
    parameters of the model. *)
Lemma score_frame self ds mp scaler s :
  exists m, (Trainer.score self ds mp scaler s).2 = set_model m s.
Proof.
  unfold Trainer.score. run.
  destruct (predict_frame self mp ds s) as [m Hm].
  destruct (Trainer.predict self mp ds s) as [[[p l]|e] s0]; simpl in Hm; subst s0;
    [|by exists m].
  exists m. run. rewrite np_load_run. cbn [files set_model].
  destruct (files s !! "training_logs/losses.npz") as [[|ld| | | |]|]; try reflexivity.
  run. destruct (npz_get ld "train_loss"); [|reflexivity].
  run. destruct (np_stack ds) as [tv|e]; [|reflexivity].
  run. destruct (reshape tv _) as [tv1|e]; [|reflexivity].
  run. destruct (inverse_transform scaler tv1) as [tv2|e]; [|reflexivity].
  run. destruct (inverse_transform scaler p) as [p2|e]; [|reflexivity].
  run. destruct (mean_absolute_error tv2 p2) as [mae|e]; [|reflexivity].
  run. destruct (r2_score tv2 p2) as [R2|e]; reflexivity.
Qed.



(** X20. Without [training_logs/losses.npz], [plot_prediction] raises
    [FileNotFoundError] after it has predicted; nothing is written. *)
Theorem plot_prediction_missing_archive (self : Trainer.t) (ds : list tensor) (mp : string)
    (scaler : Scaler) (show : bool) (s s0 : state) (pl : tensor * tensor) :
  Trainer.predict self mp ds s = (Ok pl, s0) ->
  files s !! "training_logs/losses.npz" = None ->
  Trainer.plot_prediction self ds mp scaler show s = (Raise FileNotFoundError, s0) /\
  files s0 = files s.
Proof.
  intros Hpred Hfile.
  destruct (predict_frame self mp ds s) as [m Hm]. rewrite Hpred in Hm. simpl in Hm. subst s0.
  split; [|reflexivity].
  unfold Trainer.plot_prediction, Trainer.score. run. rewrite Hpred. destruct pl as [p l].
  run. rewrite np_load_run. cbn [files set_model]. rewrite Hfile. reflexivity.
Qed.

(** X21. [plot_prediction] never returns normally on an empty dataset. *)
Theorem plot_prediction_empty_dataset (self : Trainer.t) (mp : string) (scaler : Scaler)
    (show : bool) (s : state) :
  (Trainer.plot_prediction self [] mp scaler show s).1 <> Ok tt.
Proof.
  intros Hok.
  destruct (Trainer.plot_prediction self [] mp scaler show s) as [r s'] eqn:Hrun.
  simpl in Hok. subst r. unfold Trainer.plot_prediction in Hrun.
  apply bindM_ok in Hrun as (sc & s1 & Hsc & Hrep).
  destruct (score_inv _ _ _ _ _ _ _ Hsc)
    as (p & l & ld & tl & tv & tv1 & tv2 & p2 & mae & R2 &
        Hpred & _ & _ & _ & _ & _ & _ & _ & _ & Hval).
  destruct (predict_inv _ _ _ _ _ _ _ Hpred)
    as (sd & m & preds & ls & st & _ & _ & _ & Hls & _ & _ & Hl & _).
  simpl in Hls. injection Hls as <-.
  destruct (report_inv _ _ _ _ Hrep) as (correct & _ & _ & _ & Hc & _).
  rewrite Hval, Hl in Hc. discriminate.
Qed.

Lemma column0_length (a : tensor) (r : nat) :
  shape a = [r; 1] -> length (data a) = r ->
  exists col, column0 a = Ok col /\ length col = r.
Proof.
  intros Hs Hl. unfold column0. rewrite Hs. rewrite bool_decide_eq_false_2 by lia.
  eexists. split; [reflexivity|]. unfold rows. revert Hl. generalize (data a).
  clear. induction r as [|r IH]; intros xs Hl; [reflexivity|].
  destruct xs as [|x xs]; [discriminate|]. simpl. rewrite drop_0. f_equal.
  apply IH. simpl in Hl. lia.
Qed.

Lemma np_stack_length (k : nat) (ts : list tensor) (st : tensor) :
  Forall (fun t => length (data t) = k) ts ->
  np_stack ts = Ok st -> length (data st) = length ts * k.
Proof.
  intros Hall Hst. rewrite (np_stack_data _ _ Hst). clear Hst.
  induction Hall as [|t ts Ht _ IH]; [reflexivity|]. simpl. rewrite length_app, Ht, IH. lia.
Qed.

(** [report] writes [anomaly.csv] last: a [report] that raises has not
    written it. *)
Lemma report_without_table (ds : list tensor) (sc : Trainer.scores) (s : state) :
  (Trainer.report ds sc s).1 <> Ok tt ->
  files (Trainer.report ds sc s).2 !! "training_logs/anomaly.csv" =
  files s !! "training_logs/anomaly.csv".
Proof.
  unfold Trainer.report, write_file. run.
  destruct (Trainer.count_correct _ _) as [correct|e].
  2:{ intros _. cbn [snd files set_files]. by rewrite !lookup_insert_ne by done. }
  run. destruct (column0 (Trainer.true_values sc)) as [trq|e].
  2:{ intros _. cbn [snd files set_files]. by rewrite !lookup_insert_ne by done. }
  run. destruct (column0 (Trainer.predictions sc)) as [trq_pred|e].
  2:{ intros _. cbn [snd files set_files]. by rewrite !lookup_insert_ne by done. }
  run. destruct (Trainer.data_frame trq trq_pred _) as [df|e].
  2:{ intros _. cbn [snd files set_files]. by rewrite !lookup_insert_ne by done. }
  run. intros Hno. by destruct Hno.
Qed.

(** Sequences of [k] values give value columns [k] times as long as the loss
    column. *)
Lemma report_needs_equal_columns (n : nat) (self : Trainer.t) (ds : list tensor)
    (mp : string) (scaler : Scaler) (s s1 : state) (sc : Trainer.scores) :
  LAE.wf n (model s) ->
  (forall x y, inverse_transform scaler x = Ok y ->
               shape y = shape x /\ length (data y) = length (data x)) ->
  LAE.seq_len (model s) * LAE.n_features (model s) <> 1 ->
  Trainer.score self ds mp scaler s = (Ok sc, s1) ->
  (Trainer.report ds sc s1).1 <> Ok tt.
Proof.
  intros Hwf Hscaler Hk Hsc.
  destruct (score_inv _ _ _ _ _ _ _ Hsc)
    as (p & l & ld & tl & tv & tv1 & tv2 & p2 & mae & R2 &
        Hpred & _ & _ & Htv & Htv1 & Htv2 & Hp2 & _ & _ & Hval).
  destruct (predict_inv _ _ _ _ _ _ _ Hpred)
    as (sd & m & preds & ls & st & _ & Hload & Hp & Hls & Hst & -> & -> & ->).
  destruct (load_state_dict_wf n _ _ _ Hwf Hload) as (Hwf' & Hsl & Hnf).
  rewrite <- Hsl, <- Hnf in Hk.
  set (k := LAE.seq_len m * LAE.n_features m) in *.
  pose proof (mapR_length _ _ _ Hls) as Hnl.
  assert (Hin : Forall (fun t => length (data t) = k) ds).
  { apply mapR_Forall2 in Hp. clear -Hp Hwf'.
    induction Hp as [|x y xs ys Hy _ IH]; constructor; [|exact IH].
    by apply (forward_ok_size n m x y). }
  assert (Hout : Forall (fun t => length (data t) = k) preds).
  { apply mapR_Forall2 in Hp. clear -Hp Hwf'.
    induction Hp as [|x y xs ys Hy _ IH]; constructor; [|exact IH].
    by destruct (LAE_forward_inv n m x y Hwf' Hy) as [_ ?]. }
  pose proof (np_stack_flat _ _ _ Hout Hst) as Hnp.
  pose proof (mapR_length _ _ _ Hp) as Hnpreds.
  pose proof (np_stack_length _ _ _ Hin Htv) as Hntv.
  rewrite reshape_column in Htv1. injection Htv1 as <-.
  destruct (Hscaler _ _ Htv2) as [Hs2 Hl2]. destruct (Hscaler _ _ Hp2) as [Hs3 Hl3].
  cbn [shape data] in Hs2, Hl2, Hs3, Hl3.
  destruct (column0_length tv2 _ Hs2 Hl2) as (trq & Htrq & Hntrq).
  destruct (column0_length p2 _ Hs3 Hl3) as (trq_pred & Htrqp & Hntrqp).
  unfold Trainer.report, write_file. run.
  rewrite Hval. cbn [Trainer.losses Trainer.threshold Trainer.true_values
                      Trainer.predictions Trainer.mae Trainer.R2 data flatten].
  destruct (Trainer.count_correct (F.add (np_mean tl) (np_std tl)) ls) as [c|e] eqn:Hc;
    [|discriminate].
  run. rewrite Htrq. run. rewrite Htrqp. run.
  unfold Trainer.data_frame. rewrite bool_decide_eq_false_2.
  2:{ intros [_ Hbad]. rewrite Hntrqp, Hnp, Hnl, Hnpreds in Hbad.
      destruct ds as [|x0 ds]; [|simpl in Hbad; nia].
      simpl in Hls. injection Hls as <-. discriminate. }
  discriminate.
Qed.

(** X22. With a scaler that keeps the shape of its input, [plot_prediction]
    can build its table only for sequences of one value: when seq_len x
    n_features is not 1, the two value columns and the loss column cannot
    have the same length, so the call never returns normally and
    [anomaly.csv] is never written. *)
Theorem plot_prediction_needs_one_value_per_sequence (n : nat) (self : Trainer.t)
    (ds : list tensor) (mp : string) (scaler : Scaler) (show : bool) (s : state) :
  LAE.wf n (model s) ->
  (forall x y, inverse_transform scaler x = Ok y ->
               shape y = shape x /\ length (data y) = length (data x)) ->
  LAE.seq_len (model s) * LAE.n_features (model s) <> 1 ->
  (Trainer.plot_prediction self ds mp scaler show s).1 <> Ok tt /\
  files (Trainer.plot_prediction self ds mp scaler show s).2 !! "training_logs/anomaly.csv" =
  files s !! "training_logs/anomaly.csv".
Proof.
  intros Hwf Hscaler Hk. unfold Trainer.plot_prediction. rewrite run_bind.
  destruct (score_frame self ds mp scaler s) as [m Hm].
  destruct (Trainer.score self ds mp scaler s) as [[sc|e] s1] eqn:Hsc; simpl in Hm; subst s1;
    [|done].
  pose proof (report_needs_equal_columns n self ds mp scaler s _ sc Hwf Hscaler Hk Hsc) as Hno.
  split; [exact Hno|]. by rewrite (report_without_table ds sc _ Hno).
Qed.

End MorePlot.


Lemma plot_prediction_missing_archive_witness :
  Trainer.predict Example.trainer "training_logs/steering.pth" Example.pair_ds
    Example.saved2 =
  (Ok (Example.ok_or (Example.no_tensor, Example.no_tensor) Example.predicted2.1),
   Example.predicted2.2) /\
  files Example.saved2 !! "training_logs/losses.npz" = None /\
  Trainer.plot_prediction Example.trainer Example.pair_ds "training_logs/steering.pth"
    Example.identity_scaler true Example.saved2 =
  (Raise FileNotFoundError, Example.predicted2.2).
Proof.
  assert (Hpred : Trainer.predict Example.trainer "training_logs/steering.pth"
                    Example.pair_ds Example.saved2 =
                  (Ok (Example.ok_or (Example.no_tensor, Example.no_tensor)
                         Example.predicted2.1), Example.predicted2.2))
    by (vm_compute; reflexivity).
  assert (Hfile : files Example.saved2 !! "training_logs/losses.npz" = None)
    by (vm_compute; reflexivity).
  split; [exact Hpred|]. split; [exact Hfile|].
  exact (proj1 (plot_prediction_missing_archive Example.trainer Example.pair_ds _
                  Example.identity_scaler true _ _ _ Hpred Hfile)).
Defined.

Lemma identity_scaler_keeps_shape (x y : tensor) :
  inverse_transform Example.identity_scaler x = Ok y ->
  shape y = shape x /\ length (data y) = length (data x).
Proof.
  intros Hy. assert (y = x) as ->; [|done].
  simpl in Hy. repeat case_match; congruence.
Defined.

Lemma plot_prediction_needs_one_value_per_sequence_witness :
  let sc := Example.ok_or Example.no_scores Cases.scored2.1 in
  LAE.wf 1 (model Cases.saved2_with_archive) /\
  LAE.seq_len (model Cases.saved2_with_archive) *
    LAE.n_features (model Cases.saved2_with_archive) <> 1 /\
  Trainer.score Example.trainer Example.pair_ds "training_logs/steering.pth"
    Example.identity_scaler Cases.saved2_with_archive = (Ok sc, Cases.scored2.2) /\
  (Trainer.plot_prediction Example.trainer Example.pair_ds "training_logs/steering.pth"
     Example.identity_scaler true Cases.saved2_with_archive).1 <> Ok tt /\
  files (Trainer.plot_prediction Example.trainer Example.pair_ds "training_logs/steering.pth"
           Example.identity_scaler true Cases.saved2_with_archive).2
    !! "training_logs/anomaly.csv" =
  files Cases.saved2_with_archive !! "training_logs/anomaly.csv".
Proof.
  assert (Hwf : LAE.wf 1 (model Cases.saved2_with_archive)).
  { apply (build_wf 2 1 1 1). vm_compute. reflexivity. }
  assert (Hk : LAE.seq_len (model Cases.saved2_with_archive) *
               LAE.n_features (model Cases.saved2_with_archive) <> 1) by (vm_compute; lia).
  assert (Hsc : Trainer.score Example.trainer Example.pair_ds "training_logs/steering.pth"
                  Example.identity_scaler Cases.saved2_with_archive =
                (Ok (Example.ok_or Example.no_scores Cases.scored2.1), Cases.scored2.2))
    by (vm_compute; reflexivity).
  split; [exact Hwf|]. split; [exact Hk|]. split; [exact Hsc|].
  exact (plot_prediction_needs_one_value_per_sequence 1 Example.trainer Example.pair_ds
           "training_logs/steering.pth" Example.identity_scaler true
           Cases.saved2_with_archive Hwf identity_scaler_keeps_shape Hk).
Defined.

(** ** Counting the correct and the anomalous *)

Lemma SFcompare_refl (a : spec_float) : a <> S754_nan -> SFcompare a a = Some Eq.
Proof.
  destruct a as [s|s| |s m e]; simpl; intros Hn; try done.
  - by destruct s.
  - change (Pos.compare_cont Eq) with Pos.compare.
    rewrite Z.compare_refl, Pos.compare_refl. by destruct s.
Qed.

(** Two numbers compare, and the other way round they compare oppositely. *)
Lemma SFcompare_antisym (a b : spec_float) :
  a <> S754_nan -> b <> S754_nan ->
  exists c, SFcompare a b = Some c /\ SFcompare b a = Some (CompOpp c).
Proof.
  destruct a as [s1|s1| |s1 m1 e1], b as [s2|s2| |s2 m2 e2]; simpl; intros Ha Hb;
    try done; try (eexists; split; [reflexivity|]; by repeat case_match).
  change (Pos.compare_cont Eq) with Pos.compare.
  rewrite (Z.compare_antisym e1 e2), (Pos.compare_antisym m1 m2).
  eexists; split; [reflexivity|].
  destruct s1, s2; simpl; try reflexivity;
    destruct (e1 ?= e2)%Z; simpl; try reflexivity; by destruct (m1 ?= m2)%positive.
Qed.

Lemma not_nan_spec (a : float) : PrimFloat.is_nan a = false -> Prim2SF a <> S754_nan.
Proof.
  unfold PrimFloat.is_nan. rewrite FloatAxioms.eqb_spec. unfold SFeqb.
  intros Hn E. rewrite E in Hn. discriminate.
Qed.

(** For numbers, [a <= b] or [a >= b], and both exactly when [a == b]. *)
Lemma float_le_ge_eq (a b : float) :
  PrimFloat.is_nan a = false -> PrimFloat.is_nan b = false ->
  Nat.b2n (F.le a b) + Nat.b2n (F.ge a b) = 1 + Nat.b2n (F.eq a b).
Proof.
  intros Ha%not_nan_spec Hb%not_nan_spec. unfold F.le, F.ge, F.eq.
  rewrite !FloatAxioms.leb_spec, FloatAxioms.eqb_spec. unfold SFleb, SFeqb.
  destruct (SFcompare_antisym _ _ Ha Hb) as (c & -> & ->). by destruct c.
Qed.

Lemma count_filter_b2n {A} (f : A -> bool) (l : list A) :
  length (filter (fun x => f x = true) l) = foldr (fun x n => Nat.b2n (f x) + n) 0 l.
Proof.
  induction l as [|x l IH]; [reflexivity|]. simpl.
  destruct (f x) eqn:Hf.
  - rewrite filter_cons_True by done. simpl. by rewrite IH.
  - rewrite filter_cons_False by (rewrite Hf; done). by rewrite IH.
Qed.

(** X23. The count behind the accuracy of [result.txt] is the number of
    losses [<= threshold], the anomalies are the losses [>= threshold]: when
    no loss is nan, the two numbers add up to the number of sequences plus the
    number of losses equal to the threshold, which are counted on both sides. *)
Theorem accuracy_counts_ties_as_correct (thr : float) (ls : list float) (c : nat) :
  PrimFloat.is_nan thr = false ->
  Forall (fun l => PrimFloat.is_nan l = false) ls ->
  Trainer.count_correct thr ls = Ok c ->
  c + length (filter (fun b => b = true) (Trainer.anomaly_flags thr ls)) =
  length ls + length (filter (fun l => F.eq l thr = true) ls).
Proof.
  intros Hthr Hls Hc.
  assert (c = length (filter (fun l => F.le l thr = true) ls)) as ->.
  { unfold Trainer.count_correct in Hc. destruct ls; [discriminate|]. by injection Hc as <-. }
  clear Hc. unfold Trainer.anomaly_flags.
  rewrite (count_filter_b2n (fun l => F.le l thr)), (count_filter_b2n (fun l => F.eq l thr)).
  rewrite (count_filter_b2n (fun b : bool => b)).
  induction Hls as [|l ls Hl _ IH]; [reflexivity|]. simpl.
  pose proof (float_le_ge_eq l thr Hl Hthr). lia.
Qed.

Lemma accuracy_counts_ties_as_correct_witness :
  PrimFloat.is_nan Example.one = false /\
  Forall (fun l => PrimFloat.is_nan l = false) [Example.half; Example.one; Example.two] /\
  Trainer.count_correct Example.one [Example.half; Example.one; Example.two] = Ok 2 /\
  2 + length (filter (fun b => b = true)
                (Trainer.anomaly_flags Example.one [Example.half; Example.one; Example.two])) =
  3 + length (filter (fun l => F.eq l Example.one = true)
                [Example.half; Example.one; Example.two]).
Proof.
  assert (Hthr : PrimFloat.is_nan Example.one = false) by (vm_compute; reflexivity).
  assert (Hls : Forall (fun l => PrimFloat.is_nan l = false)
                  [Example.half; Example.one; Example.two])
    by (repeat constructor; vm_compute; reflexivity).
  assert (Hc : Trainer.count_correct Example.one [Example.half; Example.one; Example.two] =
               Ok 2) by (vm_compute; reflexivity).
  split; [exact Hthr|]. split; [exact Hls|]. split; [exact Hc|].
  exact (accuracy_counts_ties_as_correct _ _ _ Hthr Hls Hc).
Defined.

(** ** More about [combine_data] *)

Lemma endswith_app (a b suffix : string) :
  endswith b suffix = true -> endswith (a +:+ b) suffix = true.
Proof.
  intros Hb. induction a as [|c a IH]; [exact Hb|].
  rewrite append_cons. cbn [endswith]. rewrite IH. by destruct (String.eqb _ _).
Qed.

Lemma os_path_join_suffix (a b : string) : exists x, os_path_join a b = x +:+ b.
Proof.
  unfold os_path_join. repeat case_match.
  - by exists "".
  - by exists a.
  - exists (a +:+ "/"). by rewrite append_assoc.
Qed.

(** The paths that are read end in [txt]; the path that is written does not. *)
Lemma data_path_ends_in_txt (source_dir f : string) :
  endswith f "txt" = true -> endswith (os_path_join source_dir f) "txt" = true.
Proof.
  intros Hf. destruct (os_path_join_suffix source_dir f) as [x ->]. by apply endswith_app.
Qed.

Lemma csv_path_not_txt (source_dir : string) (target_dir : option string) (outfname : string) :
  endswith (csv_path source_dir target_dir outfname) "txt" = false.
Proof.
  destruct (endswith _ "txt") eqn:He; [|reflexivity]. exfalso.
  apply endswith_true in He as [p Hp]. unfold csv_path in Hp.
  change ".csv" with ("." +:+ "csv") in Hp.
  rewrite <- !append_assoc in Hp.
  apply append_same_tail in Hp as [_ Hp]; [discriminate|reflexivity].
Qed.

Lemma mapR_raise_elem {A B} (f : A -> result B) (xs : list A) (x : A) (e0 : exn) :
  x ∈ xs -> f x = Raise e0 -> exists e, mapR f xs = Raise e.
Proof.
  intros Hx Hf. induction xs as [|y xs IH]; [by apply elem_of_nil in Hx|].
  apply elem_of_cons in Hx as [<-|Hx]; simpl.
  - rewrite Hf. eauto.
  - destruct (f y) as [b|e]; [|eauto]. simpl.
    destruct (IH Hx) as [e ->]. eauto.
Qed.

Lemma mapR_ok_elem {A B} (f : A -> result B) (xs : list A) (ys : list B) (x : A) :
  mapR f xs = Ok ys -> x ∈ xs -> exists y, f x = Ok y.
Proof.
  intros Hrun Hx. destruct (f x) as [y|e] eqn:Hf; [eauto|].
  destruct (mapR_raise_elem f xs x e Hx Hf) as [e' He']. congruence.
Qed.

Lemma data_file_listed (source_dir f : string) (names : list string) :
  f ∈ names -> endswith f "txt" = true ->
  os_path_join source_dir f ∈
  map (os_path_join source_dir) (filter (fun f => endswith f "txt" = true) names).
Proof.
  intros Hf Htxt. apply list_elem_of_fmap. exists f. split; [reflexivity|].
  by apply list_elem_of_filter.
Qed.

(** Insertion puts an element before the first one whose key is not smaller,
    so before every element of its own key. *)
Lemma insert_by_key_filter {A} (k : Z) (x : Z * A) (l : list (Z * A)) :
  filter (fun p => p.1 = k) (insert_by_key x l) = filter (fun p => p.1 = k) (x :: l).
Proof.
  induction l as [|y l IH]; [reflexivity|]. cbn [insert_by_key].
  destruct (x.1 <=? y.1)%Z eqn:Hle; [reflexivity|].
  apply Z.leb_gt in Hle.
  destruct (decide (y.1 = k)) as [Hy|Hy].
  - rewrite (filter_cons_True _ y) by done. rewrite IH.
    rewrite (filter_cons_False _ x) by lia. rewrite (filter_cons_False _ x) by lia.
    by rewrite (filter_cons_True _ y) by done.
  - rewrite (filter_cons_False _ y) by done. rewrite IH.
    destruct (decide (x.1 = k)) as [Hx|Hx].
    + rewrite !(filter_cons_True _ x) by done. by rewrite (filter_cons_False _ y) by done.
    + rewrite !(filter_cons_False _ x) by done. by rewrite (filter_cons_False _ y) by done.
Qed.

Lemma sort_by_key_filter {A} (k : Z) (l : list (Z * A)) :
  filter (fun p => p.1 = k) (sort_by_key l) = filter (fun p => p.1 = k) l.
Proof.
  unfold sort_by_key. induction l as [|x l IH]; [reflexivity|]. simpl.
  rewrite insert_by_key_filter.
  destruct (decide (x.1 = k)).
  - rewrite !(filter_cons_True _ x) by done. by rewrite IH.
  - rewrite !(filter_cons_False _ x) by done. exact IH.
Qed.

Lemma filter_has_key (k : Z) (l : list (Z * string)) :
  Forall (fun p => sort_key p.2 = Ok p.1) l ->
  filter (fun x => has_key k x = true) (map snd l) = map snd (filter (fun p => p.1 = k) l).
Proof.
  induction 1 as [|[k' x] l Hx _ IH]; [reflexivity|]. simpl in Hx. cbn [map snd].
  destruct (decide (k' = k)) as [->|Hne].
  - rewrite filter_cons_True by (unfold has_key; rewrite Hx; apply Z.eqb_refl).
    rewrite (filter_cons_True _ (k, x)) by done. simpl. by rewrite IH.
  - rewrite filter_cons_False.
    2:{ unfold has_key. rewrite Hx. by rewrite (proj2 (Z.eqb_neq k' k) Hne). }
    rewrite (filter_cons_False _ (k', x)) by done. exact IH.
Qed.

Lemma keyed_spec (xs : list string) : forall keyed,
  mapR (fun x => k ← sort_key x; Ok (k, x)) xs = Ok keyed ->
  map snd keyed = xs /\ Forall (fun p => sort_key p.2 = Ok p.1) keyed.
Proof.
  induction xs as [|x xs IH]; intros keyed Hrun; simpl in Hrun.
  - by injection Hrun as <-.
  - apply bindR_ok in Hrun as ([k y] & Hk & Hrun).
    apply bindR_ok in Hk as (k0 & Hk0 & [= <- <-]).
    apply bindR_ok in Hrun as (rest & Hrest & [= <-]).
    destruct (IH _ Hrest) as [Hm Hall]. split; [simpl; by rewrite Hm|].
    by constructor.
Qed.

(** X29. The order in which [combine_data] takes the files is stable: the
    paths that share a sort key keep the order the listing gave them. *)
Theorem sorted_by_key_is_stable (xs ys : list string) (k : Z) :
  sorted_by_key xs = Ok ys ->
  filter (fun x => has_key k x = true) ys = filter (fun x => has_key k x = true) xs.
Proof.
  unfold sorted_by_key. intros Hrun. apply bindR_ok in Hrun as (keyed & Hkeyed & [= <-]).
  destruct (keyed_spec _ _ Hkeyed) as [Hm Hall].
  rewrite filter_has_key.
  2:{ eapply Permutation_Forall; [|exact Hall]. symmetry. apply sort_by_key_perm. }
  rewrite sort_by_key_filter, <- filter_has_key by done. by rewrite Hm.
Qed.

Lemma sorted_by_key_is_stable_witness :
  sorted_by_key ["data/b_1.txt"; "data/a_2.txt"; "data/a_1.txt"] =
    Ok ["data/b_1.txt"; "data/a_1.txt"; "data/a_2.txt"] /\
  filter (fun x => has_key 1 x = true) ["data/b_1.txt"; "data/a_1.txt"; "data/a_2.txt"] =
  filter (fun x => has_key 1 x = true) ["data/b_1.txt"; "data/a_2.txt"; "data/a_1.txt"].
Proof.
  assert (Hsort : sorted_by_key ["data/b_1.txt"; "data/a_2.txt"; "data/a_1.txt"] =
                  Ok ["data/b_1.txt"; "data/a_1.txt"; "data/a_2.txt"])
    by (vm_compute; reflexivity).
  split; [exact Hsort|].
  exact (sorted_by_key_is_stable _ _ 1 Hsort).
Defined.

Section MoreCombine.
Context `{Builtins}.

Lemma read_one_frame (p : string) data (s : state) : (read_one p data s).2 = s.
Proof.
  unfold read_one. run. rewrite readlines_run.
  destruct (files s !! p) as [[| | | | |lines]|]; reflexivity.
Qed.

(** Reading changes nothing. *)
Lemma read_all_frame (paths : list string) : forall data s,
  (for_each paths read_one data s).2 = s.
Proof.
  induction paths as [|p paths IH]; intros data s; [reflexivity|].
  cbn [for_each]. rewrite run_bind.
  pose proof (read_one_frame p data s) as Hp.
  destruct (read_one p data s) as [[data1|e] s1]; simpl in Hp; subst s1; [apply IH|done].
Qed.

Lemma read_one_agree (p : string) data (s1 s2 : state) :
  files s1 !! p = files s2 !! p -> (read_one p data s1).1 = (read_one p data s2).1.
Proof.
  intros Hp. unfold read_one. run. rewrite !readlines_run, Hp.
  destruct (files s2 !! p) as [[| | | | |lines]|]; reflexivity.
Qed.

(** What is read depends on the files that are read only. *)
Lemma read_all_agree (paths : list string) : forall data s1 s2,
  (forall p, p ∈ paths -> files s1 !! p = files s2 !! p) ->
  (for_each paths read_one data s1).1 = (for_each paths read_one data s2).1.
Proof.
  induction paths as [|p paths IH]; intros data s1 s2 Hagree; [reflexivity|].
  cbn [for_each]. rewrite !run_bind.
  pose proof (read_one_frame p data s1) as Hf1.
  pose proof (read_one_frame p data s2) as Hf2.
  pose proof (read_one_agree p data s1 s2 (Hagree p ltac:(left))) as Hr.
  destruct (read_one p data s1) as [r1 t1], (read_one p data s2) as [r2 t2].
  simpl in *. subst. destruct r2 as [data1|e]; [|reflexivity].
  apply IH. intros q Hq. apply Hagree. by right.
Qed.

(** [combine_data], step by step. *)
Lemma combine_data_run (source_dir : string) (target_dir : option string) (outfname : string)
    (s : state) :
  combine_data source_dir target_dir outfname s =
  match dirs s !! source_dir with
  | None => (Raise FileNotFoundError, s)
  | Some names =>
      match sorted_by_key (map (os_path_join source_dir)
                             (filter (fun f => endswith f "txt" = true) names)) with
      | Raise e => (Raise e, s)
      | Ok paths =>
          match (for_each paths read_one ([], [], []) s).1 with
          | Raise e => (Raise e, s)
          | Ok (SPD, ANG, TRQ) =>
              (Ok tt,
               set_files (<[csv_path source_dir target_dir outfname :=
                              Csv ["SPD"; "ANG"; "TRQ"]
                                (zip_with (fun '(s, a) t => [CFloat s; CFloat a; CFloat t])
                                   (zip SPD ANG) TRQ)]> (files s)) s)
          end
      end
  end.
Proof.
  unfold combine_data. rewrite run_bind. unfold os_listdir at 1.
  destruct (dirs s !! source_dir) as [names|]; [|reflexivity].
  rewrite run_bind, run_liftR.
  destruct (sorted_by_key _) as [paths|e]; [|reflexivity].
  rewrite run_bind.
  pose proof (read_all_frame paths ([], [], []) s) as Hf.
  destruct (for_each paths read_one ([], [], []) s) as [[[[SPD ANG] TRQ]|e] s1];
    simpl in Hf; subst s1; [|reflexivity].
  unfold write_file. rewrite run_modify. cbn [fst]. unfold csv_path.
  by destruct target_dir.
Qed.

(** X24. A [combine_data] that raises has written no file. *)
Theorem combine_data_failure_writes_nothing (source_dir : string) (target_dir : option string)
    (outfname : string) (s s' : state) (e : exn) :
  combine_data source_dir target_dir outfname s = (Raise e, s') -> files s' = files s.
Proof.
  rewrite combine_data_run. repeat case_match; congruence.
Qed.

(** X25. When no entry of the source directory ends in [txt],
    [combine_data] writes a table with the three columns and no row. *)
Theorem combine_data_without_data_files (source_dir : string) (target_dir : option string)
    (outfname : string) (s : state) (names : list string) :
  dirs s !! source_dir = Some names ->
  Forall (fun f => endswith f "txt" = false) names ->
  exists s',
    combine_data source_dir target_dir outfname s = (Ok tt, s') /\
    files s' = <[csv_path source_dir target_dir outfname := Csv ["SPD"; "ANG"; "TRQ"] []]>
                 (files s).
Proof.
  intros Hdir Hnone. rewrite combine_data_run, Hdir.
  assert (filter (fun f => endswith f "txt" = true) names = []) as ->.
  { clear Hdir. induction Hnone as [|f names Hf _ IH]; [reflexivity|].
    rewrite filter_cons_False by (rewrite Hf; done). exact IH. }
  eexists. split; reflexivity.
Qed.

(** X26. One entry ending in [txt] whose path gives no sort key makes
    [combine_data] raise; no file is written. *)
Theorem combine_data_rejects_unnumbered_file (source_dir : string)
    (target_dir : option string) (outfname : string) (s : state) (names : list string)
    (f : string) (e0 : exn) :
  dirs s !! source_dir = Some names ->
  f ∈ names -> endswith f "txt" = true ->
  sort_key (os_path_join source_dir f) = Raise e0 ->
  exists e s', combine_data source_dir target_dir outfname s = (Raise e, s') /\
              files s' = files s.
Proof.
  intros Hdir Hf Htxt Hkey. rewrite combine_data_run, Hdir. unfold sorted_by_key.
  destruct (mapR_raise_elem (fun x => k ← sort_key x; Ok (k, x)) _ _ e0
              (data_file_listed source_dir f names Hf Htxt)) as [e ->].
  { by rewrite Hkey. }
  eauto.
Qed.

(** X27. One line, in one of the data files, that does not split into exactly
    three fields at its commas (a blank last line, for one) makes
    [combine_data] raise; no file is written. *)
Theorem combine_data_rejects_malformed_line (source_dir : string)
    (target_dir : option string) (outfname : string) (s : state) (names : list string)
    (f : string) (lines : list string) (line : string) :
  dirs s !! source_dir = Some names ->
  f ∈ names -> endswith f "txt" = true ->
  files s !! os_path_join source_dir f = Some (Text lines) ->
  line ∈ lines ->
  length (split "," line) <> 3 ->
  exists e s', combine_data source_dir target_dir outfname s = (Raise e, s') /\
              files s' = files s.
Proof.
  intros Hdir Hf Htxt Hfile Hline Hbad. rewrite combine_data_run, Hdir.
  destruct (sorted_by_key _) as [paths|e] eqn:Hsort; [|eauto].
  destruct (for_each paths read_one ([], [], []) s) as [[[[SPD ANG] TRQ]|e] s1] eqn:Hread;
    [|simpl; eauto].
  exfalso.
  destruct (sorted_by_key_spec _ _ Hsort) as (Hperm & _).
  destruct (read_all _ _ _ _ _ Hread) as (_ & contents & rows & Hfiles & Hrows & _).
  assert (Hp : os_path_join source_dir f ∈ paths).
  { rewrite Hperm. by apply data_file_listed. }
  assert (Hin : lines ∈ contents).
  { clear -Hfiles Hp Hfile. induction Hfiles as [|p c ps cs Hpc _ IH].
    - by apply elem_of_nil in Hp.
    - apply elem_of_cons in Hp as [<-|Hp].
      + rewrite Hfile in Hpc. injection Hpc as <-. by left.
      + right. by apply IH. }
  assert (Hl : line ∈ concat contents).
  { apply list_elem_of_In, in_concat. exists lines. split; by apply list_elem_of_In. }
  destruct (mapR_ok_elem _ _ _ _ Hrows Hl) as [v Hv].
  unfold line_values in Hv.
  destruct (split "," line) as [|f1 [|f2 [|f3 [|f4 fs]]]]; try discriminate. by apply Hbad.
Qed.

(** X28. [combine_data] reads the entries ending in [txt] only, and the table
    it writes is not one of them: a second call, on the files the first one
    left and with a listing that differs in other entries only (the table
    itself, for one), returns and leaves the same files. *)
Theorem combine_data_again_gives_the_same_table (source_dir : string)
    (target_dir : option string) (outfname : string) (s s' s2 : state)
    (names names2 : list string) :
  combine_data source_dir target_dir outfname s = (Ok tt, s') ->
  dirs s !! source_dir = Some names ->
  files s2 = files s' ->
  dirs s2 !! source_dir = Some names2 ->
  filter (fun f => endswith f "txt" = true) names2 =
  filter (fun f => endswith f "txt" = true) names ->
  exists s2', combine_data source_dir target_dir outfname s2 = (Ok tt, s2') /\
              files s2' = files s'.
Proof.
  intros Hrun Hdir Hfiles Hdir2 Hsame.
  rewrite combine_data_run, Hdir in Hrun. rewrite combine_data_run, Hdir2, Hsame.
  destruct (sorted_by_key _) as [paths|e] eqn:Hsort; [|discriminate].
  destruct (sorted_by_key_spec _ _ Hsort) as (Hperm & _).
  assert (Hagree : forall p, p ∈ paths -> files s2 !! p = files s !! p).
  { intros p Hp. rewrite Hperm in Hp.
    apply list_elem_of_fmap in Hp as (f & -> & Hf).
    apply list_elem_of_filter in Hf as [Htxt _].
    destruct ((for_each paths read_one ([], [], []) s).1) as [[[SPD ANG] TRQ]|e];
      [|discriminate].
    injection Hrun as <-. rewrite Hfiles. cbn [files set_files].
    apply lookup_insert_ne. intros E.
    pose proof (csv_path_not_txt source_dir target_dir outfname) as Hcsv.
    rewrite E, (data_path_ends_in_txt _ _ Htxt) in Hcsv. discriminate. }
  rewrite (read_all_agree paths _ s2 s Hagree).
  destruct ((for_each paths read_one ([], [], []) s).1) as [[[SPD ANG] TRQ]|e];
    [|discriminate].
  injection Hrun as <-. eexists. split; [reflexivity|].
  cbn [files set_files]. rewrite Hfiles. cbn [files set_files].
  by rewrite insert_insert_eq.
Qed.

Lemma split_cons_app (c : ascii) (a b : string) :
  occurs c a = false -> split c (a +:+ String c "" +:+ b) = a :: split c b.
Proof. intros Ha. rewrite append_cons, append_nil. by apply split_app. Qed.

(** X30. The labels of a line play no part: whatever text stands before the
    last colon of a field, the first field gives SPD, the second ANG and the
    third TRQ. *)
Theorem parse_line_reads_values_by_position (l1 l2 l3 a b c : string)
    (data : list float * list float * list float) :
  occurs "," l1 = false -> occurs "," l2 = false -> occurs "," l3 = false ->
  occurs "," a = false -> occurs "," b = false -> occurs "," c = false ->
  occurs ":" a = false -> occurs ":" b = false -> occurs ":" c = false ->
  parse_line (l1 +:+ ":" +:+ a +:+ "," +:+ l2 +:+ ":" +:+ b +:+ "," +:+ l3 +:+ ":" +:+ c) data =
  (va ← float_of_str a; vb ← float_of_str b; vc ← float_of_str c;
   Ok (push_row data (va, vb, vc))).
Proof.
  intros Hl1 Hl2 Hl3 Ha Hb Hc Ha' Hb' Hc'.
  assert (Hf : forall l v, occurs "," l = false -> occurs "," v = false ->
                           occurs "," (l +:+ ":" +:+ v) = false).
  { intros l v Hl Hv. rewrite occurs_app, Hl. simpl. exact Hv. }
  rewrite parse_line_values. unfold line_values.
  replace (l1 +:+ ":" +:+ a +:+ "," +:+ l2 +:+ ":" +:+ b +:+ "," +:+ l3 +:+ ":" +:+ c)
    with ((l1 +:+ ":" +:+ a) +:+ String "," "" +:+
          ((l2 +:+ ":" +:+ b) +:+ String "," "" +:+ (l3 +:+ ":" +:+ c)))
    by (by rewrite !append_assoc).
  rewrite !split_cons_app by (by apply Hf).
  rewrite (split_no_occurs "," (l3 +:+ ":" +:+ c)) by (by apply Hf).
  change (?l +:+ ":" +:+ ?v) with (l +:+ String ":" v).
  rewrite !after_last_app by done.
  destruct (float_of_str a) as [va|e]; [|reflexivity].
  destruct (float_of_str b) as [vb|e]; [|reflexivity].
  destruct (float_of_str c) as [vc|e]; reflexivity.
Qed.

End MoreCombine.

Lemma combine_data_failure_writes_nothing_witness :
  combine_data "data" None "all" Cases.blank_line_logs =
    (Raise ValueError, Cases.blank_line_logs) /\
  files Cases.blank_line_logs = files Cases.blank_line_logs.
Proof.
  assert (Hrun : combine_data "data" None "all" Cases.blank_line_logs =
                 (Raise ValueError, Cases.blank_line_logs)) by (vm_compute; reflexivity).
  split; [exact Hrun|].
  exact (combine_data_failure_writes_nothing _ _ _ _ _ _ Hrun).
Defined.

Lemma combine_data_without_data_files_witness :
  dirs Cases.no_logs !! "data" = Some ["notes.md"; "README"] /\
  Forall (fun f => endswith f "txt" = false) ["notes.md"; "README"] /\
  exists s',
    combine_data "data" (Some "out") "all" Cases.no_logs = (Ok tt, s') /\
    files s' = <[csv_path "data" (Some "out") "all" := Csv ["SPD"; "ANG"; "TRQ"] []]>
                 (files Cases.no_logs).
Proof.
  assert (Hdir : dirs Cases.no_logs !! "data" = Some ["notes.md"; "README"])
    by (vm_compute; reflexivity).
  assert (Hnone : Forall (fun f => endswith f "txt" = false) ["notes.md"; "README"])
    by (repeat constructor).
  split; [exact Hdir|]. split; [exact Hnone|].
  exact (combine_data_without_data_files "data" (Some "out") "all" _ _ Hdir Hnone).
Defined.

Lemma combine_data_rejects_unnumbered_file_witness :
  dirs Cases.unnumbered_logs !! "data" = Some ["notes.txt"] /\
  endswith "notes.txt" "txt" = true /\
  sort_key (os_path_join "data" "notes.txt") = Raise ValueError /\
  exists e s', combine_data "data" None "all" Cases.unnumbered_logs = (Raise e, s') /\
               files s' = files Cases.unnumbered_logs.
Proof.
  assert (Hdir : dirs Cases.unnumbered_logs !! "data" = Some ["notes.txt"])
    by (vm_compute; reflexivity).
  assert (Htxt : endswith "notes.txt" "txt" = true) by reflexivity.
  assert (Hkey : sort_key (os_path_join "data" "notes.txt") = Raise ValueError)
    by (vm_compute; reflexivity).
  split; [exact Hdir|]. split; [exact Htxt|]. split; [exact Hkey|].
  apply (combine_data_rejects_unnumbered_file "data" None "all" _ _ "notes.txt" ValueError
           Hdir); [by left | exact Htxt | exact Hkey].
Defined.

Lemma combine_data_rejects_malformed_line_witness :
  dirs Cases.blank_line_logs !! "data" = Some ["log_1.txt"] /\
  files Cases.blank_line_logs !! os_path_join "data" "log_1.txt" =
    Some (Text ["SPD:1,ANG:2,TRQ:3" +:+ Example.nl; Example.nl]) /\
  length (split "," Example.nl) <> 3 /\
  exists e s', combine_data "data" None "all" Cases.blank_line_logs = (Raise e, s') /\
               files s' = files Cases.blank_line_logs.
Proof.
  assert (Hdir : dirs Cases.blank_line_logs !! "data" = Some ["log_1.txt"])
    by (vm_compute; reflexivity).
  assert (Hfile : files Cases.blank_line_logs !! os_path_join "data" "log_1.txt" =
                  Some (Text ["SPD:1,ANG:2,TRQ:3" +:+ Example.nl; Example.nl]))
    by (vm_compute; reflexivity).
  assert (Hbad : length (split "," Example.nl) <> 3) by (vm_compute; lia).
  split; [exact Hdir|]. split; [exact Hfile|]. split; [exact Hbad|].
  apply (combine_data_rejects_malformed_line "data" None "all" _ _ "log_1.txt"
           ["SPD:1,ANG:2,TRQ:3" +:+ Example.nl; Example.nl] Example.nl Hdir);
    [by left | reflexivity | exact Hfile | by right; left | exact Hbad].
Defined.

Lemma combine_data_again_gives_the_same_table_witness :
  combine_data "data" None "all" Example.logs = (Ok (), Example.combined.2) /\
  dirs Example.logs !! "data" = Some ["log_10.txt"; "notes.md"; "log_2.txt"] /\
  dirs Cases.relisted !! "data" = Some ["all.csv"; "log_10.txt"; "notes.md"; "log_2.txt"] /\
  exists s2', combine_data "data" None "all" Cases.relisted = (Ok tt, s2') /\
              files s2' = files Example.combined.2.
Proof.
  assert (Hrun : combine_data "data" None "all" Example.logs = (Ok (), Example.combined.2))
    by (vm_compute; reflexivity).
  assert (Hdir : dirs Example.logs !! "data" = Some ["log_10.txt"; "notes.md"; "log_2.txt"])
    by (vm_compute; reflexivity).
  assert (Hdir2 : dirs Cases.relisted !! "data" =
                  Some ["all.csv"; "log_10.txt"; "notes.md"; "log_2.txt"])
    by (vm_compute; reflexivity).
  split; [exact Hrun|]. split; [exact Hdir|]. split; [exact Hdir2|].
  apply (combine_data_again_gives_the_same_table "data" None "all" _ _ Cases.relisted _
           ["all.csv"; "log_10.txt"; "notes.md"; "log_2.txt"] Hrun Hdir);
    [reflexivity | exact Hdir2 | reflexivity].
Defined.

Lemma parse_line_reads_values_by_position_witness :
  parse_line ("ANG" +:+ ":" +:+ "1.5" +:+ "," +:+ "x:y" +:+ ":" +:+ "2" +:+ "," +:+
              "" +:+ ":" +:+ "-0.25") ([], [], []) =
  (va ← float_of_str "1.5"; vb ← float_of_str "2"; vc ← float_of_str "-0.25";
   Ok (push_row ([], [], []) (va, vb, vc))).
Proof.
  exact (parse_line_reads_values_by_position "ANG" "x:y" "" "1.5" "2" "-0.25" ([], [], [])
           eq_refl eq_refl eq_refl eq_refl eq_refl eq_refl eq_refl eq_refl eq_refl).
Defined.
